(** * Medal design core: shapes, motifs, manufacturability checks, composer

    A shallow embedding of [shapes.py], [motifs.py], [constraints.py] and
    [composer.py], of the two drawings of [renderer.py], of the conversion
    of a suggestion in [ai_suggester.py] and of the composition that
    [generate_medal] of [main.py] composes.

    Numbers.  Python [float] values are modelled by the real numbers [R]:
    rounding, overflow and NaN are outside the model.  Python [int] counters
    are [nat] (loop indices) or [Z] (results of [int(...)]).

    Geometry.  A Shapely [Polygon] is modelled by its exterior ring, the list
    of vertices given to [Polygon(points)], the closing edge being implicit;
    the empty list is the empty polygon.  Operations that are plain
    coordinate arithmetic ([bounds], [area], [rotate], [box]) are defined
    here; the operations computed by the GEOS library (buffering, validity,
    containment, boundary distance) are the fields of the class [Shapely],
    over which the development is parametric.

    Exceptions.  The only Python exception the modelled code can raise over
    the reals is [ZeroDivisionError]; code that can raise it lives in the
    [result] monad.  [generate_medal] can raise [IndexError] before it
    composes; it has an exception type of its own. *)

From Stdlib Require Import Reals Lra Lia List String ZArith Bool.
Import ListNotations.
Local Open Scope R_scope.

Set Implicit Arguments.

(** ** Python values *)

Module Py.

Inductive exn : Type :=
| ZeroDivisionError.

(** [inl e]: the call raised [e]; [inr v]: it returned [v]. *)
Definition result (A : Type) : Type := (exn + A)%type.

Definition ret {A} (a : A) : result A := inr a.
Definition raise {A} (e : exn) : result A := inl e.
Definition bind {A B} (m : result A) (k : A -> result B) : result B :=
  match m with
  | inl e => inl e
  | inr a => k a
  end.

(** Float comparisons as booleans. *)
Definition ltb (a b : R) : bool := if Rlt_dec a b then true else false.
Definition gtb (a b : R) : bool := ltb b a.
Definition eqb (a b : R) : bool := if Req_dec_T a b then true else false.

(** [a / b] on floats. *)
Definition div (a b : R) : result R :=
  if eqb b 0 then raise ZeroDivisionError else ret (a / b).

(** [int(x)]: truncation towards zero. *)
Definition int (x : R) : Z :=
  if Rle_dec 0 x then Int_part x else (- Int_part (- x))%Z.

(** [x or d] on a float: [x] unless it is falsy, that is zero. *)
Definition or_else (x d : R) : R := if eqb x 0 then d else x.

(** [range(a, b)] for [a <= b]. *)
Definition range (a b : nat) : list nat := seq a (b - a).

(** [for x in xs: acc.extend(f(x))] where [f] may raise. *)
Fixpoint extend_each {A B} (f : A -> result (list B)) (xs : list A)
  : result (list B) :=
  match xs with
  | [] => ret []
  | x :: xs' =>
      bind (f x) (fun ys =>
      bind (extend_each f xs') (fun rest => ret (ys ++ rest)))
  end.

End Py.

Declare Scope py_scope.
Delimit Scope py_scope with py.
Notation "x <- m ;; k" := (Py.bind m (fun x => k))
  (at level 61, m at next level, right associativity) : py_scope.

(** Settle the float comparisons of a goal by linear arithmetic. *)
Ltac py_cmp :=
  unfold Py.or_else, Py.gtb, Py.ltb, Py.eqb in *;
  repeat match goal with
    | |- context [Rlt_dec ?a ?b] => destruct (Rlt_dec a b); try lra
    | |- context [Req_dec_T ?a ?b] => destruct (Req_dec_T a b); try lra
    end.

(** ** Geometry: what the code uses of Shapely *)

Definition point : Type := (R * R)%type.

(** The exterior ring of a polygon without holes. *)
Definition Polygon : Type := list point.

(** A motif stroke: [List[Tuple[float, float]]]. *)
Definition Polyline : Type := list point.

Definition BBox : Type := (R * R * R * R)%type.

Module Geo.

Definition translate (ox oy : R) (p : point) : point :=
  (fst p + ox, snd p + oy).

(** [polygon.bounds]: (minx, miny, maxx, maxy) over the ring.  Shapely
    answers NaNs for the empty polygon; the model answers zeros. *)
Definition bounds (p : Polygon) : BBox :=
  match p with
  | [] => (0, 0, 0, 0)
  | (x, y) :: rest =>
      fold_left
        (fun (b : BBox) (q : point) =>
           let '(minx, miny, maxx, maxy) := b in
           (Rmin minx (fst q), Rmin miny (snd q),
            Rmax maxx (fst q), Rmax maxy (snd q)))
        rest (x, y, x, y)
  end.

Definition minx (b : BBox) : R := fst (fst (fst b)).
Definition miny (b : BBox) : R := snd (fst (fst b)).
Definition maxx (b : BBox) : R := snd (fst b).
Definition maxy (b : BBox) : R := snd b.

(** Twice the signed area of the ring, by the surveyor's formula: the sum
    over the edges (p, q), closing edge included, of [px*qy - qx*py]. *)
Fixpoint shoelace_from (first : point) (p : Polygon) : R :=
  match p with
  | [] => 0
  | a :: rest =>
      let b := match rest with [] => first | b :: _ => b end in
      (fst a * snd b - fst b * snd a) + shoelace_from first rest
  end.

Definition shoelace (p : Polygon) : R :=
  match p with
  | [] => 0
  | a :: _ => shoelace_from a p
  end.

(** [polygon.area] *)
Definition area (p : Polygon) : R := Rabs (shoelace p) / 2.

(** [polygon.is_empty] *)
Definition is_empty (p : Polygon) : bool :=
  match p with [] => true | _ => false end.

(** [shapely.affinity.rotate(polygon, angle, origin=(0, 0))], [angle] in
    degrees, counter-clockwise. *)
Definition rotate (p : Polygon) (angle : R) : Polygon :=
  let a := angle * PI / 180 in
  map (fun q => (cos a * fst q - sin a * snd q,
                 sin a * fst q + cos a * snd q)) p.

(** [shapely.geometry.box(minx, miny, maxx, maxy)] *)
Definition box (x0 y0 x1 y1 : R) : Polygon :=
  [(x1, y0); (x1, y1); (x0, y1); (x0, y0)].

End Geo.

(** The operations delegated to GEOS. *)
Class Shapely : Type := {
  (** [Point(c).buffer(r, resolution)]: a polygonal disk *)
  point_buffer : point -> R -> nat -> Polygon;
  (** [polygon.buffer(d)] with round joins; negative [d] erodes *)
  buffer : Polygon -> R -> Polygon;
  (** [polygon.is_valid] *)
  polygon_is_valid : Polygon -> bool;
  (** [explain_validity(polygon)] *)
  explain_validity : Polygon -> string;
  (** [outer.contains(inner)] *)
  contains : Polygon -> Polygon -> bool;
  (** [polygon.exterior.distance(Point(c))] *)
  exterior_distance : Polygon -> point -> R
}.

(** The default [resolution] of [buffer]. *)
Definition default_resolution : nat := 16.

(** ** constraints.py *)

Module TrotecConstraints.
Record t : Type := {
  max_width : R;
  max_height : R;
  wood_thicknesses : list R;
  min_line_width : R;
  min_detail_size : R;
  min_bridge_width : R;
  kerf : R;
  min_medal_diameter : R;
  max_medal_diameter : R;
  safe_margin : R;
  ribbon_hole_diameter : R;
  ribbon_hole_min_margin : R;
  min_text_height : R;
  min_engraving_width : R
}.
End TrotecConstraints.

Definition DEFAULT_CONSTRAINTS : TrotecConstraints.t := {|
  TrotecConstraints.max_width := 600;
  TrotecConstraints.max_height := 300;
  TrotecConstraints.wood_thicknesses := [3; 4; 5; 6];
  TrotecConstraints.min_line_width := 5 / 10;
  TrotecConstraints.min_detail_size := 1;
  TrotecConstraints.min_bridge_width := 2;
  TrotecConstraints.kerf := 15 / 100;
  TrotecConstraints.min_medal_diameter := 40;
  TrotecConstraints.max_medal_diameter := 120;
  TrotecConstraints.safe_margin := 2;
  TrotecConstraints.ribbon_hole_diameter := 4;
  TrotecConstraints.ribbon_hole_min_margin := 5;
  TrotecConstraints.min_text_height := 3;
  TrotecConstraints.min_engraving_width := 3 / 10
|}.

(** The messages of the checks.  The code formats each one with an f-string;
    a constructor stands for the template and carries the values the
    f-string interpolates. *)
Inductive Message : Type :=
| InvalidGeometry (why : string)
| WidthTooLarge (width limit : R)
| HeightTooLarge (height limit : R)
| MedalTooSmall (max_dim limit : R)
| MedalTooLarge (max_dim limit : R)
| ShapeTooThin (bridge : R)
| FragileZones
| SurfaceTooSmall (area : R)
| HoleOutsideMedal
| HoleTooCloseToEdge (distance min_distance : R)
| TextTooSmall (height limit : R)
| TextSmall (height : R).

Module ValidationResult.
Record t : Type := {
  is_valid : bool;
  errors : list Message;
  warnings : list Message
}.
End ValidationResult.

(** [len(xs) == 0] *)
Definition is_nil {A} (xs : list A) : bool :=
  match xs with [] => true | _ => false end.

(** [if cond: xs.append(m)] leaves [xs ++ when cond m]. *)
Definition when (cond : bool) (m : Message) : list Message :=
  if cond then [m] else [].

Section Constraints.

Context {GEOS : Shapely}.
Import TrotecConstraints.

Definition validate_medal_shape
    (polygon : Polygon) (constraints : TrotecConstraints.t)
  : ValidationResult.t :=
  if negb (polygon_is_valid polygon) then
    {| ValidationResult.is_valid := false;
       ValidationResult.errors :=
         [InvalidGeometry (explain_validity polygon)];
       ValidationResult.warnings := [] |}
  else
    let bounds := Geo.bounds polygon in
    let width := Geo.maxx bounds - Geo.minx bounds in
    let height := Geo.maxy bounds - Geo.miny bounds in
    let max_dim := Rmax width height in
    let min_radius := min_bridge_width constraints / 2 in
    let eroded := buffer polygon (- min_radius) in
    let errors :=
      when (Py.gtb width (max_width constraints))
           (WidthTooLarge width (max_width constraints))
      ++ when (Py.gtb height (max_height constraints))
           (HeightTooLarge height (max_height constraints))
      ++ when (Py.ltb max_dim (min_medal_diameter constraints))
           (MedalTooSmall max_dim (min_medal_diameter constraints))
      ++ when (Py.gtb max_dim (max_medal_diameter constraints))
           (MedalTooLarge max_dim (max_medal_diameter constraints))
      ++ when (Geo.is_empty eroded)
           (ShapeTooThin (min_bridge_width constraints)) in
    let warnings :=
      when (negb (Geo.is_empty eroded)
            && Py.ltb (Geo.area eroded) (Geo.area polygon * (3 / 10)))
           FragileZones
      ++ when (Py.ltb (Geo.area polygon) 500)
           (SurfaceTooSmall (Geo.area polygon)) in
    {| ValidationResult.is_valid := is_nil errors;
       ValidationResult.errors := errors;
       ValidationResult.warnings := warnings |}.

Definition validate_ribbon_hole
    (medal_polygon : Polygon) (hole_center : point)
    (constraints : TrotecConstraints.t)
  : ValidationResult.t :=
  let radius := ribbon_hole_diameter constraints / 2 in
  let hole := point_buffer hole_center radius default_resolution in
  let distance_to_edge := exterior_distance medal_polygon hole_center in
  let min_distance := radius + ribbon_hole_min_margin constraints in
  let errors :=
    when (negb (contains medal_polygon hole)) HoleOutsideMedal
    ++ when (Py.ltb distance_to_edge min_distance)
         (HoleTooCloseToEdge distance_to_edge min_distance) in
  {| ValidationResult.is_valid := is_nil errors;
     ValidationResult.errors := errors;
     ValidationResult.warnings := [] |}.

Definition validate_engraving_text
    (text_height : R) (constraints : TrotecConstraints.t)
  : ValidationResult.t :=
  let errors :=
    when (Py.ltb text_height (min_text_height constraints))
         (TextTooSmall text_height (min_text_height constraints)) in
  let warnings :=
    when (negb (Py.ltb text_height (min_text_height constraints))
          && Py.ltb text_height (min_text_height constraints * (15 / 10)))
         (TextSmall text_height) in
  {| ValidationResult.is_valid := is_nil errors;
     ValidationResult.errors := errors;
     ValidationResult.warnings := warnings |}.

End Constraints.

(** ** shapes.py *)

Inductive MedalShape : Type :=
| CIRCLE
| HEXAGON
| OCTAGON
| SHIELD
| STAR
| DROP
| RECTANGLE
| ROUNDED_RECTANGLE
| GEAR
| LEAF.

Module ShapeParams.
Record t : Type := {
  width : R;
  height : R;
  rotation : R;
  corner_radius : R
}.

(** The dataclass constructor with its [__post_init__]: a missing height
    is the width. *)
Definition init (width : R) (height : option R) (rotation corner_radius : R)
  : t :=
  {| width := width;
     height := match height with Some h => h | None => width end;
     rotation := rotation;
     corner_radius := corner_radius |}.

(** [ShapeParams()] *)
Definition default : t := init 70 None 0 0.
End ShapeParams.

(** [range(n - 1, 0, -1)] *)
Definition down_range (n : nat) : list nat := rev (seq 1 (n - 1)).

(** [t ** 1.5] for a positive float [t]. *)
Definition pow15 (t : R) : R := Rpower t (15 / 10).

Section Shapes.

Context {GEOS : Shapely}.

Definition create_circle (diameter : R) : Polygon :=
  point_buffer (0, 0) (diameter / 2) 64.

(** Called with [n_sides] 6 and 8. *)
Definition create_regular_polygon (n_sides : nat) (diameter rotation : R)
  : Polygon :=
  let radius := diameter / 2 in
  let angles :=
    map (fun i => 2 * PI * INR i / INR n_sides) (seq 0 n_sides) in
  let points := map (fun a => (radius * cos a, radius * sin a)) angles in
  if Py.eqb rotation 0 then points else Geo.rotate points rotation.

Definition create_hexagon (diameter : R) (flat_top : bool) : Polygon :=
  let rotation := if flat_top then 0 else 30 in
  create_regular_polygon 6 diameter rotation.

Definition create_octagon (diameter : R) : Polygon :=
  create_regular_polygon 8 diameter (225 / 10).

(** [n_points] and [inner_ratio] are the defaults 5 and 0.4 at the only
    call site. *)
Definition create_star (n_points : nat) (outer_diameter inner_ratio : R)
  : Polygon :=
  let outer_radius := outer_diameter / 2 in
  let inner_radius := outer_radius * inner_ratio in
  map (fun i =>
         let angle := PI / 2 + (PI * INR i / INR n_points) in
         let radius :=
           if Nat.eqb (i mod 2) 0 then outer_radius else inner_radius in
         (radius * cos angle, radius * sin angle))
      (seq 0 (n_points * 2)).

Definition create_shield (width height : R) : Polygon :=
  let top_height := height * (35 / 100) in
  let curve_height := height * (65 / 100) in
  let n_curve_points := 16%nat in
  [(- width / 2, height / 2);
   (width / 2, height / 2);
   (width / 2, height / 2 - top_height)]
  ++ map (fun i =>
            let t := INR i / INR n_curve_points in
            (width / 2 * (1 - t) * (1 - t * (3 / 10)),
             (height / 2 - top_height) - curve_height * t))
         (Py.range 1 n_curve_points)
  ++ [(0, - height / 2)]
  ++ map (fun i =>
            let t := INR i / INR n_curve_points in
            (- width / 2 * (1 - t) * (1 - t * (3 / 10)),
             (height / 2 - top_height) - curve_height * t))
         (down_range n_curve_points)
  ++ [(- width / 2, height / 2 - top_height)].

Definition create_drop (width height : R) : Polygon :=
  let n_points := 32%nat in
  let circle_radius := width / 2 in
  let circle_center_y := - height / 2 + circle_radius in
  let tip_y := height / 2 in
  map (fun i =>
         let angle := PI + (PI * INR i / INR (n_points / 2)) in
         (circle_radius * cos angle,
          circle_center_y + circle_radius * sin angle))
      (seq 0 (n_points / 2 + 1))
  ++ map (fun i =>
            let t := INR i / INR (n_points / 4) in
            (circle_radius * (1 - pow15 t),
             circle_center_y + circle_radius
             + (tip_y - circle_center_y - circle_radius) * t))
         (Py.range 1 (n_points / 4))
  ++ [(0, tip_y)]
  ++ map (fun i =>
            let t := INR i / INR (n_points / 4) in
            (- circle_radius * (1 - pow15 t),
             circle_center_y + circle_radius
             + (tip_y - circle_center_y - circle_radius) * t))
         (down_range (n_points / 4)).

Definition create_rounded_rectangle (width height corner_radius : R)
  : Polygon :=
  let rect :=
    Geo.box (- width / 2 + corner_radius) (- height / 2 + corner_radius)
            (width / 2 - corner_radius) (height / 2 - corner_radius) in
  buffer rect corner_radius.

(** [n_teeth] and [tooth_depth] are the defaults 12 and 5.0 at the only
    call site. *)
Definition create_gear (outer_diameter : R) : Polygon :=
  let n_teeth := 12%nat in
  let tooth_depth := 5 in
  let outer_radius := outer_diameter / 2 in
  let inner_radius := outer_radius - tooth_depth in
  let tooth_angle := 2 * PI / INR n_teeth in
  flat_map
    (fun i =>
       let base_angle := INR i * tooth_angle - PI / 2 in
       let a1 := base_angle in
       let a2 := base_angle + tooth_angle * (2 / 10) in
       let a3 := base_angle + tooth_angle * (25 / 100) in
       let a4 := base_angle + tooth_angle * (75 / 100) in
       let a5 := base_angle + tooth_angle * (8 / 10) in
       [(inner_radius * cos a1, inner_radius * sin a1);
        (inner_radius * cos a2, inner_radius * sin a2);
        (outer_radius * cos a3, outer_radius * sin a3);
        (outer_radius * cos a4, outer_radius * sin a4);
        (inner_radius * cos a5, inner_radius * sin a5)])
    (seq 0 n_teeth).

Definition create_leaf (width height : R) : Polygon :=
  let n_points := 24%nat in
  [(0, - height / 2)]
  ++ map (fun i =>
            let t := INR i / INR n_points in
            (- width / 2 * sin (t * PI) * (1 - t * (3 / 10)),
             - height / 2 + height * t))
         (Py.range 1 n_points)
  ++ [(0, height / 2)]
  ++ map (fun i =>
            let t := INR i / INR n_points in
            (width / 2 * sin (t * PI) * (1 - t * (3 / 10)),
             - height / 2 + height * t))
         (down_range n_points).

Definition get_shape (shape_type : MedalShape) (params : ShapeParams.t)
  : Polygon :=
  let polygon :=
    match shape_type with
    | CIRCLE => create_circle (ShapeParams.width params)
    | HEXAGON => create_hexagon (ShapeParams.width params) true
    | OCTAGON => create_octagon (ShapeParams.width params)
    | STAR => create_star 5 (ShapeParams.width params) (4 / 10)
    | SHIELD =>
        create_shield (ShapeParams.width params) (ShapeParams.height params)
    | DROP =>
        create_drop (ShapeParams.width params) (ShapeParams.height params)
    | RECTANGLE =>
        create_rounded_rectangle
          (ShapeParams.width params) (ShapeParams.height params)
          (Py.or_else (ShapeParams.corner_radius params) 5)
    | ROUNDED_RECTANGLE =>
        create_rounded_rectangle
          (ShapeParams.width params) (ShapeParams.height params)
          (Py.or_else (ShapeParams.corner_radius params) 8)
    | GEAR => create_gear (ShapeParams.width params)
    | LEAF =>
        create_leaf (ShapeParams.width params) (ShapeParams.height params)
    end in
  if Py.eqb (ShapeParams.rotation params) 0 then polygon
  else Geo.rotate polygon (ShapeParams.rotation params).

End Shapes.

Definition calculate_ribbon_hole_position (polygon : Polygon) (margin : R)
  : point :=
  let bounds := Geo.bounds polygon in
  let top_y := Geo.maxy bounds in
  let center_x := (Geo.minx bounds + Geo.maxx bounds) / 2 in
  let hole_y := top_y - margin in
  (center_x, hole_y).

(** ** motifs.py *)

Inductive MotifType : Type :=
| MOUNTAINS
| WAVES
| LAUREL
| RAYS
| CHEVRONS
| TREES
| RUNNING_TRACK
| FINISH_LINE.

Module MotifParams.
Record t : Type := {
  width : R;
  height : R;
  detail_level : Z;
  offset_x : R;
  offset_y : R
}.

(** [MotifParams()] *)
Definition default : t :=
  {| width := 60; height := 20; detail_level := 3;
     offset_x := 0; offset_y := 0 |}.
End MotifParams.

(** The counts [n_peaks], [n_waves], [n_rows], [n_leaves], [n_rays],
    [n_chevrons], [n_trees], [n_lanes] and [n_squares] are keyword
    parameters that [get_motif] never passes: each generator below binds
    them to the default of its signature. *)

(** [xs[i % len(xs)]] on a non-empty list of floats. *)
Definition cyclic_nth (xs : list R) (i : nat) : R :=
  nth (i mod List.length xs) xs 0.

Definition create_mountains (width height : R) (style : string)
  : list Polyline :=
  let n_peaks := 3%nat in
  let peak_width := width / INR n_peaks in
  if String.eqb style "simple" then
    let peak_heights := [8 / 10; 1; 6 / 10] in
    [ (- width / 2, 0)
      :: flat_map
           (fun i =>
              let base_x := - width / 2 + INR i * peak_width in
              let peak_x := base_x + peak_width / 2 in
              let peak_h := height * cyclic_nth peak_heights i in
              [(peak_x, peak_h); (base_x + peak_width, 0)])
           (seq 0 n_peaks) ]
  else if String.eqb style "detailed" then
    let peak_heights := [7 / 10; 1; 5 / 10] in
    flat_map
      (fun i =>
         let base_x := - width / 2 + INR i * peak_width in
         let peak_x := base_x + peak_width / 2 in
         let peak_h := height * cyclic_nth peak_heights i in
         let snow_y := peak_h * (7 / 10) in
         let snow_width := peak_width * (25 / 100) in
         [ [(base_x + peak_width * (1 / 10), 0);
            (peak_x, peak_h);
            (base_x + peak_width * (9 / 10), 0)];
           [(peak_x - snow_width, snow_y);
            (peak_x, peak_h);
            (peak_x + snow_width, snow_y)] ])
      (seq 0 n_peaks)
  else [].

(** A loop body that appends [f i] and leaves the loop at the first [i]
    where [stop i] holds. *)
Fixpoint collect_until {A} (stop : nat -> bool) (f : nat -> A)
    (indices : list nat) : list A :=
  match indices with
  | [] => []
  | i :: rest => if stop i then [] else f i :: collect_until stop f rest
  end.

(** Over the reals the last abscissa of a row, at [i = 30], is [width / 2]
    itself and the test [x > width / 2] is a tie, which the model settles
    as the reals do: the point is kept.  In doubles the sum can round just
    past [width / 2], and the code then leaves the loop one point early.
    Statements about a row are therefore made on its first thirty
    points. *)
Definition create_waves (width height : R) : list Polyline :=
  let n_waves := 3%nat in
  let n_rows := 2%nat in
  let wave_width := width / INR n_waves in
  let row_spacing := height * (6 / 10) in
  map (fun row =>
         let base_y := - INR row * row_spacing in
         let x_at := fun i => - width / 2 + INR i / 10 * wave_width in
         collect_until
           (fun i => Py.gtb (x_at i) (width / 2))
           (fun i =>
              let t := INR i / 10 in
              (x_at i, base_y + height * (5 / 10) * sin (t * 2 * PI)))
           (seq 0 (n_waves * 10 + 1)))
      (seq 0 n_rows).

Definition create_laurel (width height : R) : list Polyline :=
  let n_leaves := 6%nat in
  flat_map
    (fun side : R =>
       let stem :=
         map (fun i =>
                let t := INR i / 19 in
                (side * (width / 2 - 5) * (1 - t * (3 / 10)),
                 - height / 2 + height * t))
             (seq 0 20) in
       stem
       :: map (fun i =>
                 let t := (INR i + 1) / (INR n_leaves + 1) in
                 let base_x := side * (width / 2 - 5) * (1 - t * (3 / 10)) in
                 let base_y := - height / 2 + height * t in
                 let leaf_length := 8 in
                 let leaf_width := 3 in
                 map (fun j =>
                        let lt := INR j / 9 in
                        (base_x
                         + side * leaf_length * lt * (1 - t * (5 / 10)),
                         base_y
                         + leaf_width * sin (lt * PI) * (1 - t * (3 / 10))))
                     (seq 0 10))
              (seq 0 n_leaves))
    [-1; 1].

Definition create_rays (center : point) (inner_radius outer_radius : R)
    (n_rays : nat) : list Polyline :=
  let '(cx, cy) := center in
  map (fun i =>
         let angle := 2 * PI * INR i / INR n_rays - PI / 2 in
         [(cx + inner_radius * cos angle, cy + inner_radius * sin angle);
          (cx + outer_radius * cos angle, cy + outer_radius * sin angle)])
      (seq 0 n_rays).

Definition create_chevrons (width height : R) : list Polyline :=
  let n_chevrons := 3%nat in
  let spacing := height / (INR n_chevrons + 1) in
  map (fun i =>
         let y_base := height / 2 - (INR i + 1) * spacing in
         [(- width / 2, y_base + spacing * (3 / 10));
          (0, y_base);
          (width / 2, y_base + spacing * (3 / 10))])
      (seq 0 n_chevrons).

Definition create_trees (width height : R) : list Polyline :=
  let n_trees := 3%nat in
  let tree_spacing := width / INR n_trees in
  let heights := [7 / 10; 1; 8 / 10] in
  flat_map
    (fun i =>
       let tree_height := height * cyclic_nth heights i in
       let center_x := - width / 2 + tree_spacing * (INR i + 5 / 10) in
       let tree_width := tree_spacing * (6 / 10) in
       let trunk_width := tree_width * (15 / 100) in
       [ [(center_x - tree_width / 2, 0);
          (center_x, tree_height);
          (center_x + tree_width / 2, 0);
          (center_x - tree_width / 2, 0)];
         [(center_x - trunk_width, 0);
          (center_x - trunk_width, - height * (1 / 10));
          (center_x + trunk_width, - height * (1 / 10));
          (center_x + trunk_width, 0)] ])
    (seq 0 n_trees).

Definition create_running_track (width : R) : list Polyline :=
  let n_lanes := 3%nat in
  let lane_spacing := 4 in
  map (fun i =>
         let y := (INR i - INR n_lanes / 2 + 5 / 10) * lane_spacing in
         [(- width / 2, y); (width / 2, y)])
      (seq 0 n_lanes).

Local Open Scope py_scope.

(** [height / square_size] raises when [width] is zero. *)
Definition create_finish_line (width height : R)
  : Py.result (list Polyline) :=
  let n_squares := 6%nat in
  let square_size := width / INR n_squares in
  q <- Py.div height square_size ;;
  let n_rows := Py.int q in
  Py.ret
    (flat_map
       (fun row =>
          flat_map
            (fun col =>
               if Nat.eqb ((row + col) mod 2) 0 then
                 let x := - width / 2 + INR col * square_size in
                 let y := - height / 2 + INR row * square_size in
                 [ [(x, y);
                    (x + square_size, y);
                    (x + square_size, y + square_size);
                    (x, y + square_size);
                    (x, y)] ]
               else [])
            (seq 0 n_squares))
       (seq 0 (Z.to_nat n_rows))).

(** [get_motif(motif_type, params)] as the composer calls it, without
    keyword arguments. *)
Definition get_motif (motif_type : MotifType) (params : MotifParams.t)
  : Py.result (list Polyline) :=
  let width := MotifParams.width params in
  let height := MotifParams.height params in
  lines <-
    match motif_type with
    | MOUNTAINS => Py.ret (create_mountains width height "simple")
    | WAVES => Py.ret (create_waves width height)
    | LAUREL => Py.ret (create_laurel width height)
    | RAYS => Py.ret (create_rays (0, 0) 15 30 12)
    | CHEVRONS => Py.ret (create_chevrons width height)
    | TREES => Py.ret (create_trees width height)
    | RUNNING_TRACK => Py.ret (create_running_track width)
    | FINISH_LINE => create_finish_line width height
    end ;;
  if negb (Py.eqb (MotifParams.offset_x params) 0)
     || negb (Py.eqb (MotifParams.offset_y params) 0)
  then
    Py.ret
      (map (map (Geo.translate (MotifParams.offset_x params)
                               (MotifParams.offset_y params)))
           lines)
  else Py.ret lines.

(** ** composer.py *)

Inductive TextPosition : Type :=
| TOP
| CENTER
| BOTTOM
| AROUND_TOP
| AROUND_BOTTOM.

Module TextElement.
Record t : Type := {
  content : string;
  position : TextPosition;
  font_size : R;
  font_family : string;
  bold : bool;
  offset_y : R;
  curved : bool;
  curve_radius : option R
}.
End TextElement.

Module MotifElement.
Record t : Type := {
  motif_type : MotifType;
  params : MotifParams.t;
  position : point
}.
End MotifElement.

Module MedalComposition.
Record t : Type := {
  shape_type : MedalShape;
  shape_params : ShapeParams.t;
  ribbon_hole : bool;
  ribbon_hole_diameter : R;
  ribbon_hole_position : option point;
  motifs : list MotifElement.t;
  texts : list TextElement.t;
  name : string;
  event_type : string;
  shape_polygon : option Polygon;
  validation_result : option ValidationResult.t
}.
End MedalComposition.

(** The dictionary built for each text.  The keys [content], [font_size],
    [font_family], [bold], [curved], [x], [y] and [anchor] are set for
    every position; [curve_radius] and [start_angle] only for the two arc
    positions. *)
Module TextDict.
Record t : Type := {
  content : string;
  font_size : R;
  font_family : string;
  bold : bool;
  curved : bool;
  x : R;
  y : R;
  anchor : string;
  curve_radius : option R;
  start_angle : option Z
}.
End TextDict.

Module ComposedMedal.
Record t : Type := {
  outline : Polygon;
  ribbon_hole_center : option point;
  ribbon_hole_radius : R;
  motif_lines : list Polyline;
  texts : list TextDict.t;
  name : string;
  bounds : BBox;
  is_valid : bool;
  validation_result : ValidationResult.t
}.
End ComposedMedal.

(** [text_elem.curve_radius or fallback]: [None] and [0.0] are falsy. *)
Definition radius_or (r : option R) (fallback : R) : R :=
  match r with
  | Some v => Py.or_else v fallback
  | None => fallback
  end.

(** Step 5, the dictionary of one text. *)
Definition place_text (bounds : BBox) (text_elem : TextElement.t)
  : TextDict.t :=
  let center_x := (Geo.minx bounds + Geo.maxx bounds) / 2 in
  let center_y := (Geo.miny bounds + Geo.maxy bounds) / 2 in
  let medal_width := Geo.maxx bounds - Geo.minx bounds in
  let dict x y curved curve_radius start_angle :=
    {| TextDict.content := TextElement.content text_elem;
       TextDict.font_size := TextElement.font_size text_elem;
       TextDict.font_family := TextElement.font_family text_elem;
       TextDict.bold := TextElement.bold text_elem;
       TextDict.curved := curved;
       TextDict.x := x;
       TextDict.y := y;
       TextDict.anchor := "middle";
       TextDict.curve_radius := curve_radius;
       TextDict.start_angle := start_angle |} in
  match TextElement.position text_elem with
  | TOP =>
      dict center_x (Geo.maxy bounds - 15 + TextElement.offset_y text_elem)
           (TextElement.curved text_elem) None None
  | CENTER =>
      dict center_x (center_y + TextElement.offset_y text_elem)
           (TextElement.curved text_elem) None None
  | BOTTOM =>
      dict center_x (Geo.miny bounds + 10 + TextElement.offset_y text_elem)
           (TextElement.curved text_elem) None None
  | AROUND_TOP =>
      dict center_x center_y true
           (Some (radius_or (TextElement.curve_radius text_elem)
                            (medal_width / 2 - 8)))
           (Some 180%Z)
  | AROUND_BOTTOM =>
      dict center_x center_y true
           (Some (radius_or (TextElement.curve_radius text_elem)
                            (medal_width / 2 - 8)))
           (Some 0%Z)
  end.

(** The three lists the body of [compose_medal] extends while it runs. *)
Record Accumulated : Type := {
  all_errors : list Message;
  all_warnings : list Message;
  positioned_texts : list TextDict.t
}.

Section Composer.

Context {GEOS : Shapely}.

(** Step 3: the hole center, if a hole is requested, and its check. *)
Definition resolve_ribbon_hole
    (composition : MedalComposition.t) (outline : Polygon)
    (constraints : TrotecConstraints.t)
  : option point * list Message * list Message :=
  if MedalComposition.ribbon_hole composition then
    let hole_pos :=
      match MedalComposition.ribbon_hole_position composition with
      | Some p => p
      | None => calculate_ribbon_hole_position outline 8
      end in
    let hole_validation :=
      validate_ribbon_hole outline hole_pos constraints in
    (Some hole_pos,
     ValidationResult.errors hole_validation,
     ValidationResult.warnings hole_validation)
  else (None, [], []).

(** Step 4, one motif: generated, then moved to its place. *)
Definition position_motif (motif_elem : MotifElement.t)
  : Py.result (list Polyline) :=
  lines <- get_motif (MotifElement.motif_type motif_elem)
                     (MotifElement.params motif_elem) ;;
  let '(ox, oy) := MotifElement.position motif_elem in
  Py.ret (map (map (Geo.translate ox oy)) lines).

(** Step 5, one turn of the loop over the texts. *)
Definition text_step (bounds : BBox) (constraints : TrotecConstraints.t)
    (acc : Accumulated) (text_elem : TextElement.t) : Accumulated :=
  let text_dict := place_text bounds text_elem in
  let text_validation :=
    validate_engraving_text (TextElement.font_size text_elem) constraints in
  {| all_errors :=
       all_errors acc ++ ValidationResult.errors text_validation;
     all_warnings :=
       all_warnings acc ++ ValidationResult.warnings text_validation;
     positioned_texts := positioned_texts acc ++ [text_dict] |}.

Definition compose_medal
    (composition : MedalComposition.t) (constraints : TrotecConstraints.t)
  : Py.result ComposedMedal.t :=
  let outline :=
    get_shape (MedalComposition.shape_type composition)
              (MedalComposition.shape_params composition) in
  let bounds := Geo.bounds outline in
  let shape_validation := validate_medal_shape outline constraints in
  let ribbon_hole_radius :=
    MedalComposition.ribbon_hole_diameter composition / 2 in
  let '(ribbon_hole_center, hole_errors, hole_warnings) :=
    resolve_ribbon_hole composition outline constraints in
  all_motif_lines <-
    Py.extend_each position_motif (MedalComposition.motifs composition) ;;
  let acc :=
    fold_left (text_step bounds constraints)
      (MedalComposition.texts composition)
      {| all_errors :=
           ValidationResult.errors shape_validation ++ hole_errors;
         all_warnings :=
           ValidationResult.warnings shape_validation ++ hole_warnings;
         positioned_texts := [] |} in
  let is_valid := is_nil (all_errors acc) in
  Py.ret
    {| ComposedMedal.outline := outline;
       ComposedMedal.ribbon_hole_center := ribbon_hole_center;
       ComposedMedal.ribbon_hole_radius := ribbon_hole_radius;
       ComposedMedal.motif_lines := all_motif_lines;
       ComposedMedal.texts := positioned_texts acc;
       ComposedMedal.name := MedalComposition.name composition;
       ComposedMedal.bounds := bounds;
       ComposedMedal.is_valid := is_valid;
       ComposedMedal.validation_result :=
         {| ValidationResult.is_valid := is_valid;
            ValidationResult.errors := all_errors acc;
            ValidationResult.warnings := all_warnings acc |} |}.

End Composer.

(** [create_trail_medal(event_name, year, distance, diameter)];
    [event_name_upper] stands for [event_name.upper()] and [name] for the
    f-string that joins the event name and the year. *)
Definition create_trail_medal
    (event_name_upper name year distance : string) (diameter : R)
  : MedalComposition.t :=
  let text content position font_size bold offset_y :=
    {| TextElement.content := content;
       TextElement.position := position;
       TextElement.font_size := font_size;
       TextElement.font_family := "Arial";
       TextElement.bold := bold;
       TextElement.offset_y := offset_y;
       TextElement.curved := false;
       TextElement.curve_radius := None |} in
  let motif_params w h :=
    {| MotifParams.width := w; MotifParams.height := h;
       MotifParams.detail_level := 3;
       MotifParams.offset_x := 0; MotifParams.offset_y := 0 |} in
  {| MedalComposition.shape_type := CIRCLE;
     MedalComposition.shape_params := ShapeParams.init diameter None 0 0;
     MedalComposition.ribbon_hole := true;
     MedalComposition.ribbon_hole_diameter := 4;
     MedalComposition.ribbon_hole_position := None;
     MedalComposition.motifs :=
       [ {| MotifElement.motif_type := MOUNTAINS;
            MotifElement.params :=
              motif_params (diameter * (7 / 10)) (diameter * (3 / 10));
            MotifElement.position := (0, -5) |};
         {| MotifElement.motif_type := TREES;
            MotifElement.params :=
              motif_params (diameter * (5 / 10)) (diameter * (2 / 10));
            MotifElement.position := (0, - diameter * (25 / 100)) |} ];
     MedalComposition.texts :=
       [ text event_name_upper AROUND_TOP 5 true 0;
         text distance CENTER 14 true 5;
         text year AROUND_BOTTOM 5 false 0 ];
     MedalComposition.name := name;
     MedalComposition.event_type := "trail";
     MedalComposition.shape_polygon := None;
     MedalComposition.validation_result := None |}.

(** * A kernel on bounding rectangles

    An instance of [Shapely] that reads every ring as its bounding
    rectangle; its answers are exact when the outline is an axis-aligned
    rectangle and the query point lies inside it.  The checks and the
    composer are run on it wherever a statement is instantiated on concrete
    data. *)

Module RectKernel.

(** A disk with one segment per quadrant, whatever the resolution. *)
Definition point_buffer (c : point) (r : R) (resolution : nat) : Polygon :=
  [(fst c + r, snd c); (fst c, snd c - r);
   (fst c - r, snd c); (fst c, snd c + r)].

Definition buffer (p : Polygon) (d : R) : Polygon :=
  match p with
  | [] => []
  | _ =>
      let b := Geo.bounds p in
      if Py.ltb 0 (Geo.maxx b - Geo.minx b + 2 * d)
         && Py.ltb 0 (Geo.maxy b - Geo.miny b + 2 * d)
      then Geo.box (Geo.minx b - d) (Geo.miny b - d)
                   (Geo.maxx b + d) (Geo.maxy b + d)
      else []
  end.

Definition polygon_is_valid (p : Polygon) : bool := true.

Definition explain_validity (p : Polygon) : string := "Valid Geometry".

Definition leb (a b : R) : bool := negb (Py.ltb b a).

Definition contains (outer inner : Polygon) : bool :=
  let o := Geo.bounds outer in
  let i := Geo.bounds inner in
  leb (Geo.minx o) (Geo.minx i) && leb (Geo.miny o) (Geo.miny i)
  && leb (Geo.maxx i) (Geo.maxx o) && leb (Geo.maxy i) (Geo.maxy o).

Definition exterior_distance (p : Polygon) (c : point) : R :=
  let b := Geo.bounds p in
  Rmin (Rmin (Rabs (fst c - Geo.minx b)) (Rabs (Geo.maxx b - fst c)))
       (Rmin (Rabs (snd c - Geo.miny b)) (Rabs (Geo.maxy b - snd c))).

Definition kernel : Shapely :=
  Build_Shapely point_buffer buffer polygon_is_valid explain_validity
                contains exterior_distance.

End RectKernel.

(** * Vocabulary of the statements *)

Section Vocabulary.

Context {GEOS : Shapely}.

(** What the outline check observes of a polygonal disk of diameter [d]:
    GEOS finds it valid, its bounding box is [d] by [d], and it survives
    the erosion by [erosion]. *)
Definition circular_ring (d erosion : R) (ring : Polygon) : Prop :=
  polygon_is_valid ring = true
  /\ Geo.maxx (Geo.bounds ring) - Geo.minx (Geo.bounds ring) = d
  /\ Geo.maxy (Geo.bounds ring) - Geo.miny (Geo.bounds ring) = d
  /\ Geo.is_empty (buffer ring (- erosion)) = false.

(** The hole center step 3 settles on: the explicit position if there is
    one, else the middle of the bounding box, 8 mm under its top edge. *)
Definition resolved_center (composition : MedalComposition.t)
    (outline : Polygon) : point :=
  match MedalComposition.ribbon_hole_position composition with
  | Some p => p
  | None =>
      ((Geo.minx (Geo.bounds outline) + Geo.maxx (Geo.bounds outline)) / 2,
       Geo.maxy (Geo.bounds outline) - 8)
  end.

(** The errors of the hole check when a hole is requested, none otherwise. *)
Definition hole_errors (composition : MedalComposition.t)
    (outline : Polygon) (constraints : TrotecConstraints.t) : list Message :=
  if MedalComposition.ribbon_hole composition then
    ValidationResult.errors
      (validate_ribbon_hole outline (resolved_center composition outline)
                            constraints)
  else [].

(** The errors of the three kinds of checks, concatenated in the order in
    which [compose_medal] runs them. *)
Definition concatenated_errors (composition : MedalComposition.t)
    (constraints : TrotecConstraints.t) : list Message :=
  let outline :=
    get_shape (MedalComposition.shape_type composition)
              (MedalComposition.shape_params composition) in
  ValidationResult.errors (validate_medal_shape outline constraints)
  ++ hole_errors composition outline constraints
  ++ flat_map
       (fun t =>
          ValidationResult.errors
            (validate_engraving_text (TextElement.font_size t) constraints))
       (MedalComposition.texts composition).


End Vocabulary.

(** The motif generators return for every element but a finish line of
    width zero. *)
Definition motif_well_formed (motif_elem : MotifElement.t) : Prop :=
  MotifElement.motif_type motif_elem = FINISH_LINE ->
  MotifParams.width (MotifElement.params motif_elem) <> 0.

(** The errors of the text checks, in the order of the texts. *)
Definition text_errors (constraints : TrotecConstraints.t)
    (texts : list TextElement.t) : list Message :=
  flat_map
    (fun t =>
       ValidationResult.errors
         (validate_engraving_text (TextElement.font_size t) constraints))
    texts.

Definition text_warnings (constraints : TrotecConstraints.t)
    (texts : list TextElement.t) : list Message :=
  flat_map
    (fun t =>
       ValidationResult.warnings
         (validate_engraving_text (TextElement.font_size t) constraints))
    texts.

(** A motif element's lines once moved by its placement offset. *)
Definition placed (motif_elem : MotifElement.t) (lines : list Polyline)
  : list Polyline :=
  map (map (Geo.translate (fst (MotifElement.position motif_elem))
                          (snd (MotifElement.position motif_elem))))
      lines.

(** The same composition with another declared hole diameter. *)
Definition with_hole_diameter (composition : MedalComposition.t) (d : R)
  : MedalComposition.t :=
  {| MedalComposition.shape_type := MedalComposition.shape_type composition;
     MedalComposition.shape_params :=
       MedalComposition.shape_params composition;
     MedalComposition.ribbon_hole := MedalComposition.ribbon_hole composition;
     MedalComposition.ribbon_hole_diameter := d;
     MedalComposition.ribbon_hole_position :=
       MedalComposition.ribbon_hole_position composition;
     MedalComposition.motifs := MedalComposition.motifs composition;
     MedalComposition.texts := MedalComposition.texts composition;
     MedalComposition.name := MedalComposition.name composition;
     MedalComposition.event_type := MedalComposition.event_type composition;
     MedalComposition.shape_polygon :=
       MedalComposition.shape_polygon composition;
     MedalComposition.validation_result :=
       MedalComposition.validation_result composition |}.





(** [MedalComposition(motifs=[MotifElement(MotifType.FINISH_LINE,
    MotifParams(width=0.0))])] *)
Definition zero_width_finish_line : MedalComposition.t :=
  {| MedalComposition.shape_type := CIRCLE;
     MedalComposition.shape_params := ShapeParams.default;
     MedalComposition.ribbon_hole := true;
     MedalComposition.ribbon_hole_diameter := 4;
     MedalComposition.ribbon_hole_position := None;
     MedalComposition.motifs :=
       [ {| MotifElement.motif_type := FINISH_LINE;
            MotifElement.params :=
              {| MotifParams.width := 0; MotifParams.height := 20;
                 MotifParams.detail_level := 3;
                 MotifParams.offset_x := 0; MotifParams.offset_y := 0 |};
            MotifElement.position := (0, 0) |} ];
     MedalComposition.texts := [];
     MedalComposition.name := "Medal";
     MedalComposition.event_type := "";
     MedalComposition.shape_polygon := None;
     MedalComposition.validation_result := None |}.

(** The composition of the composer's self-test:
    [create_trail_medal("Ultra Trail du Mont Blanc", "2026", "170K", 80)]. *)
Definition trail_composition : MedalComposition.t :=
  create_trail_medal "ULTRA TRAIL DU MONT BLANC"
    "Ultra Trail du Mont Blanc 2026" "2026" "170K" 80.

(** The larger side of the bounding box of a ring. *)
Definition larger_dimension (p : Polygon) : R :=
  Rmax (Geo.maxx (Geo.bounds p) - Geo.minx (Geo.bounds p))
       (Geo.maxy (Geo.bounds p) - Geo.miny (Geo.bounds p)).

(** A point inside the rectangle from (x0, y0) to (x1, y1). *)
Definition in_box (x0 y0 x1 y1 : R) (q : point) : Prop :=
  x0 <= fst q <= x1 /\ y0 <= snd q <= y1.

(** The term of an edge in the surveyor's formula. *)
Definition cross (a b : point) : R := fst a * snd b - fst b * snd a.




(** * The rings GEOS builds

    The circle and the two rectangles are built by GEOS alone.  What it
    computes for them, over the reals, is written out here; a statement
    that needs it assumes that the kernel computes the same. *)

(** [Point(c).buffer(r, resolution)]: the regular polygon of
    [4 * resolution] vertices inscribed in the circle of radius [r] around
    [c], clockwise from (cx + r, cy). *)
Definition polygonal_disk (c : point) (r : R) (resolution : nat) : Polygon :=
  map (fun i =>
         let a := - (PI / 2 * INR i / INR resolution) in
         (fst c + r * cos a, snd c + r * sin a))
      (seq 0 (4 * resolution)).

(** The round join at one corner [c] of a ring dilated by [d]: a quarter
    circle of [resolution] segments, clockwise from the angle [start]. *)
Definition corner_arc (c : point) (d start : R) (resolution : nat)
  : Polygon :=
  map (fun i =>
         let a := start - PI / 2 * INR i / INR resolution in
         (fst c + d * cos a, snd c + d * sin a))
      (seq 0 (S resolution)).

(** [box(x0, y0, x1, y1).buffer(d)] with round joins, for [d > 0]: the four
    corner arcs, clockwise, here from the top of the upper right one. *)
Definition rounded_box (x0 y0 x1 y1 d : R) (resolution : nat) : Polygon :=
  corner_arc (x1, y1) d (PI / 2) resolution
  ++ corner_arc (x1, y0) d 0 resolution
  ++ corner_arc (x0, y0) d (- (PI / 2)) resolution
  ++ corner_arc (x0, y1) d (- PI) resolution.




Section GeosRings.

Context {GEOS : Shapely}.




End GeosRings.

(** A kernel on bounding rectangles that rounds: its disks are those of
    GEOS, and it dilates a ring by rounding its bounding rectangle as GEOS
    rounds a rectangle.  The rest is the kernel on bounding rectangles. *)
Module RoundKernel.

Definition buffer (p : Polygon) (d : R) : Polygon :=
  if Py.ltb 0 d then
    match p with
    | [] => []
    | _ =>
        let b := Geo.bounds p in
        rounded_box (Geo.minx b) (Geo.miny b) (Geo.maxx b) (Geo.maxy b) d 16
    end
  else RectKernel.buffer p d.

Definition kernel : Shapely :=
  Build_Shapely polygonal_disk buffer RectKernel.polygon_is_valid
                RectKernel.explain_validity RectKernel.contains
                RectKernel.exterior_distance.

End RoundKernel.


(** * Further code: presets, suggestions, drawings, command line *)

(** The same parameters with both offsets at zero. *)
Definition without_offset (params : MotifParams.t) : MotifParams.t :=
  {| MotifParams.width := MotifParams.width params;
     MotifParams.height := MotifParams.height params;
     MotifParams.detail_level := MotifParams.detail_level params;
     MotifParams.offset_x := 0;
     MotifParams.offset_y := 0 |}.

(** The numbers of points of the polylines of a motif, for the generators
    where they do not depend on the parameters. *)
Definition polyline_sizes (motif_type : MotifType) : list nat :=
  match motif_type with
  | MOUNTAINS => [7]
  | LAUREL => 20 :: repeat 10 6 ++ 20 :: repeat 10 6
  | RAYS => repeat 2 12
  | CHEVRONS => repeat 3 3
  | TREES => [4; 4; 4; 4; 4; 4]
  | RUNNING_TRACK => repeat 2 3
  | WAVES | FINISH_LINE => []
  end%nat.

(** The closed outline of a square of side [s] whose lower left corner is
    (x, y). *)
Definition square (s x y : R) : Polyline :=
  [(x, y); (x + s, y); (x + s, y + s); (x, y + s); (x, y)].

(** The same shape parameters with another rotation. *)
Definition with_rotation (params : ShapeParams.t) (angle : R)
  : ShapeParams.t :=
  {| ShapeParams.width := ShapeParams.width params;
     ShapeParams.height := ShapeParams.height params;
     ShapeParams.rotation := angle;
     ShapeParams.corner_radius := ShapeParams.corner_radius params |}.

(** ** composer.py: the other presets *)

(** [TextElement(content, position, font_size, bold=..., offset_y=...)]
    with the defaults of the dataclass for the other fields. *)
Definition text_element (content : string) (position : TextPosition)
    (font_size : R) (bold : bool) (offset_y : R) : TextElement.t :=
  {| TextElement.content := content;
     TextElement.position := position;
     TextElement.font_size := font_size;
     TextElement.font_family := "Arial";
     TextElement.bold := bold;
     TextElement.offset_y := offset_y;
     TextElement.curved := false;
     TextElement.curve_radius := None |}.

(** [MotifElement(motif_type, MotifParams(width=w, height=h), position)] *)
Definition motif_element (motif_type : MotifType) (w h : R)
    (position : point) : MotifElement.t :=
  {| MotifElement.motif_type := motif_type;
     MotifElement.params :=
       {| MotifParams.width := w; MotifParams.height := h;
          MotifParams.detail_level := 3;
          MotifParams.offset_x := 0; MotifParams.offset_y := 0 |};
     MotifElement.position := position |}.

(** [MedalComposition(name=..., shape_type=..., shape_params=...,
    ribbon_hole=True, motifs=..., texts=..., event_type=...)] *)
Definition composition_with_hole (name : string) (shape_type : MedalShape)
    (shape_params : ShapeParams.t) (motifs : list MotifElement.t)
    (texts : list TextElement.t) (event_type : string)
  : MedalComposition.t :=
  {| MedalComposition.shape_type := shape_type;
     MedalComposition.shape_params := shape_params;
     MedalComposition.ribbon_hole := true;
     MedalComposition.ribbon_hole_diameter := 4;
     MedalComposition.ribbon_hole_position := None;
     MedalComposition.motifs := motifs;
     MedalComposition.texts := texts;
     MedalComposition.name := name;
     MedalComposition.event_type := event_type;
     MedalComposition.shape_polygon := None;
     MedalComposition.validation_result := None |}.

(** [create_running_medal(event_name, year, diameter)]; as for the trail
    preset, [event_name_upper] stands for [event_name.upper()] and [name]
    for the f-string that joins the event name and the year. *)
Definition create_running_medal
    (event_name_upper name year : string) (diameter : R)
  : MedalComposition.t :=
  composition_with_hole name HEXAGON
    (ShapeParams.init diameter None 0 0)
    [ motif_element RUNNING_TRACK (diameter * (6 / 10)) 20 (0, -10);
      motif_element CHEVRONS (diameter * (4 / 10)) 12 (0, 5) ]
    [ text_element event_name_upper TOP 5 true (-5);
      text_element "FINISHER" CENTER 8 true 0;
      text_element year BOTTOM 6 false 5 ]
    "running".

(** [create_swimming_medal(event_name, year, diameter)] *)
Definition create_swimming_medal
    (event_name_upper name year : string) (diameter : R)
  : MedalComposition.t :=
  composition_with_hole name DROP
    (ShapeParams.init (diameter * (8 / 10)) (Some diameter) 0 0)
    [ motif_element WAVES (diameter * (6 / 10)) 15 (0, -15) ]
    [ text_element event_name_upper TOP (45 / 10) true (-10);
      text_element year BOTTOM 6 false 10 ]
    "swimming".

(** [create_corporate_medal(company_name, event_name, year, diameter)];
    [name] stands for the f-string that joins the three strings. *)
Definition create_corporate_medal
    (company_name event_name_upper name year : string) (diameter : R)
  : MedalComposition.t :=
  composition_with_hole name SHIELD
    (ShapeParams.init (diameter * (85 / 100)) (Some diameter) 0 0)
    [ motif_element LAUREL (diameter * (7 / 10)) (diameter * (5 / 10))
        (0, -5) ]
    [ text_element company_name TOP 6 true (-8);
      text_element event_name_upper CENTER 5 false 5;
      text_element year BOTTOM 5 false 8 ]
    "corporate".

(** [create_custom_medal(shape, primary_motif, secondary_motif, text_main,
    text_secondary, text_year, diameter, concept_name, wood_type)].  The
    body never reads [wood_type]. *)
Definition create_custom_medal
    (shape : MedalShape) (primary_motif : MotifType)
    (secondary_motif : option MotifType)
    (text_main text_secondary text_year : string) (diameter : R)
    (concept_name wood_type : string)
  : MedalComposition.t :=
  let shape_params :=
    match shape with
    | SHIELD | DROP | LEAF =>
        ShapeParams.init (diameter * (85 / 100)) (Some diameter) 0 0
    | _ => ShapeParams.init diameter None 0 0
    end in
  let motifs :=
    [ motif_element primary_motif
        (diameter * (6 / 10)) (diameter * (25 / 100)) (0, -5) ]
    ++ match secondary_motif with
       | Some m =>
           [ motif_element m
               (diameter * (4 / 10)) (diameter * (15 / 100))
               (0, - diameter * (22 / 100)) ]
       | None => []
       end in
  let texts :=
    match shape with
    | CIRCLE =>
        [ text_element text_main AROUND_TOP 5 true 0;
          text_element text_secondary CENTER 8 true 8;
          text_element text_year AROUND_BOTTOM 5 false 0 ]
    | _ =>
        [ text_element text_main TOP 5 true (-5);
          text_element text_secondary CENTER 7 true 0;
          text_element text_year BOTTOM 5 false 5 ]
    end in
  composition_with_hole concept_name shape shape_params motifs texts "custom".

(** ** Enumeration values *)

(** [shape.value] *)
Definition MedalShape_value (shape : MedalShape) : string :=
  match shape with
  | CIRCLE => "circle"
  | HEXAGON => "hexagon"
  | OCTAGON => "octagon"
  | SHIELD => "shield"
  | STAR => "star"
  | DROP => "drop"
  | RECTANGLE => "rectangle"
  | ROUNDED_RECTANGLE => "rounded_rectangle"
  | GEAR => "gear"
  | LEAF => "leaf"
  end.

(** [list(MedalShape)], in the order of definition. *)
Definition MedalShape_members : list MedalShape :=
  [CIRCLE; HEXAGON; OCTAGON; SHIELD; STAR; DROP; RECTANGLE;
   ROUNDED_RECTANGLE; GEAR; LEAF].

(** [MedalShape(value)]; [None] stands for the [ValueError] of a value
    that no member has. *)
Definition MedalShape_of_value (value : string) : option MedalShape :=
  find (fun shape => String.eqb (MedalShape_value shape) value)
       MedalShape_members.

(** [motif.value] *)
Definition MotifType_value (motif : MotifType) : string :=
  match motif with
  | MOUNTAINS => "mountains"
  | WAVES => "waves"
  | LAUREL => "laurel"
  | RAYS => "rays"
  | CHEVRONS => "chevrons"
  | TREES => "trees"
  | RUNNING_TRACK => "running_track"
  | FINISH_LINE => "finish_line"
  end.

Definition MotifType_members : list MotifType :=
  [MOUNTAINS; WAVES; LAUREL; RAYS; CHEVRONS; TREES; RUNNING_TRACK;
   FINISH_LINE].

(** [MotifType(value)] *)
Definition MotifType_of_value (value : string) : option MotifType :=
  find (fun motif => String.eqb (MotifType_value motif) value)
       MotifType_members.

(** ** ai_suggester.py *)

Module MedalSuggestion.
Record t : Type := {
  name : string;
  tagline : string;
  description : string;
  shape : string;
  primary_motif : string;
  secondary_motif : option string;
  color_wood : string;
  text_main : string;
  text_secondary : string;
  text_year : string;
  style_notes : string;
  diameter : Z;
  uv_colors : option (list string);
  uv_zones : option string;
  finish : string;
  emotional_impact : string;
  unique_feature : string
}.
End MedalSuggestion.

(** The dictionary [suggestion_to_composition_params] returns, whose keys
    are the keyword arguments of [create_custom_medal]. *)
Module CustomParams.
Record t : Type := {
  shape : MedalShape;
  primary_motif : MotifType;
  secondary_motif : option MotifType;
  wood_type : string;
  text_main : string;
  text_secondary : string;
  text_year : string;
  diameter : Z;
  concept_name : string
}.
End CustomParams.

(** A string is falsy when it is empty. *)
Definition truthy (s : string) : bool := negb (String.eqb s EmptyString).

Definition suggestion_to_composition_params (suggestion : MedalSuggestion.t)
  : CustomParams.t :=
  let shape :=
    match MedalShape_of_value (MedalSuggestion.shape suggestion) with
    | Some s => s
    | None => CIRCLE
    end in
  let primary_motif :=
    match MotifType_of_value (MedalSuggestion.primary_motif suggestion) with
    | Some m => m
    | None => MOUNTAINS
    end in
  let secondary_motif :=
    match MedalSuggestion.secondary_motif suggestion with
    | Some v => if truthy v then MotifType_of_value v else None
    | None => None
    end in
  {| CustomParams.shape := shape;
     CustomParams.primary_motif := primary_motif;
     CustomParams.secondary_motif := secondary_motif;
     CustomParams.wood_type := MedalSuggestion.color_wood suggestion;
     CustomParams.text_main := MedalSuggestion.text_main suggestion;
     CustomParams.text_secondary := MedalSuggestion.text_secondary suggestion;
     CustomParams.text_year := MedalSuggestion.text_year suggestion;
     CustomParams.diameter := MedalSuggestion.diameter suggestion;
     CustomParams.concept_name := MedalSuggestion.name suggestion |}.

(** [create_custom_medal] called with that dictionary as its keyword
    arguments, as [ai_mode] of main.py does. *)
Definition create_custom_medal_from (params : CustomParams.t)
  : MedalComposition.t :=
  create_custom_medal
    (CustomParams.shape params) (CustomParams.primary_motif params)
    (CustomParams.secondary_motif params) (CustomParams.text_main params)
    (CustomParams.text_secondary params) (CustomParams.text_year params)
    (IZR (CustomParams.diameter params))
    (CustomParams.concept_name params) (CustomParams.wood_type params).

(** The compositions the five builders of composer.py return. *)
Inductive preset : MedalComposition.t -> Prop :=
| preset_trail (event_name_upper name year distance : string) (d : R) :
    preset (create_trail_medal event_name_upper name year distance d)
| preset_running (event_name_upper name year : string) (d : R) :
    preset (create_running_medal event_name_upper name year d)
| preset_swimming (event_name_upper name year : string) (d : R) :
    preset (create_swimming_medal event_name_upper name year d)
| preset_corporate (company_name event_name_upper name year : string)
    (d : R) :
    preset (create_corporate_medal company_name event_name_upper name year d)
| preset_custom (shape : MedalShape) (primary_motif : MotifType)
    (secondary_motif : option MotifType)
    (text_main text_secondary text_year : string) (d : R)
    (concept_name wood_type : string) :
    preset (create_custom_medal shape primary_motif secondary_motif
              text_main text_secondary text_year d concept_name wood_type).

(** ** renderer.py *)

(** What the renderer builds with svgwrite: a drawing is a size, a view
    box, a list of definitions and a list of elements; an element carries
    its attributes in the order in which the call gives them. *)
Module Svg.

Inductive value : Type :=
| Str (s : string)
| Num (x : R)
(** the f-string of a length in millimetres *)
| Mm (x : R).

Definition attribs : Type := list (string * value).

Definition attr_str (key s : string) : string * value := (key, Str s).
Definition attr_num (key : string) (x : R) : string * value := (key, Num x).
Definition attr_mm (key : string) (x : R) : string * value := (key, Mm x).

(** The path data of a half circle: move to [arc_start], then an arc of
    radius [arc_radius], drawn with sweep flag 1, to [arc_end]. *)
Record arc : Type := {
  arc_start : point;
  arc_radius : R;
  arc_end : point
}.

#[warnings="-register-all"]
Inductive element : Type :=
| polygon (points : list point) (a : attribs)
| circle (center : point) (r : R) (a : attribs)
| polyline (points : list point) (a : attribs)
| path (d : arc) (a : attribs)
| text (content : string) (insert : option point) (a : attribs)
       (children : list element)
| textPath (href : element) (content : string) (a : attribs)
| g (a : attribs) (children : list element).

Record Drawing : Type := {
  size : value * value;
  (** min-x, min-y, width, height *)
  viewBox : R * R * R * R;
  defs : list element;
  elements : list element
}.

End Svg.

(** [list(polygon.exterior.coords)]: the ring with its first vertex
    repeated at the end, unless the vertices given already end on it. *)
Definition exterior_coords (p : Polygon) : list point :=
  match p with
  | [] => []
  | first :: _ =>
      if Py.eqb (fst (last p first)) (fst first)
         && Py.eqb (snd (last p first)) (snd first)
      then p
      else p ++ [first]
  end.

Definition COLORS_cut_line : string := "#FF0000".
Definition COLORS_engrave_line : string := "#0000FF".

(** [WOOD_COLORS.get(wood_type, WOOD_COLORS["hetre"])]: background and
    engraving colours. *)
Definition WOOD_COLORS (wood_type : string) : string * string :=
  if String.eqb wood_type "hetre" then ("#D4A574"%string, "#4A3728"%string)
  else if String.eqb wood_type "chene" then ("#C19A6B"%string, "#3D2914"%string)
  else if String.eqb wood_type "noyer" then ("#5C4033"%string, "#2C1810"%string)
  else if String.eqb wood_type "erable" then ("#E8DCC4"%string, "#5A4A3A"%string)
  else if String.eqb wood_type "bouleau" then ("#F5DEB3"%string, "#6B4423"%string)
  else ("#D4A574"%string, "#4A3728"%string).

(** ["bold" if bold else "normal"] *)
Definition font_weight (bold : bool) : string :=
  if bold then "bold" else "normal".

(** The size and the view box of both renderers. *)
Definition view (bounds : BBox) (margin : R)
  : (Svg.value * Svg.value) * (R * R * R * R) :=
  let width := Geo.maxx bounds - Geo.minx bounds + 2 * margin in
  let height := Geo.maxy bounds - Geo.miny bounds + 2 * margin in
  ((Svg.Mm width, Svg.Mm height),
   (Geo.minx bounds - margin, - (Geo.maxy bounds + margin), width, height)).

(** [for line in medal.motif_lines: if len(line) >= 2: ...] *)
Definition drawn_lines (motif_lines : list Polyline) : list Polyline :=
  filter (fun line => Nat.leb 2 (List.length line)) motif_lines.

(** [_add_curved_text(dwg, group, text_data, color)]: the definitions and
    the children of the group after the call.  The identifier of the path,
    built from the identity of the dictionary, is left out. *)
Definition _add_curved_text (defs group : list Svg.element)
    (text_data : TextDict.t) (color : string)
  : list Svg.element * list Svg.element :=
  let content := TextDict.content text_data in
  let cx := TextDict.x text_data in
  let cy := - TextDict.y text_data in
  let radius :=
    match TextDict.curve_radius text_data with
    | Some r => r
    | None => 30
    end in
  let start_angle :=
    match TextDict.start_angle text_data with
    | Some a => a
    | None => 180%Z
    end in
  let font_size := TextDict.font_size text_data in
  let path_d :=
    if Z.eqb start_angle 180 then
      {| Svg.arc_start := (cx - radius, cy);
         Svg.arc_radius := radius;
         Svg.arc_end := (cx + radius, cy) |}
    else
      {| Svg.arc_start := (cx + radius, cy);
         Svg.arc_radius := radius;
         Svg.arc_end := (cx - radius, cy) |} in
  let path :=
    Svg.path path_d [Svg.attr_str "fill" "none"; Svg.attr_str "stroke" "none"] in
  let defs := defs ++ [path] in
  let text_path :=
    Svg.textPath path content
      [Svg.attr_str "startOffset" "50%"; Svg.attr_str "text-anchor" "middle"] in
  let text :=
    Svg.text EmptyString None
      [Svg.attr_mm "font_size" font_size;
       Svg.attr_str "font_family" (TextDict.font_family text_data);
       Svg.attr_str "font_weight" (font_weight (TextDict.bold text_data));
       Svg.attr_str "fill" color]
      [text_path] in
  (defs, group ++ [text]).

(** The straight text both renderers draw. *)
Definition straight_text (text_data : TextDict.t) (color : string)
  : Svg.element :=
  Svg.text (TextDict.content text_data)
    (Some (TextDict.x text_data, - TextDict.y text_data))
    [Svg.attr_str "text_anchor" (TextDict.anchor text_data);
     Svg.attr_mm "font_size" (TextDict.font_size text_data);
     Svg.attr_str "font_family" (TextDict.font_family text_data);
     Svg.attr_str "font_weight" (font_weight (TextDict.bold text_data));
     Svg.attr_str "fill" color]
    [].

Definition create_svg_medal (medal : ComposedMedal.t) (wood_type : string)
    (margin : R) (show_cut_lines : bool) : Svg.Drawing :=
  let bounds := ComposedMedal.bounds medal in
  let '(size, viewBox) := view bounds margin in
  let '(wood_bg, engrave_color) := WOOD_COLORS wood_type in
  let stroke := if negb show_cut_lines then engrave_color
                else COLORS_cut_line in
  let medal_shape :=
    Svg.polygon (exterior_coords (ComposedMedal.outline medal))
      [Svg.attr_str "fill" wood_bg; Svg.attr_str "stroke" stroke;
       Svg.attr_num "stroke_width" (5 / 10)] in
  let hole :=
    match ComposedMedal.ribbon_hole_center medal with
    | Some center =>
        [Svg.circle center (ComposedMedal.ribbon_hole_radius medal)
           [Svg.attr_str "fill" "white"; Svg.attr_str "stroke" stroke;
            Svg.attr_num "stroke_width" (3 / 10)]]
    | None => []
    end in
  let motifs_group :=
    Svg.g [Svg.attr_str "stroke" engrave_color;
           Svg.attr_num "stroke_width" (4 / 10);
           Svg.attr_str "fill" "none";
           Svg.attr_str "stroke_linecap" "round";
           Svg.attr_str "stroke_linejoin" "round"]
      (map (fun line => Svg.polyline line [])
           (drawn_lines (ComposedMedal.motif_lines medal))) in
  let main_group :=
    Svg.g [Svg.attr_str "transform" "scale(1, -1)"]
      ([medal_shape] ++ hole ++ [motifs_group]) in
  let '(defs, texts) :=
    fold_left
      (fun '(defs, group) text_data =>
         if TextDict.curved text_data then
           _add_curved_text defs group text_data engrave_color
         else (defs, group ++ [straight_text text_data engrave_color]))
      (ComposedMedal.texts medal) ([], []) in
  {| Svg.size := size;
     Svg.viewBox := viewBox;
     Svg.defs := defs;
     Svg.elements := [main_group; Svg.g [] texts] |}.

(** The drawing [render_production_svg(medal, output_path)] saves. *)
Definition render_production_svg (medal : ComposedMedal.t) : Svg.Drawing :=
  let bounds := ComposedMedal.bounds medal in
  let margin := 5 in
  let '(size, viewBox) := view bounds margin in
  let cut_group :=
    Svg.g [Svg.attr_str "stroke" COLORS_cut_line;
           Svg.attr_num "stroke_width" (1 / 10);
           Svg.attr_str "fill" "none"]
      ([Svg.polygon (exterior_coords (ComposedMedal.outline medal)) []]
       ++ match ComposedMedal.ribbon_hole_center medal with
          | Some center =>
              [Svg.circle center (ComposedMedal.ribbon_hole_radius medal) []]
          | None => []
          end) in
  let engrave_group :=
    Svg.g [Svg.attr_str "stroke" COLORS_engrave_line;
           Svg.attr_num "stroke_width" (1 / 10);
           Svg.attr_str "fill" "none"]
      (map (fun line => Svg.polyline line [])
           (drawn_lines (ComposedMedal.motif_lines medal))) in
  let main_group :=
    Svg.g [Svg.attr_str "transform" "scale(1, -1)"]
      [cut_group; engrave_group] in
  let texts :=
    flat_map
      (fun text_data =>
         if negb (TextDict.curved text_data) then
           [straight_text text_data COLORS_engrave_line]
         else [])
      (ComposedMedal.texts medal) in
  {| Svg.size := size;
     Svg.viewBox := viewBox;
     Svg.defs := [];
     Svg.elements := [main_group] ++ texts |}.

(** The pixel size [render_medal_png(medal, output_path, wood_type, scale)]
    asks of the converter. *)
Definition render_medal_png_size (medal : ComposedMedal.t) (scale : R)
  : Z * Z :=
  let bounds := ComposedMedal.bounds medal in
  let width_mm := Geo.maxx bounds - Geo.minx bounds + 20 in
  let height_mm := Geo.maxy bounds - Geo.miny bounds + 20 in
  (Py.int (width_mm * scale), Py.int (height_mm * scale)).

(** ** Vocabulary on drawings *)

(** The contents of the texts among some elements: of a straight text its
    own content, of a text on a path the content of the path text. *)
Definition text_contents (elements : list Svg.element) : list string :=
  flat_map
    (fun e =>
       match e with
       | Svg.text content _ _ [] => [content]
       | Svg.text _ _ _ (Svg.textPath _ content _ :: _) => [content]
       | _ => []
       end)
    elements.

(** The children of a group. *)
Definition children (e : Svg.element) : list Svg.element :=
  match e with
  | Svg.g _ cs => cs
  | _ => []
  end.

(** The circles among some elements, as center and radius. *)
Definition circles (elements : list Svg.element) : list (point * R) :=
  flat_map
    (fun e =>
       match e with
       | Svg.circle center r _ => [(center, r)]
       | _ => []
       end)
    elements.

(** The polygons among some elements. *)
Definition polygons (elements : list Svg.element) : list (list point) :=
  flat_map
    (fun e =>
       match e with
       | Svg.polygon points _ => [points]
       | _ => []
       end)
    elements.

(** The polylines among some elements. *)
Definition polylines (elements : list Svg.element) : list Polyline :=
  flat_map
    (fun e =>
       match e with
       | Svg.polyline points _ => [points]
       | _ => []
       end)
    elements.

(** A text element that is drawn straight: on one of the three straight
    positions and not flagged as curved. *)
Definition straight (t : TextElement.t) : bool :=
  match TextElement.position t with
  | TOP | CENTER | BOTTOM => negb (TextElement.curved t)
  | AROUND_TOP | AROUND_BOTTOM => false
  end.

(** A point of the medal, as seen through the transform [scale(1, -1)] of
    the main group, lies in the view box. *)
Definition in_view (viewBox : R * R * R * R) (q : point) : Prop :=
  let '(vx, vy, vw, vh) := viewBox in
  vx <= fst q <= vx + vw /\ vy <= - snd q <= vy + vh.

(** The first of some elements, the [i]-th child of a group and its last
    child; a missing element reads as an empty group. *)
Definition first_element (elements : list Svg.element) : Svg.element :=
  hd (Svg.g [] []) elements.

Definition nth_child (i : nat) (e : Svg.element) : Svg.element :=
  nth i (children e) (Svg.g [] []).

Definition last_child (e : Svg.element) : Svg.element :=
  last (children e) (Svg.g [] []).

(** The arcs of the paths among some elements. *)
Definition arcs (elements : list Svg.element) : list Svg.arc :=
  flat_map
    (fun e =>
       match e with
       | Svg.path d _ => [d]
       | _ => []
       end)
    elements.

(** A waves motif is given a width that is not negative. *)
Definition waves_have_width (motif_elem : MotifElement.t) : Prop :=
  MotifElement.motif_type motif_elem = WAVES ->
  0 <= MotifParams.width (MotifElement.params motif_elem).

(** The half circle [_add_curved_text] lays a curved text on. *)
Definition text_arc (text_data : TextDict.t) : Svg.arc :=
  let cx := TextDict.x text_data in
  let cy := - TextDict.y text_data in
  let radius :=
    match TextDict.curve_radius text_data with
    | Some r => r
    | None => 30
    end in
  let start_angle :=
    match TextDict.start_angle text_data with
    | Some a => a
    | None => 180%Z
    end in
  if Z.eqb start_angle 180 then
    {| Svg.arc_start := (cx - radius, cy);
       Svg.arc_radius := radius;
       Svg.arc_end := (cx + radius, cy) |}
  else
    {| Svg.arc_start := (cx + radius, cy);
       Svg.arc_radius := radius;
       Svg.arc_end := (cx - radius, cy) |}.

(** The half circle from [left] to [right] at height [y], and back. *)
Definition arc_over (left right y : R) : Svg.arc :=
  {| Svg.arc_start := (left, y);
     Svg.arc_radius := (right - left) / 2;
     Svg.arc_end := (right, y) |}.

Definition arc_under (left right y : R) : Svg.arc :=
  {| Svg.arc_start := (right, y);
     Svg.arc_radius := (right - left) / 2;
     Svg.arc_end := (left, y) |}.

(** ** main.py: the composition [generate_medal] composes *)

(** [composition.shape_type = shape] *)
Definition set_shape_type (composition : MedalComposition.t)
    (shape : MedalShape) : MedalComposition.t :=
  {| MedalComposition.shape_type := shape;
     MedalComposition.shape_params :=
       MedalComposition.shape_params composition;
     MedalComposition.ribbon_hole := MedalComposition.ribbon_hole composition;
     MedalComposition.ribbon_hole_diameter :=
       MedalComposition.ribbon_hole_diameter composition;
     MedalComposition.ribbon_hole_position :=
       MedalComposition.ribbon_hole_position composition;
     MedalComposition.motifs := MedalComposition.motifs composition;
     MedalComposition.texts := MedalComposition.texts composition;
     MedalComposition.name := MedalComposition.name composition;
     MedalComposition.event_type := MedalComposition.event_type composition;
     MedalComposition.shape_polygon :=
       MedalComposition.shape_polygon composition;
     MedalComposition.validation_result :=
       MedalComposition.validation_result composition |}.

(** The exception [generate_medal] can raise before it composes. *)
Inductive generate_exn : Type :=
| IndexError.

Section Generate.

(** The methods [str.upper], [str.lower] and [str.split] of Python, over
    which the function is parametric. *)
Variables (upper lower : string -> string) (split : string -> list string).

(** [value or default] on an optional string. *)
Definition or_string (value : option string) (default : string) : string :=
  match value with
  | Some v => if truthy v then v else default
  | None => default
  end.

(** The step of [generate_medal] that forces a shape: nothing happens for a
    missing or empty shape, nor for a name that no member has as its value
    ([ValueError] is caught). *)
Definition force_shape (composition : MedalComposition.t)
    (shape : option string) : MedalComposition.t :=
  match shape with
  | Some s =>
      if truthy s then
        match MedalShape_of_value (lower s) with
        | Some forced => set_shape_type composition forced
        | None => composition
        end
      else composition
  | None => composition
  end.

(** [generate_medal(event_type, event_name, year, distance, shape,
    diameter, wood_type, output_dir)] up to the composition it hands to
    [compose_medal]: the preset of the event type, then the forced shape.
    [year] is the year given, or the current year. *)
Definition generate_medal_composition
    (event_type event_name year : string) (distance shape : option string)
    (diameter : R) : generate_exn + MedalComposition.t :=
  let name := String.append event_name (String.append " " year) in
  let composition :=
    if String.eqb event_type "trail" then
      inr (create_trail_medal (upper event_name) name year
             (or_string distance "42K") diameter)
    else if String.eqb event_type "running" then
      inr (create_running_medal (upper event_name) name year diameter)
    else if String.eqb event_type "swimming" then
      inr (create_swimming_medal (upper event_name) name year diameter)
    else if String.eqb event_type "corporate" then
      match
        (if truthy event_name then
           match split event_name with
           | first :: _ => inr first
           | [] => inl IndexError
           end
         else inr "COMPANY"%string)
      with
      | inl e => inl e
      | inr company_name =>
          let corporate_event :=
            if Nat.ltb 1 (List.length (split event_name))
            then String.concat " " (tl (split event_name))
            else "Event"%string in
          inr (create_corporate_medal company_name (upper corporate_event)
                 (String.append company_name
                    (String.append " - "
                       (String.append corporate_event
                          (String.append " " year))))
                 year diameter)
      end
    else
      inr {| MedalComposition.shape_type := CIRCLE;
             MedalComposition.shape_params :=
               ShapeParams.init diameter None 0 0;
             MedalComposition.ribbon_hole := true;
             MedalComposition.ribbon_hole_diameter := 4;
             MedalComposition.ribbon_hole_position := None;
             MedalComposition.motifs := [];
             MedalComposition.texts :=
               [ text_element (upper event_name) CENTER 6 true 0;
                 text_element year BOTTOM 5 false 0 ];
             MedalComposition.name := name;
             MedalComposition.event_type := EmptyString;
             MedalComposition.shape_polygon := None;
             MedalComposition.validation_result := None |} in
  match composition with
  | inl e => inl e
  | inr composition => inr (force_shape composition shape)
  end.

End Generate.

(** The shape parameters the presets of [generate_medal] give a medal of
    diameter [d]. *)
Definition preset_shape_params (event_type : string) (d : R)
  : ShapeParams.t :=
  if String.eqb event_type "swimming" then
    ShapeParams.init (d * (8 / 10)) (Some d) 0 0
  else if String.eqb event_type "corporate" then
    ShapeParams.init (d * (85 / 100)) (Some d) 0 0
  else ShapeParams.init d None 0 0.

(** The shape the presets of [generate_medal] give a medal. *)
Definition preset_shape (event_type : string) : MedalShape :=
  if String.eqb event_type "running" then HEXAGON
  else if String.eqb event_type "swimming" then DROP
  else if String.eqb event_type "corporate" then SHIELD
  else CIRCLE.

(** Plain stand-ins for the string methods, exact on strings of lower-case
    letters without spaces. *)
Definition one_word (s : string) : list string :=
  if String.eqb s " " then [] else [s].

(** [MedalComposition(ribbon_hole=False)]: the default disc, without a
    ribbon hole. *)
Definition plain_disc : MedalComposition.t :=
  {| MedalComposition.shape_type := CIRCLE;
     MedalComposition.shape_params := ShapeParams.default;
     MedalComposition.ribbon_hole := false;
     MedalComposition.ribbon_hole_diameter := 4;
     MedalComposition.ribbon_hole_position := None;
     MedalComposition.motifs := [];
     MedalComposition.texts := [];
     MedalComposition.name := "Medal";
     MedalComposition.event_type := EmptyString;
     MedalComposition.shape_polygon := None;
     MedalComposition.validation_result := None |}.

(** The suggestion [get_ai_suggestions] builds from an empty JSON object:
    every field at the default of [s.get]. *)
Definition empty_suggestion (event_name_upper year : string)
  : MedalSuggestion.t :=
  {| MedalSuggestion.name := EmptyString;
     MedalSuggestion.tagline := EmptyString;
     MedalSuggestion.description := EmptyString;
     MedalSuggestion.shape := "circle";
     MedalSuggestion.primary_motif := "mountains";
     MedalSuggestion.secondary_motif := None;
     MedalSuggestion.color_wood := "hetre";
     MedalSuggestion.text_main := event_name_upper;
     MedalSuggestion.text_secondary := EmptyString;
     MedalSuggestion.text_year := year;
     MedalSuggestion.style_notes := EmptyString;
     MedalSuggestion.diameter := 70;
     MedalSuggestion.uv_colors := None;
     MedalSuggestion.uv_zones := None;
     MedalSuggestion.finish := "naturel";
     MedalSuggestion.emotional_impact := EmptyString;
     MedalSuggestion.unique_feature := EmptyString |}.

(** * Properties *)

(** ** Floats, lists and the exception monad *)

Lemma ltb_true (a b : R) : Py.ltb a b = true <-> a < b.
Proof. unfold Py.ltb; destruct (Rlt_dec a b); split; intros; try easy; lra. Qed.

Lemma ltb_false (a b : R) : Py.ltb a b = false <-> b <= a.
Proof. unfold Py.ltb; destruct (Rlt_dec a b); split; intros; try easy; lra. Qed.

Lemma eqb_true (a b : R) : Py.eqb a b = true <-> a = b.
Proof. unfold Py.eqb; destruct (Req_dec_T a b); split; intros; easy. Qed.

Lemma eqb_false (a b : R) : Py.eqb a b = false <-> a <> b.
Proof. unfold Py.eqb; destruct (Req_dec_T a b); split; intros; easy. Qed.

Lemma when_nil (cond : bool) (m : Message) : when cond m = [] <-> cond = false.
Proof. destruct cond; simpl; split; intros; easy. Qed.

Lemma when_one (cond : bool) (m : Message) : when cond m = [m] <-> cond = true.
Proof. destruct cond; simpl; split; intros; easy. Qed.

Lemma is_nil_true {A} (xs : list A) : is_nil xs = true <-> xs = [].
Proof. destruct xs; simpl; split; intros; easy. Qed.

(** ** The text check *)

(** C5.  The text check reports an error exactly when the height is below
    the minimum, and a warning exactly when the height is at least the
    minimum and below one and a half times the minimum.  With the default
    minimum of 3 mm: one error at 2 mm; no error and one warning at 4 mm;
    neither at 5 mm. *)
Theorem validate_engraving_text_thresholds :
  (forall (h : R) (c : TrotecConstraints.t),
      let m := TrotecConstraints.min_text_height c in
      let r := validate_engraving_text h c in
      (ValidationResult.errors r = [TextTooSmall h m] <-> h < m)
      /\ (ValidationResult.errors r = [] <-> m <= h)
      /\ (ValidationResult.warnings r = [TextSmall h]
          <-> m <= h < 15 / 10 * m)
      /\ (ValidationResult.warnings r = [] <-> ~ (m <= h < 15 / 10 * m))
      /\ (ValidationResult.is_valid r = true <-> ValidationResult.errors r = []))
  /\ (let r := validate_engraving_text 2 DEFAULT_CONSTRAINTS in
      List.length (ValidationResult.errors r) = 1%nat
      /\ ValidationResult.errors r = [TextTooSmall 2 3])
  /\ (let r := validate_engraving_text 4 DEFAULT_CONSTRAINTS in
      ValidationResult.errors r = []
      /\ List.length (ValidationResult.warnings r) = 1%nat
      /\ ValidationResult.warnings r = [TextSmall 4])
  /\ (let r := validate_engraving_text 5 DEFAULT_CONSTRAINTS in
      ValidationResult.errors r = [] /\ ValidationResult.warnings r = []).
Proof.
  split; [| repeat split; unfold validate_engraving_text; simpl;
            unfold when; py_cmp; simpl; reflexivity ].
  intros h c m r; subst r; unfold validate_engraving_text; cbn zeta.
  fold m; simpl.
  repeat split; intros; try apply is_nil_true; try (apply is_nil_true; assumption);
    revert H; unfold when; py_cmp; simpl; intros; try easy; try lra.
Qed.

(** ** The ribbon-hole check *)

Section HoleCheck.

Context {GEOS : Shapely}.

(** C4.  The ribbon-hole check reports the hole as leaving the medal
    exactly when the outline does not contain the hole disk, and as too
    close to the edge exactly when the distance from the hole center to
    the outline boundary is below the hole radius plus the minimum margin.
    With the default profile, a contained hole whose center is 5 mm from
    the boundary gets exactly one error. *)
Theorem validate_ribbon_hole_errors :
  (forall (outline : Polygon) (center : point) (c : TrotecConstraints.t),
      let radius := TrotecConstraints.ribbon_hole_diameter c / 2 in
      let hole := point_buffer center radius default_resolution in
      let distance := exterior_distance outline center in
      let limit := radius + TrotecConstraints.ribbon_hole_min_margin c in
      let r := validate_ribbon_hole outline center c in
      ValidationResult.errors r
      = when (negb (contains outline hole)) HoleOutsideMedal
        ++ when (Py.ltb distance limit) (HoleTooCloseToEdge distance limit)
      /\ (In HoleOutsideMedal (ValidationResult.errors r)
          <-> contains outline hole = false)
      /\ (In (HoleTooCloseToEdge distance limit) (ValidationResult.errors r)
          <-> distance < limit)
      /\ (ValidationResult.is_valid r = true
          <-> ValidationResult.errors r = []))
  /\ (forall (outline : Polygon) (center : point),
         contains outline (point_buffer center (4 / 2) default_resolution)
         = true ->
         exterior_distance outline center = 5 ->
         ValidationResult.errors
           (validate_ribbon_hole outline center DEFAULT_CONSTRAINTS)
         = [HoleTooCloseToEdge 5 (4 / 2 + 5)]).
Proof.
  split.
  - intros outline center c radius hole distance limit r.
    subst r; unfold validate_ribbon_hole; cbn zeta.
    fold radius; fold hole; fold distance; fold limit; simpl.
    split; [reflexivity |].
    split; [| split].
    + destruct (contains outline hole); simpl.
      * split; [| discriminate].
        unfold when; destruct (Py.ltb distance limit); simpl;
          intros H; [destruct H as [H | []]; discriminate | destruct H].
      * split; auto.
    + rewrite in_app_iff. rewrite <- ltb_true.
      destruct (Py.ltb distance limit); simpl.
      * split; auto.
      * split; [| discriminate].
        destruct (contains outline hole); simpl;
          intros [H | H]; try destruct H as [H | []]; try discriminate;
          try destruct H.
    + apply is_nil_true.
  - intros outline center Hin Hdist.
    unfold validate_ribbon_hole; simpl.
    rewrite Hin, Hdist; simpl.
    unfold when; py_cmp. reflexivity.
Qed.

End HoleCheck.

(** ** The outline check *)

Section OutlineCheck.

Context {GEOS : Shapely}.

(** C3.  With the default profile the outline check accepts a circular
    ring of diameter 80 mm without any error, and answers a circular ring
    of diameter 30 mm with exactly one error, the minimum-size one. *)
Theorem validate_medal_shape_circles (ring80 ring30 : Polygon) :
  circular_ring 80 (2 / 2) ring80 ->
  circular_ring 30 (2 / 2) ring30 ->
  (ValidationResult.is_valid
     (validate_medal_shape ring80 DEFAULT_CONSTRAINTS) = true
   /\ ValidationResult.errors
        (validate_medal_shape ring80 DEFAULT_CONSTRAINTS) = [])
  /\ (ValidationResult.is_valid
        (validate_medal_shape ring30 DEFAULT_CONSTRAINTS) = false
      /\ ValidationResult.errors
           (validate_medal_shape ring30 DEFAULT_CONSTRAINTS)
         = [MedalTooSmall 30 40]).
Proof.
  intros (V80 & W80 & H80 & E80) (V30 & W30 & H30 & E30).
  unfold validate_medal_shape; simpl.
  rewrite V80, V30, W80, H80, W30, H30, E80, E30; simpl.
  unfold when, Rmax.
  destruct (Rle_dec 80 80); destruct (Rle_dec 30 30); try lra.
  py_cmp; simpl; auto.
Qed.

End OutlineCheck.

(** ** Runs on the rectangle kernel *)

(** Evaluate bounding boxes of explicit rings and the comparisons on them. *)
Ltac geo_eval :=
  repeat match goal with x := _ |- _ => progress unfold x end;
  cbv beta iota zeta delta
    [point_buffer buffer polygon_is_valid contains exterior_distance
     RectKernel.kernel RectKernel.point_buffer RectKernel.buffer
     RectKernel.contains RectKernel.exterior_distance RectKernel.leb
     RectKernel.polygon_is_valid Geo.box Geo.bounds
     Geo.maxx Geo.minx Geo.maxy Geo.miny Geo.is_empty
     Py.gtb Py.ltb Py.eqb default_resolution
     fold_left fst snd andb negb];
  repeat match goal with
    | |- context [Rmin ?a ?b] =>
        first [ rewrite (Rmin_left a b) by lra
              | rewrite (Rmin_right a b) by lra ]
    | |- context [Rmax ?a ?b] =>
        first [ rewrite (Rmax_left a b) by lra
              | rewrite (Rmax_right a b) by lra ]
    | |- context [Rabs ?a] =>
        first [ rewrite (Rabs_right a) by lra
              | rewrite (Rabs_left a) by lra ]
    end;
  repeat match goal with
    | |- context [Rlt_dec ?a ?b] => destruct (Rlt_dec a b); try lra
    | |- context [Req_dec_T ?a ?b] => destruct (Req_dec_T a b); try lra
    end;
  cbv beta iota;
  try reflexivity; try lra.

(** The rings [Point(0, 0).buffer(40)] and [Point(0, 0).buffer(15)] of the
    module's self-test, on the rectangle kernel. *)
Lemma validate_medal_shape_circles_witness :
  let K := RectKernel.kernel in
  let ring80 := point_buffer (0, 0) 40 default_resolution in
  let ring30 := point_buffer (0, 0) 15 default_resolution in
  circular_ring 80 (2 / 2) ring80
  /\ circular_ring 30 (2 / 2) ring30
  /\ ValidationResult.errors
       (validate_medal_shape ring80 DEFAULT_CONSTRAINTS) = []
  /\ ValidationResult.errors
       (validate_medal_shape ring30 DEFAULT_CONSTRAINTS)
     = [MedalTooSmall 30 40].
Proof.
  intros K ring80 ring30.
  assert (C80 : circular_ring 80 (2 / 2) ring80)
    by (repeat split; geo_eval).
  assert (C30 : circular_ring 30 (2 / 2) ring30)
    by (repeat split; geo_eval).
  split; [exact C80 |]. split; [exact C30 |].
  destruct (validate_medal_shape_circles C80 C30) as [[_ E80] [_ E30]].
  split; assumption.
Defined.

(** The self-test of the hole check: a hole at (0, 35) in an outline whose
    top edge is at y = 40. *)
Lemma validate_ribbon_hole_errors_witness :
  let K := RectKernel.kernel in
  let outline := Geo.box (-40) (-40) 40 40 in
  let center := (0, 35) in
  contains outline (point_buffer center (4 / 2) default_resolution) = true
  /\ exterior_distance outline center = 5
  /\ ValidationResult.errors
       (validate_ribbon_hole outline center DEFAULT_CONSTRAINTS)
     = [HoleTooCloseToEdge 5 (4 / 2 + 5)].
Proof.
  intros K outline center.
  assert (Hin : contains outline
                  (point_buffer center (4 / 2) default_resolution) = true)
    by geo_eval.
  assert (Hd : exterior_distance outline center = 5) by geo_eval.
  split; [exact Hin |]. split; [exact Hd |].
  exact (proj2 (validate_ribbon_hole_errors (GEOS := K)) outline center Hin Hd).
Defined.

(** ** The motif generators *)

Lemma create_finish_line_zero_width (height : R) :
  create_finish_line 0 height = inl Py.ZeroDivisionError.
Proof.
  unfold create_finish_line, Py.div, Py.bind, Py.raise.
  assert (E : Py.eqb (0 / INR 6) 0 = true) by (apply eqb_true; lra).
  rewrite E. reflexivity.
Qed.

Lemma create_finish_line_returns (width height : R) :
  width <> 0 -> exists lines, create_finish_line width height = inr lines.
Proof.
  intros Hw. unfold create_finish_line, Py.div, Py.bind, Py.ret.
  assert (E : Py.eqb (width / INR 6) 0 = false).
  { apply eqb_false. simpl. lra. }
  rewrite E. eexists. reflexivity.
Qed.

Lemma get_motif_returns (motif_type : MotifType) (params : MotifParams.t) :
  (motif_type = FINISH_LINE -> MotifParams.width params <> 0) ->
  exists lines, get_motif motif_type params = inr lines.
Proof.
  intros Hw. unfold get_motif.
  destruct motif_type; simpl;
    try (destruct (negb _ || negb _); eexists; reflexivity).
  destruct (create_finish_line_returns (MotifParams.height params) (Hw eq_refl))
    as [lines E].
  rewrite E; simpl.
  destruct (negb _ || negb _); eexists; reflexivity.
Qed.

Lemma position_motif_returns (motif_elem : MotifElement.t) :
  motif_well_formed motif_elem ->
  exists lines,
    get_motif (MotifElement.motif_type motif_elem)
              (MotifElement.params motif_elem) = inr lines
    /\ position_motif motif_elem = inr (placed motif_elem lines).
Proof.
  intros Hw. destruct (get_motif_returns _ Hw) as [lines E].
  exists lines. split; [exact E |].
  unfold position_motif, placed. rewrite E; simpl.
  destruct (MotifElement.position motif_elem); reflexivity.
Qed.

Lemma position_motif_inr (motif_elem : MotifElement.t) (out : list Polyline) :
  position_motif motif_elem = inr out ->
  exists lines,
    get_motif (MotifElement.motif_type motif_elem)
              (MotifElement.params motif_elem) = inr lines
    /\ out = placed motif_elem lines.
Proof.
  unfold position_motif, placed.
  destruct (get_motif _ _) as [e | lines]; simpl; [discriminate |].
  destruct (MotifElement.position motif_elem); simpl.
  intros H; injection H as <-. exists lines; split; reflexivity.
Qed.

(** ** The loops of the composer *)

Lemma extend_each_returns {A B} (f : A -> Py.result (list B)) (xs : list A) :
  Forall (fun x => exists ys, f x = inr ys) xs ->
  exists out, Py.extend_each f xs = inr out.
Proof.
  induction 1 as [| x xs [ys E] _ [rest IH]]; simpl.
  - eexists; reflexivity.
  - rewrite E; simpl. rewrite IH; simpl. eexists; reflexivity.
Qed.

(** A loop that returned went through every element, and its result is the
    concatenation of what each turn produced, in order. *)
Lemma extend_each_inr {A B} (f : A -> Py.result (list B)) (xs : list A)
    (out : list B) :
  Py.extend_each f xs = inr out ->
  exists parts,
    Forall2 (fun x ys => f x = inr ys) xs parts /\ out = List.concat parts.
Proof.
  revert out; induction xs as [| x xs IH]; simpl; intros out H.
  - injection H as <-. exists []; split; [constructor | reflexivity].
  - destruct (f x) as [e | ys] eqn:E; simpl in H; [discriminate |].
    destruct (Py.extend_each f xs) as [e | rest]; simpl in H; [discriminate |].
    injection H as <-.
    destruct (IH rest eq_refl) as (parts & HF & ->).
    exists (ys :: parts); split; [constructor; assumption | reflexivity].
Qed.

Lemma fold_text_step (bounds : BBox) (constraints : TrotecConstraints.t)
    (texts : list TextElement.t) (acc : Accumulated) :
  fold_left (text_step bounds constraints) texts acc
  = {| all_errors := all_errors acc ++ text_errors constraints texts;
       all_warnings := all_warnings acc ++ text_warnings constraints texts;
       positioned_texts :=
         positioned_texts acc ++ map (place_text bounds) texts |}.
Proof.
  revert acc; induction texts as [| t texts IH]; intros acc; simpl.
  - rewrite !app_nil_r. destruct acc; reflexivity.
  - rewrite IH. unfold text_step; simpl.
    unfold text_errors, text_warnings; simpl.
    rewrite <- !app_assoc. reflexivity.
Qed.

Section ComposerFacts.

Context {GEOS : Shapely}.

(** The outline, the resolved hole and the three concatenated lists in terms
    of the inputs: what a returning [compose_medal] returns. *)
Lemma compose_medal_inr
    (composition : MedalComposition.t) (constraints : TrotecConstraints.t)
    (medal : ComposedMedal.t) :
  compose_medal composition constraints = inr medal ->
  let outline :=
    get_shape (MedalComposition.shape_type composition)
              (MedalComposition.shape_params composition) in
  let hole := resolve_ribbon_hole composition outline constraints in
  let errs :=
    ValidationResult.errors (validate_medal_shape outline constraints)
    ++ snd (fst hole)
    ++ text_errors constraints (MedalComposition.texts composition) in
  exists lines,
    Py.extend_each position_motif (MedalComposition.motifs composition)
    = inr lines
    /\ medal
       = {| ComposedMedal.outline := outline;
            ComposedMedal.ribbon_hole_center := fst (fst hole);
            ComposedMedal.ribbon_hole_radius :=
              MedalComposition.ribbon_hole_diameter composition / 2;
            ComposedMedal.motif_lines := lines;
            ComposedMedal.texts :=
              map (place_text (Geo.bounds outline))
                  (MedalComposition.texts composition);
            ComposedMedal.name := MedalComposition.name composition;
            ComposedMedal.bounds := Geo.bounds outline;
            ComposedMedal.is_valid := is_nil errs;
            ComposedMedal.validation_result :=
              {| ValidationResult.is_valid := is_nil errs;
                 ValidationResult.errors := errs;
                 ValidationResult.warnings :=
                   ValidationResult.warnings
                     (validate_medal_shape outline constraints)
                   ++ snd hole
                   ++ text_warnings constraints
                        (MedalComposition.texts composition) |} |}.
Proof.
  intros H outline hole errs. unfold compose_medal in H.
  fold outline in H. fold hole in H.
  subst errs. destruct hole as [[center herrs] hwarns]; simpl.
  destruct (Py.extend_each position_motif _) as [e | lines]; simpl in H;
    [discriminate |].
  exists lines; split; [reflexivity |].
  rewrite fold_text_step in H; simpl in H.
  rewrite <- !app_assoc in H.
  injection H as <-. reflexivity.
Qed.

Lemma compose_medal_returns
    (composition : MedalComposition.t) (constraints : TrotecConstraints.t) :
  Forall motif_well_formed (MedalComposition.motifs composition) ->
  exists medal, compose_medal composition constraints = inr medal.
Proof.
  intros Hwf. unfold compose_medal.
  destruct (resolve_ribbon_hole _ _ _) as [[center herrs] hwarns].
  destruct (extend_each_returns position_motif) with
    (xs := MedalComposition.motifs composition) as [lines E].
  { eapply Forall_impl; [| exact Hwf].
    intros m Hm. destruct (position_motif_returns Hm) as (ls & _ & E).
    eexists; exact E. }
  rewrite E; simpl. eexists; reflexivity.
Qed.

End ComposerFacts.

(** ** The composer *)

Section ComposerClaims.

Context {GEOS : Shapely}.

Lemma resolve_ribbon_hole_errors
    (composition : MedalComposition.t) (outline : Polygon)
    (constraints : TrotecConstraints.t) :
  snd (fst (resolve_ribbon_hole composition outline constraints))
  = hole_errors composition outline constraints.
Proof.
  unfold resolve_ribbon_hole, hole_errors, resolved_center,
    calculate_ribbon_hole_position.
  destruct (MedalComposition.ribbon_hole composition); [| reflexivity].
  destruct (MedalComposition.ribbon_hole_position composition); reflexivity.
Qed.

Lemma resolve_ribbon_hole_center
    (composition : MedalComposition.t) (outline : Polygon)
    (constraints : TrotecConstraints.t) :
  fst (fst (resolve_ribbon_hole composition outline constraints))
  = if MedalComposition.ribbon_hole composition
    then Some (resolved_center composition outline)
    else None.
Proof.
  unfold resolve_ribbon_hole, resolved_center, calculate_ribbon_hole_position.
  destruct (MedalComposition.ribbon_hole composition); [| reflexivity].
  destruct (MedalComposition.ribbon_hole_position composition); reflexivity.
Qed.

Lemma compose_medal_errors
    (composition : MedalComposition.t) (constraints : TrotecConstraints.t)
    (medal : ComposedMedal.t) :
  compose_medal composition constraints = inr medal ->
  ValidationResult.errors (ComposedMedal.validation_result medal)
  = concatenated_errors composition constraints
  /\ ValidationResult.is_valid (ComposedMedal.validation_result medal)
     = is_nil (concatenated_errors composition constraints)
  /\ ComposedMedal.is_valid medal
     = is_nil (concatenated_errors composition constraints).
Proof.
  intros H. destruct (compose_medal_inr _ _ H) as (lines & _ & ->).
  simpl. rewrite resolve_ribbon_hole_errors.
  unfold concatenated_errors, text_errors. repeat split.
Qed.

(** C2, amended.  For every composition whose finish-line motifs have a
    non-zero width, and every profile, [compose_medal] returns a medal; the
    errors of its validation result are those of the outline check, of the
    hole check and of the text checks, concatenated; validity, in the result
    and in the medal, says exactly that this list is empty, whatever the
    warnings. *)
Theorem compose_medal_completes
    (composition : MedalComposition.t) (constraints : TrotecConstraints.t) :
  Forall motif_well_formed (MedalComposition.motifs composition) ->
  exists medal,
    compose_medal composition constraints = inr medal
    /\ ValidationResult.errors (ComposedMedal.validation_result medal)
       = concatenated_errors composition constraints
    /\ (ValidationResult.is_valid (ComposedMedal.validation_result medal)
        = true
        <-> concatenated_errors composition constraints = [])
    /\ ComposedMedal.is_valid medal
       = ValidationResult.is_valid (ComposedMedal.validation_result medal)
    /\ ValidationResult.is_valid (ComposedMedal.validation_result medal)
       = is_nil
           (ValidationResult.errors (ComposedMedal.validation_result medal)).
Proof.
  intros Hwf.
  destruct (compose_medal_returns composition constraints Hwf) as [medal H].
  exists medal. split; [exact H |].
  destruct (compose_medal_errors _ _ H) as (E & V & V').
  rewrite E, V, V'. repeat split; try apply is_nil_true.
Qed.

Lemma compose_medal_zero_width_raises (constraints : TrotecConstraints.t) :
  compose_medal zero_width_finish_line constraints
  = inl Py.ZeroDivisionError.
Proof.
  unfold compose_medal.
  destruct (resolve_ribbon_hole _ _ _) as [[center herrs] hwarns].
  unfold zero_width_finish_line at 1; cbn [MedalComposition.motifs].
  cbn [Py.extend_each]. unfold position_motif at 1, get_motif.
  cbn [MotifElement.motif_type MotifElement.params MotifParams.width
       MotifParams.height].
  rewrite create_finish_line_zero_width. reflexivity.
Qed.

End ComposerClaims.

Section ComposerHoleAndMotifs.

Context {GEOS : Shapely}.

(** C6.  When a hole is requested without an explicit position, the center
    is the horizontal middle of the outline's bounding box, 8 mm under its
    top edge; step 3 runs the hole check on that center; the medal returned
    carries it, and the errors of that check sit between those of the
    outline check and those of the text checks.  The medal is returned as
    soon as the motif generators return. *)
Theorem compose_medal_automatic_hole
    (composition : MedalComposition.t) (constraints : TrotecConstraints.t) :
  MedalComposition.ribbon_hole composition = true ->
  MedalComposition.ribbon_hole_position composition = None ->
  let outline :=
    get_shape (MedalComposition.shape_type composition)
              (MedalComposition.shape_params composition) in
  let b := Geo.bounds outline in
  let center := ((Geo.minx b + Geo.maxx b) / 2, Geo.maxy b - 8) in
  let check := validate_ribbon_hole outline center constraints in
  resolve_ribbon_hole composition outline constraints
  = (Some center, ValidationResult.errors check,
     ValidationResult.warnings check)
  /\ (forall medal,
         compose_medal composition constraints = inr medal ->
         ComposedMedal.ribbon_hole_center medal = Some center
         /\ ValidationResult.errors (ComposedMedal.validation_result medal)
            = ValidationResult.errors
                (validate_medal_shape outline constraints)
              ++ ValidationResult.errors check
              ++ text_errors constraints
                   (MedalComposition.texts composition))
  /\ (Forall motif_well_formed (MedalComposition.motifs composition) ->
      exists medal, compose_medal composition constraints = inr medal).
Proof.
  intros Hhole Hpos outline b center check.
  assert (R : resolve_ribbon_hole composition outline constraints
              = (Some center, ValidationResult.errors check,
                 ValidationResult.warnings check)).
  { unfold resolve_ribbon_hole. rewrite Hhole, Hpos. reflexivity. }
  split; [exact R |]. split.
  - intros medal H. destruct (compose_medal_inr _ _ H) as (lines & _ & ->).
    simpl. fold outline. rewrite R. simpl. split; reflexivity.
  - apply compose_medal_returns.
Qed.

(** The lines of an element at their place, point by point. *)
Lemma placed_coordinates (motif_elem : MotifElement.t)
    (lines : list Polyline) :
  placed motif_elem lines
  = map (map (fun q : point =>
                (fst q + fst (MotifElement.position motif_elem),
                 snd q + snd (MotifElement.position motif_elem))))
        lines.
Proof.
  unfold placed. apply map_ext. intros line. apply map_ext. intros q.
  unfold Geo.translate. reflexivity.
Qed.

(** C7.  The motif lines of a returned medal are, element after element in
    the order of declaration, the lines [get_motif] generates for the
    element, each point (x, y) of them moved to (x + ox, y + oy), where
    (ox, oy) is the placement offset of the element; their number is the
    sum of the numbers of generated lines.  The medal is returned as soon
    as the motif generators return. *)
Theorem compose_medal_motif_lines
    (composition : MedalComposition.t) (constraints : TrotecConstraints.t) :
  (forall medal,
      compose_medal composition constraints = inr medal ->
      exists generated : list (list Polyline),
        Forall2
          (fun motif_elem lines =>
             get_motif (MotifElement.motif_type motif_elem)
                       (MotifElement.params motif_elem) = inr lines)
          (MedalComposition.motifs composition) generated
        /\ ComposedMedal.motif_lines medal
           = flat_map
               (fun '(motif_elem, lines) =>
                  let ox := fst (MotifElement.position motif_elem) in
                  let oy := snd (MotifElement.position motif_elem) in
                  map (map (fun q : point => (fst q + ox, snd q + oy)))
                      lines)
               (combine (MedalComposition.motifs composition) generated)
        /\ List.length (ComposedMedal.motif_lines medal)
           = list_sum (map (@List.length Polyline) generated))
  /\ (Forall motif_well_formed (MedalComposition.motifs composition) ->
      exists medal, compose_medal composition constraints = inr medal).
Proof.
  split; [| apply compose_medal_returns].
  intros medal H. destruct (compose_medal_inr _ _ H) as (lines & E & ->).
  simpl. clear H.
  destruct (extend_each_inr _ _ E) as (parts & HF & ->). clear E.
  induction HF as [| m part ms parts Hm HF IH].
  - exists []. repeat split. constructor.
  - destruct IH as (generated & HG & EQ & LEN).
    destruct (position_motif_inr _ Hm) as (ls & Hls & ->).
    exists (ls :: generated). split; [constructor; assumption |].
    simpl. rewrite EQ, placed_coordinates. split; [reflexivity |].
    rewrite length_app, <- EQ, LEN, length_map.
    reflexivity.
Qed.

(** C9.  The radius a medal carries is half the diameter the composition
    declares, while the hole check builds its disk from half the diameter of
    the profile: changing the declared diameter changes that radius and
    nothing in the validation. *)
Theorem compose_medal_hole_diameter
    (composition : MedalComposition.t) (constraints : TrotecConstraints.t)
    (d : R) :
  MedalComposition.ribbon_hole composition = true ->
  Forall motif_well_formed (MedalComposition.motifs composition) ->
  let outline :=
    get_shape (MedalComposition.shape_type composition)
              (MedalComposition.shape_params composition) in
  let center := resolved_center composition outline in
  let radius := TrotecConstraints.ribbon_hole_diameter constraints / 2 in
  let hole := point_buffer center radius default_resolution in
  let distance := exterior_distance outline center in
  let limit :=
    radius + TrotecConstraints.ribbon_hole_min_margin constraints in
  exists medal medal',
    compose_medal composition constraints = inr medal
    /\ compose_medal (with_hole_diameter composition d) constraints
       = inr medal'
    /\ ComposedMedal.ribbon_hole_radius medal
       = MedalComposition.ribbon_hole_diameter composition / 2
    /\ ComposedMedal.ribbon_hole_radius medal' = d / 2
    /\ ComposedMedal.ribbon_hole_center medal = Some center
    /\ ComposedMedal.ribbon_hole_center medal' = Some center
    /\ ValidationResult.errors (ComposedMedal.validation_result medal)
       = ValidationResult.errors (validate_medal_shape outline constraints)
         ++ (when (negb (contains outline hole)) HoleOutsideMedal
             ++ when (Py.ltb distance limit)
                  (HoleTooCloseToEdge distance limit))
         ++ text_errors constraints (MedalComposition.texts composition)
    /\ ComposedMedal.validation_result medal'
       = ComposedMedal.validation_result medal
    /\ ComposedMedal.is_valid medal' = ComposedMedal.is_valid medal.
Proof.
  intros Hhole Hwf outline center radius hole distance limit.
  destruct (compose_medal_returns composition constraints Hwf) as [medal H].
  destruct (compose_medal_returns (with_hole_diameter composition d)
              constraints Hwf) as [medal' H'].
  exists medal, medal'. split; [exact H |]. split; [exact H' |].
  destruct (compose_medal_inr _ _ H) as (lines & E & ->).
  destruct (compose_medal_inr _ _ H') as (lines' & E' & ->).
  simpl in *. fold outline.
  assert (R : resolve_ribbon_hole (with_hole_diameter composition d)
                outline constraints
              = resolve_ribbon_hole composition outline constraints)
    by reflexivity.
  rewrite R. rewrite resolve_ribbon_hole_center, resolve_ribbon_hole_errors.
  unfold hole_errors. rewrite Hhole. fold center.
  repeat split.
Qed.


End ComposerHoleAndMotifs.

(** ** The composer on concrete compositions *)

Lemma trail_motifs_well_formed :
  Forall motif_well_formed (MedalComposition.motifs trail_composition).
Proof.
  repeat constructor; intros H; discriminate H.
Qed.

(** C2, as stated, fails: a finish-line motif of width zero makes
    [create_finish_line] divide by zero, and [compose_medal] raises instead
    of returning. *)
Lemma compose_medal_zero_width_finish_line :
  @compose_medal RectKernel.kernel zero_width_finish_line DEFAULT_CONSTRAINTS
  = inl Py.ZeroDivisionError
  /\ ~ (forall (K : Shapely) (composition : MedalComposition.t)
               (constraints : TrotecConstraints.t),
           exists medal,
             @compose_medal K composition constraints = inr medal).
Proof.
  split.
  - apply compose_medal_zero_width_raises.
  - intros H.
    destruct (H RectKernel.kernel zero_width_finish_line DEFAULT_CONSTRAINTS)
      as [medal E].
    rewrite compose_medal_zero_width_raises in E. discriminate E.
Qed.

Lemma trail_outline :
  @get_shape RectKernel.kernel CIRCLE (ShapeParams.init 80 None 0 0)
  = RectKernel.point_buffer (0, 0) (80 / 2) 64.
Proof.
  unfold get_shape, create_circle; simpl. py_cmp. reflexivity.
Qed.

Lemma compose_medal_completes_witness :
  Forall motif_well_formed (MedalComposition.motifs trail_composition)
  /\ exists medal,
       @compose_medal RectKernel.kernel trail_composition DEFAULT_CONSTRAINTS
       = inr medal
       /\ ValidationResult.errors (ComposedMedal.validation_result medal)
          = @concatenated_errors RectKernel.kernel trail_composition
              DEFAULT_CONSTRAINTS.
Proof.
  split; [exact trail_motifs_well_formed |].
  destruct (@compose_medal_completes RectKernel.kernel trail_composition
              DEFAULT_CONSTRAINTS trail_motifs_well_formed)
    as (medal & H & E & _).
  exists medal. split; assumption.
Defined.

Lemma compose_medal_automatic_hole_witness :
  MedalComposition.ribbon_hole trail_composition = true
  /\ MedalComposition.ribbon_hole_position trail_composition = None
  /\ forall medal,
       @compose_medal RectKernel.kernel trail_composition DEFAULT_CONSTRAINTS
       = inr medal ->
       ComposedMedal.ribbon_hole_center medal = Some ((-40 + 40) / 2, 40 - 8).
Proof.
  split; [reflexivity |]. split; [reflexivity |].
  intros medal H.
  destruct (@compose_medal_automatic_hole RectKernel.kernel trail_composition
              DEFAULT_CONSTRAINTS eq_refl eq_refl) as (_ & C & _).
  destruct (C medal H) as [-> _].
  change (MedalComposition.shape_type trail_composition) with CIRCLE.
  change (MedalComposition.shape_params trail_composition)
    with (ShapeParams.init 80 None 0 0).
  rewrite trail_outline. f_equal. f_equal; geo_eval.
Defined.

(** The number of lines of each generator, the finish line apart. *)
Lemma get_motif_line_count
    (motif_type : MotifType) (params : MotifParams.t) (lines : list Polyline) :
  get_motif motif_type params = inr lines ->
  motif_type <> FINISH_LINE ->
  List.length lines
  = match motif_type with
    | MOUNTAINS => 1
    | WAVES => 2
    | LAUREL => 14
    | RAYS => 12
    | CHEVRONS => 3
    | TREES => 6
    | RUNNING_TRACK => 3
    | FINISH_LINE => 0
    end%nat.
Proof.
  intros H Hty. unfold get_motif in H.
  destruct motif_type; try (exfalso; apply Hty; reflexivity);
    cbn [Py.bind Py.ret] in H;
    destruct (negb _ || negb _); injection H as <-;
    rewrite ?length_map; reflexivity.
Qed.

Lemma compose_medal_motif_lines_witness :
  exists medal,
    @compose_medal RectKernel.kernel trail_composition DEFAULT_CONSTRAINTS
    = inr medal
    /\ List.length (ComposedMedal.motif_lines medal) = 7%nat
    /\ nth 0 (nth 0 (ComposedMedal.motif_lines medal) []) (0, 0)
       = (- (80 * (7 / 10)) / 2 + 0, 0 + - 5).
Proof.
  destruct (@compose_medal_motif_lines RectKernel.kernel trail_composition
              DEFAULT_CONSTRAINTS) as [Lines Returns].
  destruct (Returns trail_motifs_well_formed) as [medal H].
  exists medal. split; [exact H |].
  destruct (Lines medal H) as (generated & HF & Placed & Count).
  inversion HF as [| m1 l1 ms1 g1 H1 HF1]; subst.
  inversion HF1 as [| m2 l2 ms2 g2 H2 HF2]; subst.
  inversion HF2; subst.
  split.
  - apply get_motif_line_count in H1; [| discriminate].
    apply get_motif_line_count in H2; [| discriminate].
    rewrite Count. simpl in *. rewrite H1, H2. reflexivity.
  - rewrite Placed. clear Placed Count H2.
    unfold get_motif in H1.
    cbn [MotifElement.motif_type MotifElement.params MotifParams.width
         MotifParams.height MotifParams.offset_x MotifParams.offset_y
         Py.bind Py.ret] in H1.
    assert (Z : Py.eqb 0 0 = true) by (apply eqb_true; reflexivity).
    rewrite Z in H1. cbn [negb orb] in H1. injection H1 as <-.
    reflexivity.
Defined.

Lemma compose_medal_hole_diameter_witness :
  MedalComposition.ribbon_hole trail_composition = true
  /\ Forall motif_well_formed (MedalComposition.motifs trail_composition)
  /\ exists medal medal',
       @compose_medal RectKernel.kernel trail_composition DEFAULT_CONSTRAINTS
       = inr medal
       /\ @compose_medal RectKernel.kernel
            (with_hole_diameter trail_composition 10) DEFAULT_CONSTRAINTS
          = inr medal'
       /\ ComposedMedal.ribbon_hole_radius medal = 4 / 2
       /\ ComposedMedal.ribbon_hole_radius medal' = 10 / 2
       /\ ComposedMedal.validation_result medal'
          = ComposedMedal.validation_result medal.
Proof.
  split; [reflexivity |]. split; [exact trail_motifs_well_formed |].
  destruct (@compose_medal_hole_diameter RectKernel.kernel trail_composition
              DEFAULT_CONSTRAINTS 10 eq_refl trail_motifs_well_formed)
    as (medal & medal' & H & H' & R & R' & _ & _ & _ & V & _).
  exists medal, medal'. repeat split; assumption.
Defined.


(** ** Bounding boxes *)

Lemma bounds_fold (rest : list point) (a b c d : R) :
  fold_left
    (fun (bb : BBox) (q : point) =>
       let '(minx, miny, maxx, maxy) := bb in
       (Rmin minx (fst q), Rmin miny (snd q),
        Rmax maxx (fst q), Rmax maxy (snd q)))
    rest (a, b, c, d)
  = (fold_left (fun m q => Rmin m (fst q)) rest a,
     fold_left (fun m q => Rmin m (snd q)) rest b,
     fold_left (fun m q => Rmax m (fst q)) rest c,
     fold_left (fun m q => Rmax m (snd q)) rest d).
Proof.
  revert a b c d; induction rest as [| q rest IH]; intros; simpl;
    [reflexivity | apply IH].
Qed.

Lemma fold_min_le (f : point -> R) (rest : list point) (a : R) :
  fold_left (fun m q => Rmin m (f q)) rest a <= a
  /\ Forall (fun q => fold_left (fun m q => Rmin m (f q)) rest a <= f q) rest.
Proof.
  revert a; induction rest as [| q rest IH]; intros a; simpl.
  - split; [lra | constructor].
  - destruct (IH (Rmin a (f q))) as [Hle Hall].
    pose proof (Rmin_l a (f q)). pose proof (Rmin_r a (f q)).
    split; [lra |]. constructor; [lra | exact Hall].
Qed.

Lemma fold_min_ge (f : point -> R) (rest : list point) (a v : R) :
  v <= a -> Forall (fun q => v <= f q) rest ->
  v <= fold_left (fun m q => Rmin m (f q)) rest a.
Proof.
  revert a; induction rest as [| q rest IH]; intros a Ha Hall; simpl.
  - exact Ha.
  - inversion Hall; subst. apply IH; [| assumption].
    apply Rmin_glb; assumption.
Qed.

Lemma fold_max_ge (f : point -> R) (rest : list point) (a : R) :
  a <= fold_left (fun m q => Rmax m (f q)) rest a
  /\ Forall (fun q => f q <= fold_left (fun m q => Rmax m (f q)) rest a) rest.
Proof.
  revert a; induction rest as [| q rest IH]; intros a; simpl.
  - split; [lra | constructor].
  - destruct (IH (Rmax a (f q))) as [Hle Hall].
    pose proof (Rmax_l a (f q)). pose proof (Rmax_r a (f q)).
    split; [lra |]. constructor; [lra | exact Hall].
Qed.

Lemma fold_max_le (f : point -> R) (rest : list point) (a v : R) :
  a <= v -> Forall (fun q => f q <= v) rest ->
  fold_left (fun m q => Rmax m (f q)) rest a <= v.
Proof.
  revert a; induction rest as [| q rest IH]; intros a Ha Hall; simpl.
  - exact Ha.
  - inversion Hall; subst. apply IH; [| assumption].
    apply Rmax_lub; assumption.
Qed.

(** The bounding box of a ring lies inside every rectangle that holds its
    vertices, and holds them all. *)
Lemma bounds_within (p : Polygon) (x0 y0 x1 y1 : R) :
  p <> [] ->
  Forall (in_box x0 y0 x1 y1) p ->
  x0 <= Geo.minx (Geo.bounds p) /\ Geo.maxx (Geo.bounds p) <= x1
  /\ y0 <= Geo.miny (Geo.bounds p) /\ Geo.maxy (Geo.bounds p) <= y1.
Proof.
  destruct p as [| [x y] rest]; [easy |]. intros _ Hall.
  inversion Hall as [| q l [[Hx0 Hx1] [Hy0 Hy1]] Hrest]; subst.
  simpl in *. rewrite bounds_fold.
  unfold Geo.minx, Geo.maxx, Geo.miny, Geo.maxy; simpl.
  repeat split.
  - apply fold_min_ge; [exact Hx0 |].
    eapply Forall_impl; [| exact Hrest]. intros q H; apply H.
  - apply fold_max_le; [exact Hx1 |].
    eapply Forall_impl; [| exact Hrest]. intros q H; apply H.
  - apply fold_min_ge; [exact Hy0 |].
    eapply Forall_impl; [| exact Hrest]. intros q H; apply H.
  - apply fold_max_le; [exact Hy1 |].
    eapply Forall_impl; [| exact Hrest]. intros q H; apply H.
Qed.

Lemma bounds_holds (p : Polygon) :
  Forall (in_box (Geo.minx (Geo.bounds p)) (Geo.miny (Geo.bounds p))
                 (Geo.maxx (Geo.bounds p)) (Geo.maxy (Geo.bounds p))) p.
Proof.
  destruct p as [| [x y] rest]; [constructor |].
  simpl. rewrite bounds_fold.
  unfold Geo.minx, Geo.maxx, Geo.miny, Geo.maxy, in_box; simpl.
  destruct (fold_min_le fst rest x) as [A1 A2].
  destruct (fold_min_le snd rest y) as [B1 B2].
  destruct (fold_max_ge fst rest x) as [C1 C2].
  destruct (fold_max_ge snd rest y) as [D1 D2].
  constructor; [repeat split; assumption |].
  rewrite Forall_forall in *. intros q Hq.
  specialize (A2 q Hq). specialize (B2 q Hq).
  specialize (C2 q Hq). specialize (D2 q Hq).
  repeat split; assumption.
Qed.

(** The bounding box is the rectangle that holds the vertices and has a
    vertex on each side. *)
Lemma bounds_eq (p : Polygon) (x0 y0 x1 y1 : R) :
  Forall (in_box x0 y0 x1 y1) p ->
  Exists (fun q => fst q = x0) p ->
  Exists (fun q => snd q = y0) p ->
  Exists (fun q => fst q = x1) p ->
  Exists (fun q => snd q = y1) p ->
  Geo.bounds p = (x0, y0, x1, y1).
Proof.
  intros Hall Ex0 Ey0 Ex1 Ey1.
  assert (Hne : p <> []) by (intros ->; inversion Ex0).
  destruct (bounds_within Hne Hall) as (A & B & C & D).
  pose proof (bounds_holds p) as Hin.
  rewrite Forall_forall in Hin. rewrite Exists_exists in *.
  destruct Ex0 as (q0 & I0 & E0). destruct Ey0 as (q1 & I1 & E1).
  destruct Ex1 as (q2 & I2 & E2). destruct Ey1 as (q3 & I3 & E3).
  pose proof (Hin q0 I0) as [[? ?] [? ?]]. pose proof (Hin q1 I1) as [[? ?] [? ?]].
  pose proof (Hin q2 I2) as [[? ?] [? ?]]. pose proof (Hin q3 I3) as [[? ?] [? ?]].
  destruct (Geo.bounds p) as [[[a b] c] d].
  unfold Geo.minx, Geo.maxx, Geo.miny, Geo.maxy in *; simpl in *.
  repeat f_equal; lra.
Qed.

(** ** More on bounding boxes *)

Lemma fold_min_attained (f : point -> R) (rest : list point) (a : R) :
  fold_left (fun m q => Rmin m (f q)) rest a = a
  \/ Exists (fun q => f q = fold_left (fun m q => Rmin m (f q)) rest a) rest.
Proof.
  revert a; induction rest as [| q rest IH]; intros a; simpl.
  - left; reflexivity.
  - destruct (IH (Rmin a (f q))) as [E | E].
    + rewrite E. unfold Rmin. destruct (Rle_dec a (f q)).
      * left; reflexivity.
      * right. apply Exists_cons_hd. reflexivity.
    + right. apply Exists_cons_tl. exact E.
Qed.

Lemma fold_max_attained (f : point -> R) (rest : list point) (a : R) :
  fold_left (fun m q => Rmax m (f q)) rest a = a
  \/ Exists (fun q => f q = fold_left (fun m q => Rmax m (f q)) rest a) rest.
Proof.
  revert a; induction rest as [| q rest IH]; intros a; simpl.
  - left; reflexivity.
  - destruct (IH (Rmax a (f q))) as [E | E].
    + rewrite E. unfold Rmax. destruct (Rle_dec a (f q)).
      * right. apply Exists_cons_hd. reflexivity.
      * left; reflexivity.
    + right. apply Exists_cons_tl. exact E.
Qed.

(** Each side of the bounding box of a ring goes through a vertex. *)
Lemma bounds_attained (p : Polygon) :
  p <> [] ->
  Exists (fun q => fst q = Geo.minx (Geo.bounds p)) p
  /\ Exists (fun q => snd q = Geo.miny (Geo.bounds p)) p
  /\ Exists (fun q => fst q = Geo.maxx (Geo.bounds p)) p
  /\ Exists (fun q => snd q = Geo.maxy (Geo.bounds p)) p.
Proof.
  destruct p as [| [x y] rest]; [easy |]. intros _.
  simpl. rewrite bounds_fold.
  unfold Geo.minx, Geo.maxx, Geo.miny, Geo.maxy; simpl.
  repeat split.
  - destruct (fold_min_attained fst rest x) as [E | E].
    + apply Exists_cons_hd. symmetry. exact E.
    + apply Exists_cons_tl. exact E.
  - destruct (fold_min_attained snd rest y) as [E | E].
    + apply Exists_cons_hd. symmetry. exact E.
    + apply Exists_cons_tl. exact E.
  - destruct (fold_max_attained fst rest x) as [E | E].
    + apply Exists_cons_hd. symmetry. exact E.
    + apply Exists_cons_tl. exact E.
  - destruct (fold_max_attained snd rest y) as [E | E].
    + apply Exists_cons_hd. symmetry. exact E.
    + apply Exists_cons_tl. exact E.
Qed.

(** A ring whose vertices keep strictly inside a square of side [d], its top
    side apart, has a bounding box smaller than [d] both ways. *)
Lemma larger_dimension_lt (p : Polygon) (x0 y0 d : R) :
  p <> [] ->
  Forall (fun q => x0 < fst q < x0 + d /\ y0 < snd q <= y0 + d) p ->
  larger_dimension p < d.
Proof.
  intros Hne Hall.
  destruct (bounds_attained Hne) as (A & B & C & D).
  rewrite Forall_forall in Hall. rewrite Exists_exists in A, B, C, D.
  destruct A as (qa & Ia & Ea). destruct B as (qb & Ib & Eb).
  destruct C as (qc & Ic & Ec). destruct D as (qd & Id & Ed).
  pose proof (Hall qa Ia). pose proof (Hall qb Ib).
  pose proof (Hall qc Ic). pose proof (Hall qd Id).
  unfold larger_dimension. apply Rmax_lub_lt; lra.
Qed.

(** A ring that spans the width of a box at least as wide as high. *)
Lemma larger_dimension_width (p : Polygon) (x0 y0 x1 y1 : R) :
  Forall (in_box x0 y0 x1 y1) p ->
  Exists (fun q => fst q = x0) p ->
  Exists (fun q => fst q = x1) p ->
  y1 - y0 <= x1 - x0 ->
  larger_dimension p = x1 - x0.
Proof.
  intros Hall E0 E1 Hle.
  assert (Hne : p <> []) by (intros ->; inversion E0).
  destruct (bounds_within Hne Hall) as (A & B & C & D).
  pose proof (bounds_holds p) as Hin.
  rewrite Forall_forall in Hin. rewrite Exists_exists in E0, E1.
  destruct E0 as (q0 & I0 & E0). destruct E1 as (q1 & I1 & E1).
  pose proof (Hin q0 I0) as [[? ?] [? ?]].
  pose proof (Hin q1 I1) as [[? ?] [? ?]].
  unfold larger_dimension. rewrite Rmax_left; lra.
Qed.

(** A ring that spans the height of a box at least as high as wide. *)
Lemma larger_dimension_height (p : Polygon) (x0 y0 x1 y1 : R) :
  Forall (in_box x0 y0 x1 y1) p ->
  Exists (fun q => snd q = y0) p ->
  Exists (fun q => snd q = y1) p ->
  x1 - x0 <= y1 - y0 ->
  larger_dimension p = y1 - y0.
Proof.
  intros Hall E0 E1 Hle.
  assert (Hne : p <> []) by (intros ->; inversion E0).
  destruct (bounds_within Hne Hall) as (A & B & C & D).
  pose proof (bounds_holds p) as Hin.
  rewrite Forall_forall in Hin. rewrite Exists_exists in E0, E1.
  destruct E0 as (q0 & I0 & E0). destruct E1 as (q1 & I1 & E1).
  pose proof (Hin q0 I0) as [[? ?] [? ?]].
  pose proof (Hin q1 I1) as [[? ?] [? ?]].
  unfold larger_dimension. rewrite Rmax_right; lra.
Qed.

(** ** Areas *)








(** Turning a ring around the origin keeps the term of every edge. *)
Lemma cross_rotate (a : R) (p q : point) :
  cross (cos a * fst p - sin a * snd p, sin a * fst p + cos a * snd p)
        (cos a * fst q - sin a * snd q, sin a * fst q + cos a * snd q)
  = cross p q.
Proof.
  unfold cross; simpl. pose proof (sin2_cos2 a) as H. unfold Rsqr in H.
  replace (fst p * snd q - fst q * snd p)
    with ((sin a * sin a + cos a * cos a) * (fst p * snd q - fst q * snd p))
    by (rewrite H; ring).
  ring.
Qed.

Lemma shoelace_from_rotate (a : R) (first : point) (l : Polygon) :
  let turn := fun q : point =>
    (cos a * fst q - sin a * snd q, sin a * fst q + cos a * snd q) in
  Geo.shoelace_from (turn first) (map turn l) = Geo.shoelace_from first l.
Proof.
  intros turn. induction l as [| b l IH]; [reflexivity |].
  cbn [map Geo.shoelace_from]. rewrite IH. f_equal.
  destruct l as [| c l']; cbn [map]; apply cross_rotate.
Qed.

Lemma shoelace_rotate (p : Polygon) (angle : R) :
  Geo.shoelace (Geo.rotate p angle) = Geo.shoelace p.
Proof.
  unfold Geo.shoelace, Geo.rotate.
  destruct p as [| first rest]; [reflexivity |].
  apply (shoelace_from_rotate (angle * PI / 180) first (first :: rest)).
Qed.

(** Go through the vertices of an explicit ring. *)
Ltac forall_points tac :=
  repeat (apply Forall_cons; [tac |]); try apply Forall_nil.

(** ** The shield *)

Section ShieldFacts.

Context {GEOS : Shapely}.

Lemma create_shield_vertices (w h : R) :
  List.length (create_shield w h) = 35%nat.
Proof. reflexivity. Qed.

Lemma create_shield_bounds (w h : R) :
  0 < w -> 0 < h ->
  Geo.bounds (create_shield w h) = (- w / 2, - h / 2, w / 2, h / 2).
Proof.
  intros Hw Hh. apply bounds_eq.
  - unfold create_shield, Py.range, down_range; simpl.
    forall_points ltac:(unfold in_box; simpl; lra).
  - apply Exists_cons_hd. reflexivity.
  - apply Exists_exists. exists (0, - h / 2). split; [| reflexivity].
    unfold create_shield, Py.range, down_range; simpl.
    repeat (first [left; reflexivity | right]).
  - apply Exists_cons_tl, Exists_cons_hd. reflexivity.
  - apply Exists_cons_hd. reflexivity.
Qed.



End ShieldFacts.

(** ** Rings drawn around the origin *)

Lemma circle_in_box (r rho theta : R) :
  - r <= rho <= r ->
  in_box (- r) (- r) r r (rho * cos theta, rho * sin theta).
Proof.
  intros [Hr1 Hr2]. unfold in_box; simpl.
  pose proof (COS_bound theta) as [C1 C2].
  pose proof (SIN_bound theta) as [S1 S2].
  repeat split; nra.
Qed.


Section RegularPolygons.

Context {GEOS : Shapely}.

Lemma create_regular_polygon_unrotated (n_sides : nat) (diameter : R) :
  create_regular_polygon n_sides diameter 0
  = map (fun a => (diameter / 2 * cos a, diameter / 2 * sin a))
        (map (fun i => 2 * PI * INR i / INR n_sides) (seq 0 n_sides)).
Proof.
  unfold create_regular_polygon. py_cmp. reflexivity.
Qed.


Lemma create_hexagon_larger_dimension (w : R) :
  0 < w -> larger_dimension (create_hexagon w true) = w.
Proof.
  intros Hw. unfold create_hexagon. rewrite create_regular_polygon_unrotated.
  transitivity (w / 2 - - (w / 2)); [| lra].
  apply larger_dimension_width with (y0 := - (w / 2)) (y1 := w / 2).
  - simpl. forall_points ltac:(apply circle_in_box; lra).
  - simpl. do 3 apply Exists_cons_tl. apply Exists_cons_hd. simpl.
    replace (2 * PI * (1 + 1 + 1) / (1 + 1 + 1 + 1 + 1 + 1)) with PI by field.
    rewrite cos_PI. lra.
  - simpl. apply Exists_cons_hd. simpl.
    replace (2 * PI * 0 / (1 + 1 + 1 + 1 + 1 + 1)) with 0 by field.
    rewrite cos_0. lra.
  - lra.
Qed.


End RegularPolygons.

(** ** Vertices off the axes *)

Lemma sin_nonzero (phi : R) :
  - PI < phi < 0 \/ 0 < phi < PI \/ PI < phi < 2 * PI
  \/ 2 * PI < phi < 3 * PI ->
  sin phi <> 0.
Proof.
  intros [[H1 H2] | [[H1 H2] | [[H1 H2] | [H1 H2]]]].
  - assert (0 < sin (- phi)) by (apply sin_gt_0; lra).
    rewrite sin_neg in H. lra.
  - assert (0 < sin phi) by (apply sin_gt_0; lra). lra.
  - assert (sin phi < 0) by (apply sin_lt_0; lra). lra.
  - assert (0 < sin (phi - 2 * PI)) by (apply sin_gt_0; lra).
    replace phi with (phi - 2 * PI + 2 * INR 1 * PI) by (simpl; ring).
    rewrite sin_period. lra.
Qed.

Lemma cos_nonzero (phi : R) :
  - (PI / 2) < phi < PI / 2 \/ PI / 2 < phi < 3 * (PI / 2)
  \/ 3 * (PI / 2) < phi < 5 * (PI / 2) ->
  cos phi <> 0.
Proof.
  intros [[H1 H2] | [[H1 H2] | [H1 H2]]].
  - assert (0 < cos phi) by (apply cos_gt_0; lra). lra.
  - assert (cos phi < 0) by (apply cos_lt_0; lra). lra.
  - assert (0 < cos (phi - 2 * PI)) by (apply cos_gt_0; lra).
    replace phi with (phi - 2 * PI + 2 * INR 1 * PI) by (simpl; ring).
    rewrite cos_period. lra.
Qed.

(** A vertex at distance [r] from the origin and off both axes is strictly
    inside the square of side [2 r] around the origin. *)
Lemma off_axes_inside (r phi : R) :
  0 < r -> sin phi <> 0 -> cos phi <> 0 ->
  (- r < r * cos phi < r) /\ (- r < r * sin phi < r).
Proof.
  intros Hr Hs Hc. pose proof (sin2_cos2 phi) as H. unfold Rsqr in H.
  assert (0 < sin phi * sin phi) by nra.
  assert (0 < cos phi * cos phi) by nra.
  assert (-1 < cos phi < 1) by nra.
  assert (-1 < sin phi < 1) by nra.
  split; split; nra.
Qed.

(** The vertex at angle [theta], turned by [a]. *)
Lemma rotate_vertex (a r theta : R) :
  (cos a * (r * cos theta) - sin a * (r * sin theta),
   sin a * (r * cos theta) + cos a * (r * sin theta))
  = (r * cos (a + theta), r * sin (a + theta)).
Proof.
  rewrite cos_plus, sin_plus. f_equal; ring.
Qed.

(** Place an angle in one of the open arcs between the axes. *)
Ltac between_axes :=
  simpl INR;
  first [ left; lra
        | right; left; lra
        | right; right; left; lra
        | right; right; right; lra
        | right; right; lra ].

Section Octagon.

Context {GEOS : Shapely}.

Lemma create_octagon_rotated (w : R) :
  create_octagon w
  = Geo.rotate
      (map (fun a => (w / 2 * cos a, w / 2 * sin a))
           (map (fun i => 2 * PI * INR i / INR 8) (seq 0 8)))
      (225 / 10).
Proof.
  unfold create_octagon, create_regular_polygon. py_cmp. reflexivity.
Qed.



(** The octagon is turned by 22.5 degrees: no vertex is left on an axis and
    the bounding box is smaller than the diameter. *)
Lemma create_octagon_larger_dimension (w : R) :
  0 < w -> larger_dimension (create_octagon w) < w.
Proof.
  intros Hw. rewrite create_octagon_rotated.
  pose proof PI_RGT_0.
  apply larger_dimension_lt with (x0 := - (w / 2)) (y0 := - (w / 2));
    [simpl; discriminate |].
  unfold Geo.rotate. simpl map.
  forall_points ltac:(
    rewrite rotate_vertex; cbn [fst snd];
    match goal with
    | |- context [cos ?phi] =>
        destruct (@off_axes_inside (w / 2) phi) as [[? ?] [? ?]];
        [ lra
        | apply sin_nonzero; between_axes
        | apply cos_nonzero; between_axes
        | lra ]
    end).
Qed.

End Octagon.

(** ** The star and the gear *)

(** A vertex nearer to the origin than [r]. *)
Lemma inner_vertex_inside (r rho phi : R) :
  - r < rho < r ->
  (- r < rho * cos phi < r) /\ (- r < rho * sin phi < r).
Proof.
  intros [H1 H2].
  pose proof (COS_bound phi) as [C1 C2].
  pose proof (SIN_bound phi) as [S1 S2].
  destruct (Rle_dec 0 rho); destruct (Rle_dec 0 (cos phi));
    destruct (Rle_dec 0 (sin phi)); split; split; nra.
Qed.

(** Settle that a vertex given by radius and angle is strictly inside the
    square of side [w] around the origin: it is nearer than [w / 2], or at
    [w / 2] and off the axes. *)
Ltac vertex_inside w :=
  cbn [fst snd];
  match goal with
  | |- context [?rho * cos ?phi] =>
      first
        [ destruct (@inner_vertex_inside (w / 2) rho phi) as [[? ?] [? ?]];
          [ lra | lra ]
        | destruct (@off_axes_inside (w / 2) phi) as [[? ?] [? ?]];
          [ lra
          | apply sin_nonzero; between_axes
          | apply cos_nonzero; between_axes
          | lra ] ]
  end.

Section StarAndGear.

Context {GEOS : Shapely}.

Lemma create_star_vertices (w : R) :
  List.length (create_star 5 w (4 / 10)) = 10%nat.
Proof. reflexivity. Qed.


(** The apex of the star is on the vertical axis, at [w / 2] above the
    origin; the other tips are off the axes and the bounding box is smaller
    than the outer diameter. *)
Lemma create_star_larger_dimension (w : R) :
  0 < w -> larger_dimension (create_star 5 w (4 / 10)) < w.
Proof.
  intros Hw. pose proof PI_RGT_0.
  apply larger_dimension_lt with (x0 := - (w / 2)) (y0 := - (w / 2));
    [simpl; discriminate |].
  unfold create_star. simpl.
  apply Forall_cons.
  - cbn [fst snd].
    replace (PI / 2 + PI * 0 / (1 + 1 + 1 + 1 + 1)) with (PI / 2) by field.
    rewrite cos_PI2, sin_PI2. lra.
  - forall_points ltac:(vertex_inside w).
Qed.

Lemma create_gear_vertices (w : R) :
  List.length (create_gear w) = 60%nat.
Proof. reflexivity. Qed.


(** The teeth of the gear straddle the axes: no tooth corner is on an axis
    and the bounding box is smaller than the outer diameter. *)
Lemma create_gear_larger_dimension (w : R) :
  10 < w -> larger_dimension (create_gear w) < w.
Proof.
  intros Hw. pose proof PI_RGT_0.
  apply larger_dimension_lt with (x0 := - (w / 2)) (y0 := - (w / 2));
    [simpl; discriminate |].
  unfold create_gear. simpl.
  forall_points ltac:(vertex_inside w).
Qed.

End StarAndGear.

(** ** The leaf and the drop *)

Lemma pow15_bounds (t : R) : 0 < t < 1 -> 0 < pow15 t < 1.
Proof.
  intros [H0 H1]. unfold pow15, Rpower. split; [apply exp_pos |].
  rewrite <- exp_0. apply exp_increasing.
  assert (ln t < 0) by (rewrite <- ln_1; apply ln_increasing; lra).
  nra.
Qed.

(** Settle that a vertex of the leaf or of the drop is in the box of the
    requested width and height. *)
Ltac vertex_in_box :=
  unfold in_box; cbn [fst snd];
  repeat match goal with
    | |- context [sin ?a] =>
        lazymatch goal with
        | _ : -1 <= sin a |- _ => fail
        | _ => pose proof (SIN_bound a) as [? ?]
        end
    | |- context [cos ?a] =>
        lazymatch goal with
        | _ : -1 <= cos a |- _ => fail
        | _ => pose proof (COS_bound a) as [? ?]
        end
    | |- context [pow15 ?t] =>
        lazymatch goal with
        | _ : 0 < pow15 t |- _ => fail
        | _ => destruct (@pow15_bounds t) as [? ?]; [lra |]
        end
    end;
  repeat split; nra.

Section LeafAndDrop.

Context {GEOS : Shapely}.

Lemma create_leaf_vertices (w h : R) :
  List.length (create_leaf w h) = 48%nat.
Proof. reflexivity. Qed.

Lemma create_leaf_in_box (w h : R) :
  0 < w -> 0 < h ->
  Forall (in_box (- w / 2) (- h / 2) (w / 2) (h / 2)) (create_leaf w h).
Proof.
  intros Hw Hh. unfold create_leaf, Py.range, down_range. simpl.
  forall_points vertex_in_box.
Qed.

(** The leaf spans the requested height; it is narrower than the requested
    width, so its larger dimension is its height when [w <= h]. *)
Lemma create_leaf_larger_dimension (w h : R) :
  0 < w -> w <= h -> larger_dimension (create_leaf w h) = h.
Proof.
  intros Hw Hh.
  transitivity (h / 2 - - h / 2); [| lra].
  apply larger_dimension_height with (x0 := - w / 2) (x1 := w / 2).
  - apply create_leaf_in_box; lra.
  - apply Exists_cons_hd. reflexivity.
  - apply Exists_exists. exists (0, h / 2). split; [| reflexivity].
    unfold create_leaf, Py.range, down_range; simpl.
    repeat (first [left; reflexivity | right]).
  - lra.
Qed.

Lemma create_drop_vertices (w h : R) :
  List.length (create_drop w h) = 32%nat.
Proof. reflexivity. Qed.

Lemma create_drop_in_box (w h : R) :
  0 < w -> w <= h ->
  Forall (in_box (- w / 2) (- h / 2) (w / 2) (h / 2)) (create_drop w h).
Proof.
  intros Hw Hh. unfold create_drop, Py.range, down_range. simpl.
  forall_points vertex_in_box.
Qed.

(** The drop is as wide as requested and, when [w <= h], as high. *)
Lemma create_drop_bounds (w h : R) :
  0 < w -> w <= h ->
  Geo.bounds (create_drop w h) = (- w / 2, - h / 2, w / 2, h / 2).
Proof.
  intros Hw Hh. apply bounds_eq.
  - apply create_drop_in_box; assumption.
  - apply Exists_cons_hd. simpl.
    replace (PI + PI * 0 / (1 + 1 + 1 + 1 + 1 + 1 + 1 + 1 + 1 + 1 + 1 + 1
                            + 1 + 1 + 1 + 1)) with PI by field.
    rewrite cos_PI. lra.
  - unfold create_drop; simpl. do 8 apply Exists_cons_tl.
    apply Exists_cons_hd. simpl.
    replace (PI + PI * (1 + 1 + 1 + 1 + 1 + 1 + 1 + 1)
                  / (1 + 1 + 1 + 1 + 1 + 1 + 1 + 1 + 1 + 1 + 1 + 1
                     + 1 + 1 + 1 + 1)) with (3 * (PI / 2)) by field.
    rewrite sin_3PI2. lra.
  - unfold create_drop; simpl. do 16 apply Exists_cons_tl.
    apply Exists_cons_hd. simpl.
    replace (PI + PI * (1 + 1 + 1 + 1 + 1 + 1 + 1 + 1 + 1 + 1 + 1 + 1
                        + 1 + 1 + 1 + 1)
                  / (1 + 1 + 1 + 1 + 1 + 1 + 1 + 1 + 1 + 1 + 1 + 1
                     + 1 + 1 + 1 + 1)) with (2 * PI) by field.
    rewrite cos_2PI. lra.
  - apply Exists_exists. exists (0, h / 2). split; [| reflexivity].
    unfold create_drop, Py.range, down_range; simpl.
    repeat (first [left; reflexivity | right]).
Qed.

Lemma create_drop_larger_dimension (w h : R) :
  0 < w -> w <= h -> larger_dimension (create_drop w h) = h.
Proof.
  intros Hw Hh. unfold larger_dimension.
  rewrite create_drop_bounds by assumption.
  unfold Geo.maxx, Geo.minx, Geo.maxy, Geo.miny; simpl.
  rewrite Rmax_right; lra.
Qed.

End LeafAndDrop.

(** ** Areas by trapezoids *)









Section LeafArea.

Context {GEOS : Shapely}.


End LeafArea.

(** ** The area of the drop *)




Section DropArea.

Context {GEOS : Shapely}.


End DropArea.

(** ** The rings of [get_shape] *)

Section GetShape.

Context {GEOS : Shapely}.

Lemma get_shape_unrotated (shape_type : MedalShape) (params : ShapeParams.t) :
  ShapeParams.rotation params = 0 ->
  get_shape shape_type params
  = match shape_type with
    | CIRCLE => create_circle (ShapeParams.width params)
    | HEXAGON => create_hexagon (ShapeParams.width params) true
    | OCTAGON => create_octagon (ShapeParams.width params)
    | STAR => create_star 5 (ShapeParams.width params) (4 / 10)
    | SHIELD =>
        create_shield (ShapeParams.width params) (ShapeParams.height params)
    | DROP =>
        create_drop (ShapeParams.width params) (ShapeParams.height params)
    | RECTANGLE =>
        create_rounded_rectangle
          (ShapeParams.width params) (ShapeParams.height params)
          (Py.or_else (ShapeParams.corner_radius params) 5)
    | ROUNDED_RECTANGLE =>
        create_rounded_rectangle
          (ShapeParams.width params) (ShapeParams.height params)
          (Py.or_else (ShapeParams.corner_radius params) 8)
    | GEAR => create_gear (ShapeParams.width params)
    | LEAF =>
        create_leaf (ShapeParams.width params) (ShapeParams.height params)
    end.
Proof.
  intros Hrot. unfold get_shape. rewrite Hrot.
  assert (E : Py.eqb 0 0 = true) by (apply eqb_true; reflexivity).
  rewrite E. reflexivity.
Qed.

Lemma create_shield_larger_dimension (w h : R) :
  0 < w -> 0 < h -> larger_dimension (create_shield w h) = Rmax w h.
Proof.
  intros Hw Hh. unfold larger_dimension.
  rewrite create_shield_bounds by assumption.
  unfold Geo.maxx, Geo.minx, Geo.maxy, Geo.miny; simpl.
  f_equal; lra.
Qed.

End GetShape.

(** ** The shapes on concrete parameters *)


(** * Further properties *)

(** ** What the checks accept *)

Lemma is_nil_app {A} (xs ys : list A) :
  is_nil (xs ++ ys) = is_nil xs && is_nil ys.
Proof. destruct xs; reflexivity. Qed.

Lemma is_nil_when (cond : bool) (m : Message) :
  is_nil (when cond m) = negb cond.
Proof. destruct cond; reflexivity. Qed.

Lemma gtb_false (a b : R) : Py.gtb a b = false <-> a <= b.
Proof. unfold Py.gtb. apply ltb_false. Qed.

Lemma gtb_true (a b : R) : Py.gtb a b = true <-> b < a.
Proof. unfold Py.gtb. apply ltb_true. Qed.

Lemma in_when (cond : bool) (m m' : Message) :
  In m' (when cond m) <-> cond = true /\ m' = m.
Proof.
  destruct cond; simpl; split.
  - intros [H | []]. split; [reflexivity | symmetry; exact H].
  - intros [_ ->]. left; reflexivity.
  - intros [].
  - intros [H _]. discriminate H.
Qed.

Section Acceptance.

Context {GEOS : Shapely}.

(** X1.  The outline check accepts a polygon exactly when GEOS finds it
    valid, its bounding box fits the work area, its larger dimension is
    within the medal sizes, and the erosion by half the bridge width leaves
    something.  Areas only give warnings. *)
Theorem validate_medal_shape_accepts
    (polygon : Polygon) (c : TrotecConstraints.t) :
  let width :=
    Geo.maxx (Geo.bounds polygon) - Geo.minx (Geo.bounds polygon) in
  let height :=
    Geo.maxy (Geo.bounds polygon) - Geo.miny (Geo.bounds polygon) in
  ValidationResult.is_valid (validate_medal_shape polygon c) = true
  <-> polygon_is_valid polygon = true
      /\ width <= TrotecConstraints.max_width c
      /\ height <= TrotecConstraints.max_height c
      /\ TrotecConstraints.min_medal_diameter c <= Rmax width height
      /\ Rmax width height <= TrotecConstraints.max_medal_diameter c
      /\ Geo.is_empty
           (buffer polygon (- (TrotecConstraints.min_bridge_width c / 2)))
         = false.
Proof.
  intros width height. unfold validate_medal_shape.
  destruct (polygon_is_valid polygon); simpl.
  - fold width. fold height.
    rewrite !is_nil_app, !is_nil_when, !andb_true_iff, !negb_true_iff.
    rewrite !gtb_false, ltb_false. tauto.
  - split; [discriminate | intros [H _]; discriminate H].
Qed.

(** X2.  When the largest medal size is within the work area both ways, as
    in the default profile, an outline that leaves the work area is also
    reported as too large: a work-area error never comes alone. *)
Theorem validate_medal_shape_work_area
    (polygon : Polygon) (c : TrotecConstraints.t) :
  TrotecConstraints.max_medal_diameter c <= TrotecConstraints.max_width c ->
  TrotecConstraints.max_medal_diameter c <= TrotecConstraints.max_height c ->
  let width :=
    Geo.maxx (Geo.bounds polygon) - Geo.minx (Geo.bounds polygon) in
  let height :=
    Geo.maxy (Geo.bounds polygon) - Geo.miny (Geo.bounds polygon) in
  let errs := ValidationResult.errors (validate_medal_shape polygon c) in
  In (WidthTooLarge width (TrotecConstraints.max_width c)) errs
  \/ In (HeightTooLarge height (TrotecConstraints.max_height c)) errs ->
  In (MedalTooLarge (Rmax width height)
        (TrotecConstraints.max_medal_diameter c)) errs.
Proof.
  intros Hw Hh width height errs. subst errs. unfold validate_medal_shape.
  destruct (polygon_is_valid polygon); simpl.
  - fold width. fold height. rewrite !in_app_iff, !in_when.
    pose proof (Rmax_l width height) as Hl.
    pose proof (Rmax_r width height) as Hr.
    intros [H | H].
    + assert (Hgt : Py.gtb width (TrotecConstraints.max_width c) = true).
      { destruct H as [[H _] | [[_ H] | [[_ H] | [[_ H] | [_ H]]]]];
          try discriminate H. exact H. }
      apply gtb_true in Hgt.
      right; right; right; left. split; [| reflexivity].
      apply gtb_true. lra.
    + assert (Hgt : Py.gtb height (TrotecConstraints.max_height c) = true).
      { destruct H as [[_ H] | [[H _] | [[_ H] | [[_ H] | [_ H]]]]];
          try discriminate H. exact H. }
      apply gtb_true in Hgt.
      right; right; right; left. split; [| reflexivity].
      apply gtb_true. lra.
  - intros [[H | []] | [H | []]]; discriminate H.
Qed.

(** X3.  When the minimum medal size is at most the maximum, no outline is
    reported both too small and too large.  Under every profile, the
    too-thin error and the fragility warning never come together. *)
Theorem validate_medal_shape_exclusive
    (polygon : Polygon) (c : TrotecConstraints.t) :
  let r := validate_medal_shape polygon c in
  (TrotecConstraints.min_medal_diameter c
   <= TrotecConstraints.max_medal_diameter c ->
   ~ ((exists d l, In (MedalTooSmall d l) (ValidationResult.errors r))
      /\ (exists d l, In (MedalTooLarge d l) (ValidationResult.errors r))))
  /\ ~ ((exists b, In (ShapeTooThin b) (ValidationResult.errors r))
        /\ In FragileZones (ValidationResult.warnings r)).
Proof.
  intros r. subst r. unfold validate_medal_shape.
  destruct (polygon_is_valid polygon); simpl.
  - set (width := Geo.maxx (Geo.bounds polygon) - Geo.minx (Geo.bounds polygon)).
    set (height := Geo.maxy (Geo.bounds polygon) - Geo.miny (Geo.bounds polygon)).
    split.
    + intros Hmm [(d & l & Hs) (d' & l' & Hl)].
      rewrite !in_app_iff in Hs. rewrite !in_when in Hs.
      rewrite !in_app_iff in Hl. rewrite !in_when in Hl.
      assert (S : Py.ltb (Rmax width height)
                    (TrotecConstraints.min_medal_diameter c) = true).
      { destruct Hs as [[_ H] | [[_ H] | [[H _] | [[_ H] | [_ H]]]]];
          try discriminate H. exact H. }
      assert (L : Py.gtb (Rmax width height)
                    (TrotecConstraints.max_medal_diameter c) = true).
      { destruct Hl as [[_ H] | [[_ H] | [[_ H] | [[H _] | [_ H]]]]];
          try discriminate H. exact H. }
      apply ltb_true in S. apply gtb_true in L. lra.
    + intros [(b & Ht) Hf].
      rewrite !in_app_iff in Ht. rewrite !in_when in Ht.
      rewrite !in_app_iff in Hf. rewrite !in_when in Hf.
      assert (T : Geo.is_empty
                    (buffer polygon
                       (- (TrotecConstraints.min_bridge_width c / 2))) = true).
      { destruct Ht as [[_ H] | [[_ H] | [[_ H] | [[_ H] | [H _]]]]];
          try discriminate H. exact H. }
      destruct Hf as [[H _] | [_ H]]; [| discriminate H].
      rewrite T in H. discriminate H.
  - split.
    + intros _ [(d & l & [H | []]) _]. discriminate H.
    + intros [_ []].
Qed.

End Acceptance.

(** A 700 x 100 mm plate under the default profile. *)
Lemma validate_medal_shape_work_area_witness :
  let K := RectKernel.kernel in
  let polygon := Geo.box 0 0 700 100 in
  let errs :=
    ValidationResult.errors (validate_medal_shape polygon DEFAULT_CONSTRAINTS) in
  In (WidthTooLarge
        (Geo.maxx (Geo.bounds polygon) - Geo.minx (Geo.bounds polygon)) 600)
     errs
  /\ In (MedalTooLarge
           (Rmax (Geo.maxx (Geo.bounds polygon) - Geo.minx (Geo.bounds polygon))
                 (Geo.maxy (Geo.bounds polygon) - Geo.miny (Geo.bounds polygon)))
           120) errs.
Proof.
  intros K polygon errs.
  assert (Hw : In (WidthTooLarge
                     (Geo.maxx (Geo.bounds polygon)
                      - Geo.minx (Geo.bounds polygon)) 600) errs).
  { subst errs. unfold validate_medal_shape.
    change (polygon_is_valid polygon) with true. cbv beta iota delta [negb].
    cbv zeta. apply in_or_app. left. apply in_when. split; [| reflexivity].
    apply gtb_true. geo_eval. simpl. lra. }
  split; [exact Hw |].
  apply (@validate_medal_shape_work_area K polygon DEFAULT_CONSTRAINTS);
    [simpl; lra | simpl; lra | left; exact Hw].
Defined.

(** The default profile, on a 700 x 100 mm plate. *)
Lemma validate_medal_shape_exclusive_witness :
  let K := RectKernel.kernel in
  let r := validate_medal_shape (Geo.box 0 0 700 100) DEFAULT_CONSTRAINTS in
  40 <= 120
  /\ ~ ((exists d l, In (MedalTooSmall d l) (ValidationResult.errors r))
        /\ (exists d l, In (MedalTooLarge d l) (ValidationResult.errors r)))
  /\ ~ ((exists b, In (ShapeTooThin b) (ValidationResult.errors r))
        /\ In FragileZones (ValidationResult.warnings r)).
Proof.
  intros K r. split; [lra |].
  destruct (@validate_medal_shape_exclusive K (Geo.box 0 0 700 100)
              DEFAULT_CONSTRAINTS) as [Sizes Thin].
  split; [apply Sizes; simpl; lra | exact Thin].
Defined.

(** ** Verdicts of the composer *)

Lemma validate_medal_shape_is_valid {GEOS : Shapely}
    (polygon : Polygon) (c : TrotecConstraints.t) :
  ValidationResult.is_valid (validate_medal_shape polygon c)
  = is_nil (ValidationResult.errors (validate_medal_shape polygon c)).
Proof.
  unfold validate_medal_shape.
  destruct (polygon_is_valid polygon); reflexivity.
Qed.

Lemma text_errors_nil (c : TrotecConstraints.t) (texts : list TextElement.t) :
  is_nil (text_errors c texts) = true
  <-> Forall (fun t => TrotecConstraints.min_text_height c
                       <= TextElement.font_size t) texts.
Proof.
  unfold text_errors. induction texts as [| t texts IH]; simpl.
  - split; [constructor | reflexivity].
  - rewrite is_nil_app, andb_true_iff, IH, is_nil_when, negb_true_iff, ltb_false.
    split.
    + intros [H1 H2]. constructor; assumption.
    + intros H. inversion H; subst. split; assumption.
Qed.

Section ComposerVerdicts.

Context {GEOS : Shapely}.

(** X4.  A returned medal is valid exactly when the outline check accepts
    the outline, the hole check accepts the hole if one is requested, and
    no text is smaller than the minimum text height. *)
Theorem compose_medal_accepts
    (composition : MedalComposition.t) (constraints : TrotecConstraints.t)
    (medal : ComposedMedal.t) :
  compose_medal composition constraints = inr medal ->
  let outline :=
    get_shape (MedalComposition.shape_type composition)
              (MedalComposition.shape_params composition) in
  ComposedMedal.is_valid medal = true
  <-> ValidationResult.is_valid (validate_medal_shape outline constraints)
      = true
      /\ (MedalComposition.ribbon_hole composition = true ->
          ValidationResult.is_valid
            (validate_ribbon_hole outline
               (resolved_center composition outline) constraints) = true)
      /\ Forall (fun t => TrotecConstraints.min_text_height constraints
                          <= TextElement.font_size t)
           (MedalComposition.texts composition).
Proof.
  intros H outline.
  destruct (compose_medal_inr _ _ H) as (lines & _ & ->). simpl.
  fold outline. rewrite resolve_ribbon_hole_errors.
  rewrite !is_nil_app, !andb_true_iff, text_errors_nil.
  rewrite validate_medal_shape_is_valid.
  unfold hole_errors.
  clear H. destruct (MedalComposition.ribbon_hole composition); simpl;
    rewrite ?is_nil_app, ?andb_true_iff; intuition congruence.
Qed.

(** X5.  Without a ribbon hole the medal carries no hole center, the hole
    check is not run: errors and warnings are those of the outline check
    followed by those of the text checks; the radius is still half the
    declared diameter. *)
Theorem compose_medal_without_hole
    (composition : MedalComposition.t) (constraints : TrotecConstraints.t)
    (medal : ComposedMedal.t) :
  MedalComposition.ribbon_hole composition = false ->
  compose_medal composition constraints = inr medal ->
  let outline :=
    get_shape (MedalComposition.shape_type composition)
              (MedalComposition.shape_params composition) in
  ComposedMedal.ribbon_hole_center medal = None
  /\ ComposedMedal.ribbon_hole_radius medal
     = MedalComposition.ribbon_hole_diameter composition / 2
  /\ ValidationResult.errors (ComposedMedal.validation_result medal)
     = ValidationResult.errors (validate_medal_shape outline constraints)
       ++ text_errors constraints (MedalComposition.texts composition)
  /\ ValidationResult.warnings (ComposedMedal.validation_result medal)
     = ValidationResult.warnings (validate_medal_shape outline constraints)
       ++ text_warnings constraints (MedalComposition.texts composition).
Proof.
  intros Hhole H outline.
  destruct (compose_medal_inr _ _ H) as (lines & _ & ->). simpl.
  fold outline. unfold resolve_ribbon_hole. rewrite Hhole. simpl.
  repeat split.
Qed.

(** X6.  The texts of a returned medal are those of the composition, in
    order, with content and font size unchanged, all centred on the middle
    abscissa of the bounding box.  On the two arc positions the vertical
    offset and the curved flag of the element are ignored: the text sits on
    the centre of the bounding box and is curved, on a radius that is the
    element's unless that is missing or zero, in which case it is half the
    width of the bounding box less 8 mm.  On the three straight positions
    the curve radius of the element is dropped. *)
Theorem compose_medal_texts
    (composition : MedalComposition.t) (constraints : TrotecConstraints.t)
    (medal : ComposedMedal.t) :
  compose_medal composition constraints = inr medal ->
  let b := ComposedMedal.bounds medal in
  let center_x := (Geo.minx b + Geo.maxx b) / 2 in
  let center_y := (Geo.miny b + Geo.maxy b) / 2 in
  let fallback := (Geo.maxx b - Geo.minx b) / 2 - 8 in
  Forall2
    (fun (t : TextElement.t) (d : TextDict.t) =>
       TextDict.content d = TextElement.content t
       /\ TextDict.font_size d = TextElement.font_size t
       /\ TextDict.x d = center_x
       /\ match TextElement.position t with
          | AROUND_TOP | AROUND_BOTTOM =>
              TextDict.y d = center_y
              /\ TextDict.curved d = true
              /\ TextDict.curve_radius d
                 = Some (match TextElement.curve_radius t with
                         | Some r => if Req_dec_T r 0 then fallback else r
                         | None => fallback
                         end)
          | TOP =>
              TextDict.y d = Geo.maxy b - 15 + TextElement.offset_y t
              /\ TextDict.curved d = TextElement.curved t
              /\ TextDict.curve_radius d = None
          | CENTER =>
              TextDict.y d = center_y + TextElement.offset_y t
              /\ TextDict.curved d = TextElement.curved t
              /\ TextDict.curve_radius d = None
          | BOTTOM =>
              TextDict.y d = Geo.miny b + 10 + TextElement.offset_y t
              /\ TextDict.curved d = TextElement.curved t
              /\ TextDict.curve_radius d = None
          end)
    (MedalComposition.texts composition) (ComposedMedal.texts medal).
Proof.
  intros H. destruct (compose_medal_inr _ _ H) as (lines & _ & ->).
  cbn [ComposedMedal.bounds ComposedMedal.texts]. clear H.
  induction (MedalComposition.texts composition) as [| t texts IH];
    simpl; constructor; [| exact IH].
  unfold place_text, radius_or, Py.or_else, Py.eqb.
  destruct (TextElement.position t); simpl;
    try destruct (TextElement.curve_radius t) as [r |];
    try destruct (Req_dec_T r 0); repeat split.
Qed.

End ComposerVerdicts.

Lemma compose_medal_accepts_witness :
  exists medal,
    @compose_medal RectKernel.kernel trail_composition DEFAULT_CONSTRAINTS
    = inr medal
    /\ (ComposedMedal.is_valid medal = true ->
        Forall (fun t => 3 <= TextElement.font_size t)
          (MedalComposition.texts trail_composition)).
Proof.
  destruct (@compose_medal_returns RectKernel.kernel trail_composition
              DEFAULT_CONSTRAINTS trail_motifs_well_formed) as [medal H].
  exists medal. split; [exact H |].
  intros V.
  exact (proj2 (proj2 (proj1
           (@compose_medal_accepts RectKernel.kernel trail_composition
              DEFAULT_CONSTRAINTS medal H) V))).
Defined.

(** ** Motifs: offsets, sizes, edge cases *)

Lemma translate_zero (lines : list Polyline) :
  map (map (Geo.translate 0 0)) lines = lines.
Proof.
  rewrite <- (map_id lines) at 2. apply map_ext. intros line.
  rewrite <- (map_id line) at 2. apply map_ext. intros [x y].
  unfold Geo.translate; simpl. f_equal; lra.
Qed.

Lemma translate_translate (a b c d : R) (lines : list Polyline) :
  map (map (Geo.translate c d)) (map (map (Geo.translate a b)) lines)
  = map (map (Geo.translate (a + c) (b + d))) lines.
Proof.
  rewrite map_map. apply map_ext. intros line.
  rewrite map_map. apply map_ext. intros [x y].
  unfold Geo.translate; simpl. f_equal; lra.
Qed.

Lemma get_motif_without_offset
    (motif_type : MotifType) (params : MotifParams.t) :
  get_motif motif_type params
  = Py.bind (get_motif motif_type (without_offset params))
      (fun lines =>
         Py.ret (map (map (Geo.translate (MotifParams.offset_x params)
                                         (MotifParams.offset_y params)))
                     lines)).
Proof.
  unfold get_motif.
  cbn [without_offset MotifParams.width MotifParams.height
       MotifParams.offset_x MotifParams.offset_y].
  assert (Z : Py.eqb 0 0 = true) by (apply eqb_true; reflexivity).
  rewrite Z. cbn [negb orb].
  destruct (match motif_type with
            | MOUNTAINS => _ | WAVES => _ | LAUREL => _ | RAYS => _
            | CHEVRONS => _ | TREES => _ | RUNNING_TRACK => _
            | FINISH_LINE => _
            end) as [e | lines]; [reflexivity |].
  cbn [Py.bind Py.ret].
  destruct (Py.eqb (MotifParams.offset_x params) 0) eqn:Ex;
    destruct (Py.eqb (MotifParams.offset_y params) 0) eqn:Ey;
    cbn [negb orb]; try reflexivity.
  apply eqb_true in Ex. apply eqb_true in Ey. rewrite Ex, Ey.
  rewrite translate_zero. reflexivity.
Qed.

(** X7.  The offsets of the parameters act as a translation of the motif
    generated without offsets: every point (x, y) of it becomes
    (x + offset_x, y + offset_y).  The composer adds the placement of the
    element to them: every point (x, y) generated without offsets is in
    the positioned motif as (x + (offset_x + px), y + (offset_y + py)). *)
Theorem get_motif_offsets (motif_elem : MotifElement.t) :
  let motif_type := MotifElement.motif_type motif_elem in
  let params := MotifElement.params motif_elem in
  let ox := MotifParams.offset_x params in
  let oy := MotifParams.offset_y params in
  let px := fst (MotifElement.position motif_elem) in
  let py := snd (MotifElement.position motif_elem) in
  get_motif motif_type params
  = Py.bind (get_motif motif_type (without_offset params))
      (fun lines =>
         Py.ret (map (map (fun q : point => (fst q + ox, snd q + oy)))
                     lines))
  /\ position_motif motif_elem
     = Py.bind (get_motif motif_type (without_offset params))
         (fun lines =>
            Py.ret (map (map (fun q : point =>
                                (fst q + (ox + px), snd q + (oy + py))))
                        lines)).
Proof.
  intros motif_type params ox oy px py.
  split; [apply get_motif_without_offset |].
  unfold position_motif. fold motif_type. fold params.
  rewrite get_motif_without_offset. fold ox. fold oy.
  destruct (get_motif motif_type (without_offset params)) as [e | lines];
    [reflexivity |].
  cbn [Py.bind Py.ret]. subst px py.
  destruct (MotifElement.position motif_elem) as [x y]. cbn [fst snd].
  rewrite translate_translate. reflexivity.
Qed.

(** X8.  Mountains, laurel, rays, chevrons, trees and running track always
    return, and the number of their polylines and the number of points of
    each do not depend on the parameters: 1 polyline of 7 points, 14 of 20
    or 10 points, 12 of 2, 3 of 3, 6 of 4 and 3 of 2. *)
Theorem get_motif_polyline_sizes
    (motif_type : MotifType) (params : MotifParams.t) :
  motif_type <> WAVES ->
  motif_type <> FINISH_LINE ->
  exists lines,
    get_motif motif_type params = inr lines
    /\ map (@List.length point) lines = polyline_sizes motif_type.
Proof.
  intros Hw Hf. unfold get_motif.
  destruct motif_type; try (exfalso; apply Hw; reflexivity);
    try (exfalso; apply Hf; reflexivity);
    cbn [Py.bind Py.ret];
    destruct (negb _ || negb _); eexists; (split; [reflexivity |]);
    rewrite ?map_map;
    try (erewrite map_ext; [| intros line; apply length_map]);
    reflexivity.
Qed.

Lemma collect_until_all {A} (stop : nat -> bool) (f : nat -> A)
    (indices : list nat) :
  Forall (fun i => stop i = false) indices ->
  collect_until stop f indices = map f indices.
Proof.
  induction 1 as [| i rest Hi _ IH]; simpl; [reflexivity |].
  rewrite Hi, IH. reflexivity.
Qed.

(** X9.  A waves motif has two rows, with the same abscissas.  For a width
    that is not negative each row has at least thirty points, whose
    abscissas are [-width/2 + (i/10) (width/3)] for i from 0 to 29, all
    short of the right end; the point that may follow them lies on the
    right end itself.  For a negative width the first point of a row is
    already past the right end, and both rows are empty. *)
Theorem create_waves_rows (width height : R) :
  (0 <= width ->
   exists row0 row1,
     create_waves width height = [row0; row1]
     /\ (30 <= List.length row0)%nat /\ (30 <= List.length row1)%nat
     /\ firstn 30 (map fst row0)
        = map (fun i => - width / 2 + INR i / 10 * (width / 3)) (seq 0 30)
     /\ (0 < width ->
         Forall (fun x => x < width / 2) (firstn 30 (map fst row0)))
     /\ (forall x, In x (skipn 30 (map fst row0)) -> x = width / 2)
     /\ map fst row1 = map fst row0)
  /\ (width < 0 -> create_waves width height = [[]; []]).
Proof.
  split.
  - intros Hw. unfold create_waves.
    change (3 * 10 + 1)%nat with 31%nat.
    change (seq 0 2) with [0; 1]%nat. cbn [map].
    assert (All : Forall
                    (fun i =>
                       Py.gtb (- width / 2 + INR i / 10 * (width / INR 3))
                              (width / 2) = false)
                    (seq 0 31)).
    { apply Forall_forall. intros i Hi. apply in_seq in Hi.
      apply gtb_false.
      assert (Hle : INR i <= 30).
      { replace 30 with (INR 30) by (simpl; lra). apply le_INR. lia. }
      assert (H0 : 0 <= INR i) by apply pos_INR.
      simpl. nra. }
    rewrite !(collect_until_all _ _ All).
    eexists; eexists. split; [reflexivity |].
    rewrite !length_map, !map_map, length_seq. cbn [fst].
    assert (First :
              firstn 30
                (map (fun i => - width / 2 + INR i / 10 * (width / INR 3))
                     (seq 0 31))
              = map (fun i => - width / 2 + INR i / 10 * (width / 3))
                    (seq 0 30)).
    { rewrite firstn_map.
      change (firstn 30 (seq 0 31)) with (seq 0 30).
      apply map_ext. intros i. simpl. lra. }
    split; [lia |]. split; [lia |]. split; [exact First |].
    split; [| split; [| reflexivity]].
    + intros Hpos. rewrite First. apply Forall_forall. intros x Hx.
      apply in_map_iff in Hx. destruct Hx as (i & <- & Hi).
      apply in_seq in Hi.
      assert (Hle : INR i <= 29).
      { replace 29 with (INR 29) by (simpl; lra). apply le_INR. lia. }
      nra.
    + intros x Hx. rewrite skipn_map in Hx.
      change (skipn 30 (seq 0 31)) with [30%nat] in Hx.
      destruct Hx as [<- | []]. simpl. lra.
  - intros Hw. unfold create_waves.
    cbn [seq map Nat.mul Nat.add collect_until].
    assert (S : Py.gtb (- width / 2 + INR 0 / 10 * (width / INR 3))
                       (width / 2) = true).
    { apply gtb_true. simpl. lra. }
    rewrite S. reflexivity.
Qed.

Lemma checker_row (A : Type) (f : nat -> A) (row : nat) :
  List.length
    (flat_map
       (fun col => if Nat.eqb ((row + col) mod 2) 0 then [f col] else [])
       (seq 0 6)) = 3%nat.
Proof.
  assert (E : forall col,
             (row + col) mod 2 = (row mod 2 + col) mod 2).
  { intros col. rewrite Nat.Div0.add_mod_idemp_l. reflexivity. }
  erewrite flat_map_ext; [| intros col; rewrite E; reflexivity].
  assert (H : (row mod 2 < 2)%nat) by (apply Nat.mod_upper_bound; lia).
  destruct (row mod 2) as [| [| k]]; [reflexivity | reflexivity | lia].
Qed.

Lemma checker_rows (A : Type) (f : nat -> nat -> A) (start n : nat) :
  List.length
    (flat_map
       (fun row =>
          flat_map
            (fun col =>
               if Nat.eqb ((row + col) mod 2) 0 then [f row col] else [])
            (seq 0 6))
       (seq start n)) = (3 * n)%nat.
Proof.
  revert start. induction n as [| n IH]; intros start; [reflexivity |].
  change (seq start (S n)) with (start :: seq (S start) n).
  cbn [flat_map]. rewrite length_app, IH, (checker_row (f start) start).
  lia.
Qed.

(** X10.  The finish line raises [ZeroDivisionError] exactly when its width
    is zero.  Otherwise it returns three squares of side [width / 6] per
    row, for [int(height / (width / 6))] rows (none when that is negative),
    each one a closed polyline of five points. *)
Theorem create_finish_line_squares (width height : R) :
  (width = 0 ->
   create_finish_line width height = inl Py.ZeroDivisionError)
  /\ (width <> 0 ->
      exists lines,
        create_finish_line width height = inr lines
        /\ List.length lines
           = (3 * Z.to_nat (Py.int (height / (width / 6))))%nat
        /\ Forall (fun line => exists x y, line = square (width / 6) x y)
             lines).
Proof.
  split.
  - intros ->. apply create_finish_line_zero_width.
  - intros Hw. unfold create_finish_line, Py.div, Py.bind, Py.ret.
    assert (E : Py.eqb (width / INR 6) 0 = false).
    { apply eqb_false. simpl. lra. }
    rewrite E.
    replace (INR 6) with 6 by (simpl; lra).
    eexists. split; [reflexivity |]. split.
    + exact (checker_rows
               (fun row col =>
                  square (width / 6)
                    (- width / 2 + INR col * (width / 6))
                    (- height / 2 + INR row * (width / 6)))
               0 (Z.to_nat (Py.int (height / (width / 6))))).
    + apply Forall_forall. intros line Hin.
      apply in_flat_map in Hin. destruct Hin as (row & _ & Hin).
      apply in_flat_map in Hin. destruct Hin as (col & _ & Hin).
      destruct (Nat.eqb ((row + col) mod 2) 0); [| destruct Hin].
      destruct Hin as [<- | []].
      eexists; eexists. reflexivity.
Qed.

(** Equality of explicit polylines, coordinate by coordinate. *)
Ltac points_eq :=
  unfold Geo.translate; cbn [fst snd];
  repeat match goal with
    | |- (_, _) = (_, _) => apply f_equal2
    | |- _ :: _ = _ :: _ => apply f_equal2
    end;
  try reflexivity; try lra.

(** X11.  The rays motif reads neither the width nor the height of the
    parameters: it is always twelve segments from the circle of radius 15
    to the circle of radius 30 around the offset point, the first one
    pointing straight down. *)
Theorem get_motif_rays (params : MotifParams.t) :
  let ox := MotifParams.offset_x params in
  let oy := MotifParams.offset_y params in
  exists lines,
    get_motif RAYS params = inr lines
    /\ List.length lines = 12%nat
    /\ nth 0 lines [] = [(ox, oy - 15); (ox, oy - 30)]
    /\ Forall
         (fun ray =>
            exists a,
              ray = [(15 * cos a + ox, 15 * sin a + oy);
                     (30 * cos a + ox, 30 * sin a + oy)])
         lines.
Proof.
  intros ox oy.
  rewrite get_motif_without_offset. fold ox. fold oy.
  unfold get_motif.
  cbn [without_offset MotifParams.offset_x MotifParams.offset_y].
  assert (Z : Py.eqb 0 0 = true) by (apply eqb_true; reflexivity).
  rewrite Z. cbn [negb orb Py.bind Py.ret].
  eexists. split; [reflexivity |].
  split; [rewrite length_map; reflexivity |]. split.
  - unfold create_rays. cbn [seq map nth Geo.translate fst snd].
    replace (2 * PI * INR 0 / INR 12 - PI / 2) with (- (PI / 2))
      by (simpl; lra).
    rewrite cos_neg, sin_neg, cos_PI2, sin_PI2.
    points_eq.
  - apply Forall_forall. intros ray Hin.
    apply in_map_iff in Hin. destruct Hin as (r0 & <- & Hin).
    unfold create_rays in Hin. apply in_map_iff in Hin.
    destruct Hin as (i & <- & _).
    exists (2 * PI * INR i / INR 12 - PI / 2).
    cbn [map Geo.translate fst snd]. points_eq.
Qed.

(** ** Rotations *)

Lemma rotate_zero (p : Polygon) : Geo.rotate p 0 = p.
Proof.
  unfold Geo.rotate. rewrite <- (map_id p) at 2. apply map_ext.
  intros [x y]. replace (0 * PI / 180) with 0 by lra.
  rewrite cos_0, sin_0. cbn [fst snd]. f_equal; lra.
Qed.

Lemma rotate_full_turn (p : Polygon) (angle : R) :
  Geo.rotate p (angle + 360) = Geo.rotate p angle.
Proof.
  unfold Geo.rotate. apply map_ext. intros [x y].
  replace ((angle + 360) * PI / 180) with (angle * PI / 180 + 2 * PI) by lra.
  rewrite cos_plus, sin_plus, cos_2PI, sin_2PI. cbn [fst snd].
  f_equal; ring.
Qed.

Lemma rotate_rotate (p : Polygon) (a b : R) :
  Geo.rotate (Geo.rotate p a) b = Geo.rotate p (a + b).
Proof.
  unfold Geo.rotate. rewrite map_map. apply map_ext. intros [x y].
  cbn [fst snd].
  replace ((a + b) * PI / 180) with (a * PI / 180 + b * PI / 180) by lra.
  rewrite cos_plus, sin_plus. f_equal; ring.
Qed.

Section Rotations.

Context {GEOS : Shapely}.

Lemma get_shape_rotated (shape_type : MedalShape) (params : ShapeParams.t) :
  get_shape shape_type params
  = Geo.rotate (get_shape shape_type (with_rotation params 0))
               (ShapeParams.rotation params).
Proof.
  rewrite (@get_shape_unrotated _ shape_type (with_rotation params 0))
    by reflexivity.
  unfold get_shape. cbn [with_rotation ShapeParams.width ShapeParams.height
                         ShapeParams.corner_radius].
  destruct (Py.eqb (ShapeParams.rotation params) 0) eqn:E; [| reflexivity].
  apply eqb_true in E. rewrite E, rotate_zero. reflexivity.
Qed.

(** X12.  Turning a shape by a further 360 degrees gives the same ring,
    whatever the shape and the rotation it already has; in particular a
    rotation of 360 degrees gives the ring of the unrotated shape. *)
Theorem get_shape_full_turn
    (shape_type : MedalShape) (params : ShapeParams.t) :
  get_shape shape_type
    (with_rotation params (ShapeParams.rotation params + 360))
  = get_shape shape_type params
  /\ get_shape shape_type (with_rotation params 360)
     = get_shape shape_type (with_rotation params 0).
Proof.
  split.
  - rewrite (get_shape_rotated shape_type (with_rotation params _)).
    rewrite (get_shape_rotated shape_type params).
    cbn [with_rotation ShapeParams.rotation].
    rewrite rotate_full_turn. reflexivity.
  - rewrite (get_shape_rotated shape_type (with_rotation params 360)).
    cbn [with_rotation ShapeParams.rotation].
    replace 360 with (0 + 360) at 2 by lra.
    rewrite rotate_full_turn, rotate_zero. reflexivity.
Qed.

(** X13.  The rotation changes neither the number of vertices of the ring
    nor its area. *)
Theorem get_shape_rotation_invariants
    (shape_type : MedalShape) (params : ShapeParams.t) :
  List.length (get_shape shape_type params)
  = List.length (get_shape shape_type (with_rotation params 0))
  /\ Geo.area (get_shape shape_type params)
     = Geo.area (get_shape shape_type (with_rotation params 0)).
Proof.
  rewrite (get_shape_rotated shape_type params). split.
  - unfold Geo.rotate. apply length_map.
  - unfold Geo.area. rewrite shoelace_rotate. reflexivity.
Qed.

(** X14.  Rotations about the origin add up.  The octagon, which its
    builder turns by 22.5 degrees, is thus the regular octagon with a vertex
    on the positive x axis turned by 22.5 degrees plus the rotation of the
    parameters; with a rotation of -22.5 degrees it has vertices on both
    axes and its bounding box is the full diameter both ways. *)
Theorem get_shape_octagon_rotation (params : ShapeParams.t) :
  let w := ShapeParams.width params in
  let regular := create_regular_polygon 8 w 0 in
  (forall (p : Polygon) (a b : R),
      Geo.rotate (Geo.rotate p a) b = Geo.rotate p (a + b))
  /\ get_shape OCTAGON params
     = Geo.rotate regular (225 / 10 + ShapeParams.rotation params)
  /\ get_shape OCTAGON (with_rotation params (- (225 / 10))) = regular
  /\ (0 < w ->
      Geo.bounds (get_shape OCTAGON (with_rotation params (- (225 / 10))))
      = (- (w / 2), - (w / 2), w / 2, w / 2)).
Proof.
  intros w regular.
  assert (O : get_shape OCTAGON params
              = Geo.rotate regular (225 / 10 + ShapeParams.rotation params)).
  { rewrite get_shape_rotated.
    rewrite (@get_shape_unrotated _ OCTAGON (with_rotation params 0))
      by reflexivity.
    cbn [with_rotation ShapeParams.width]. fold w.
    rewrite create_octagon_rotated.
    subst regular. rewrite create_regular_polygon_unrotated.
    apply rotate_rotate. }
  assert (B : get_shape OCTAGON (with_rotation params (- (225 / 10)))
              = regular).
  { rewrite (get_shape_rotated OCTAGON (with_rotation params _)).
    cbn [with_rotation ShapeParams.rotation].
    rewrite (@get_shape_unrotated _ OCTAGON (with_rotation params 0))
      by reflexivity.
    cbn [with_rotation ShapeParams.width]. fold w.
    rewrite create_octagon_rotated, rotate_rotate.
    replace (225 / 10 + - (225 / 10)) with 0 by lra.
    rewrite rotate_zero. subst regular.
    rewrite create_regular_polygon_unrotated. reflexivity. }
  split; [intros p a b; apply rotate_rotate |].
  split; [exact O |]. split; [exact B |].
  intros Hw. rewrite B. subst regular.
  rewrite create_regular_polygon_unrotated.
  apply bounds_eq.
  - simpl. forall_points ltac:(apply circle_in_box; lra).
  - simpl. do 4 apply Exists_cons_tl. apply Exists_cons_hd. simpl.
    replace (2 * PI * (1 + 1 + 1 + 1) / (1 + 1 + 1 + 1 + 1 + 1 + 1 + 1))
      with PI by field.
    rewrite cos_PI. lra.
  - simpl. do 6 apply Exists_cons_tl. apply Exists_cons_hd. simpl.
    replace (2 * PI * (1 + 1 + 1 + 1 + 1 + 1)
             / (1 + 1 + 1 + 1 + 1 + 1 + 1 + 1))
      with (3 * (PI / 2)) by field.
    rewrite sin_3PI2. lra.
  - simpl. apply Exists_cons_hd. simpl.
    replace (2 * PI * 0 / (1 + 1 + 1 + 1 + 1 + 1 + 1 + 1)) with 0 by field.
    rewrite cos_0. lra.
  - simpl. do 2 apply Exists_cons_tl. apply Exists_cons_hd. simpl.
    replace (2 * PI * (1 + 1) / (1 + 1 + 1 + 1 + 1 + 1 + 1 + 1))
      with (PI / 2) by field.
    rewrite sin_PI2. lra.
Qed.

End Rotations.

(** ** The two hexagons *)

Lemma spans_height (p : Polygon) (r : R) :
  Forall (in_box (- r) (- r) r r) p ->
  Exists (fun q => snd q = - r) p ->
  Exists (fun q => snd q = r) p ->
  Geo.miny (Geo.bounds p) = - r /\ Geo.maxy (Geo.bounds p) = r.
Proof.
  intros Hall E0 E1.
  assert (Hne : p <> []) by (intros ->; inversion E0).
  destruct (bounds_within Hne Hall) as (A & B & C & D).
  pose proof (bounds_holds p) as Hin.
  rewrite Forall_forall in Hin. rewrite Exists_exists in E0, E1.
  destruct E0 as (q0 & I0 & E0). destruct E1 as (q1 & I1 & E1).
  pose proof (Hin q0 I0) as [[? ?] [? ?]].
  pose proof (Hin q1 I1) as [[? ?] [? ?]].
  split; lra.
Qed.

Lemma spans_width (p : Polygon) (r : R) :
  Forall (in_box (- r) (- r) r r) p ->
  Exists (fun q => fst q = - r) p ->
  Exists (fun q => fst q = r) p ->
  Geo.minx (Geo.bounds p) = - r /\ Geo.maxx (Geo.bounds p) = r.
Proof.
  intros Hall E0 E1.
  assert (Hne : p <> []) by (intros ->; inversion E0).
  destruct (bounds_within Hne Hall) as (A & B & C & D).
  pose proof (bounds_holds p) as Hin.
  rewrite Forall_forall in Hin. rewrite Exists_exists in E0, E1.
  destruct E0 as (q0 & I0 & E0). destruct E1 as (q1 & I1 & E1).
  pose proof (Hin q0 I0) as [[? ?] [? ?]].
  pose proof (Hin q1 I1) as [[? ?] [? ?]].
  split; lra.
Qed.

Section Hexagons.

Context {GEOS : Shapely}.

(** X15.  The hexagon with a point at the top is the flat-topped hexagon
    turned by 30 degrees.  For a positive diameter the flat-topped one,
    which is the one [get_shape] builds, has two vertices on the x axis and
    the pointed one two vertices on the y axis: the larger side of the
    bounding box is the diameter for both, the width for the first and the
    height for the second. *)
Theorem create_hexagon_orientations (diameter : R) :
  0 < diameter ->
  let flat := create_hexagon diameter true in
  let pointed := create_hexagon diameter false in
  pointed = Geo.rotate flat 30
  /\ larger_dimension flat = diameter
  /\ larger_dimension pointed = diameter
  /\ Geo.maxx (Geo.bounds flat) - Geo.minx (Geo.bounds flat) = diameter
  /\ Geo.maxy (Geo.bounds pointed) - Geo.miny (Geo.bounds pointed)
     = diameter
  /\ (forall params,
         get_shape HEXAGON params
         = Geo.rotate (create_hexagon (ShapeParams.width params) true)
                      (ShapeParams.rotation params)).
Proof.
  intros Hd flat pointed.
  assert (R30 : pointed = Geo.rotate flat 30).
  { subst pointed flat. unfold create_hexagon, create_regular_polygon.
    assert (E0 : Py.eqb 0 0 = true) by (apply eqb_true; reflexivity).
    assert (E30 : Py.eqb 30 0 = false) by (apply eqb_false; lra).
    rewrite E0, E30. reflexivity. }
  assert (In_box : Forall (in_box (- (diameter / 2)) (- (diameter / 2))
                                  (diameter / 2) (diameter / 2)) pointed).
  { rewrite R30. subst flat. unfold create_hexagon.
    rewrite create_regular_polygon_unrotated.
    unfold Geo.rotate. simpl map.
    forall_points ltac:(rewrite rotate_vertex; apply circle_in_box; lra). }
  assert (Bottom : Exists (fun q => snd q = - (diameter / 2)) pointed).
  { rewrite R30. subst flat. unfold create_hexagon.
    rewrite create_regular_polygon_unrotated.
    unfold Geo.rotate. simpl map.
    do 4 apply Exists_cons_tl. apply Exists_cons_hd.
    rewrite rotate_vertex. cbn [snd].
    replace (30 * PI / 180
             + 2 * PI * (1 + 1 + 1 + 1) / (1 + 1 + 1 + 1 + 1 + 1))
      with (3 * (PI / 2)) by field.
    rewrite sin_3PI2. lra. }
  assert (Top : Exists (fun q => snd q = diameter / 2) pointed).
  { rewrite R30. subst flat. unfold create_hexagon.
    rewrite create_regular_polygon_unrotated.
    unfold Geo.rotate. simpl map.
    do 1 apply Exists_cons_tl. apply Exists_cons_hd.
    rewrite rotate_vertex. cbn [snd].
    replace (30 * PI / 180 + 2 * PI * 1 / (1 + 1 + 1 + 1 + 1 + 1))
      with (PI / 2) by field.
    rewrite sin_PI2. lra. }
  split; [exact R30 |].
  split; [apply create_hexagon_larger_dimension; exact Hd |].
  split.
  { transitivity (diameter / 2 - - (diameter / 2)); [| lra].
    apply larger_dimension_height
      with (x0 := - (diameter / 2)) (x1 := diameter / 2);
      [exact In_box | exact Bottom | exact Top | lra]. }
  split.
  { assert (W : Geo.minx (Geo.bounds flat) = - (diameter / 2)
                /\ Geo.maxx (Geo.bounds flat) = diameter / 2).
    { subst flat. unfold create_hexagon.
      rewrite create_regular_polygon_unrotated. apply spans_width.
      - simpl. forall_points ltac:(apply circle_in_box; lra).
      - simpl. do 3 apply Exists_cons_tl. apply Exists_cons_hd. simpl.
        replace (2 * PI * (1 + 1 + 1) / (1 + 1 + 1 + 1 + 1 + 1))
          with PI by field.
        rewrite cos_PI. lra.
      - simpl. apply Exists_cons_hd. simpl.
        replace (2 * PI * 0 / (1 + 1 + 1 + 1 + 1 + 1)) with 0 by field.
        rewrite cos_0. lra. }
    destruct W as [-> ->]. lra. }
  split.
  { destruct (spans_height In_box Bottom Top) as [-> ->]. lra. }
  intros params. rewrite get_shape_rotated.
  rewrite (@get_shape_unrotated _ HEXAGON (with_rotation params 0))
    by reflexivity.
  reflexivity.
Qed.

End Hexagons.

(** ** The presets *)

Lemma text_check_passes (font_size : R) :
  45 / 10 <= font_size ->
  ValidationResult.errors
    (validate_engraving_text font_size DEFAULT_CONSTRAINTS) = []
  /\ ValidationResult.warnings
       (validate_engraving_text font_size DEFAULT_CONSTRAINTS) = [].
Proof.
  intros H. unfold validate_engraving_text; simpl.
  assert (E : Py.ltb font_size 3 = false) by (apply ltb_false; lra).
  assert (W : Py.ltb font_size (3 * (15 / 10)) = false)
    by (apply ltb_false; lra).
  rewrite E, W. split; reflexivity.
Qed.

Lemma preset_texts (composition : MedalComposition.t) :
  preset composition ->
  Forall (fun t => 45 / 10 <= TextElement.font_size t)
    (MedalComposition.texts composition).
Proof.
  intros [ | | | | shape ? ? ? ? ? ? ? ?];
    try destruct shape; cbn;
    repeat (apply Forall_cons; [cbn; lra |]); apply Forall_nil.
Qed.

Lemma texts_pass (texts : list TextElement.t) :
  Forall (fun t => 45 / 10 <= TextElement.font_size t) texts ->
  text_errors DEFAULT_CONSTRAINTS texts = []
  /\ text_warnings DEFAULT_CONSTRAINTS texts = [].
Proof.
  unfold text_errors, text_warnings.
  induction 1 as [| t texts Ht _ [IHe IHw]]; [split; reflexivity |].
  cbn [flat_map]. rewrite IHe, IHw.
  destruct (text_check_passes Ht) as [-> ->]. split; reflexivity.
Qed.

Section Presets.

Context {GEOS : Shapely}.

(** X16.  Every text of the five preset builders is at least 4.5 mm high,
    one and a half times the minimum of the default profile: under that
    profile the texts of a preset medal raise neither an error nor a
    warning.  The errors of the medal are those of the outline check
    followed by those of the hole check, run on the automatic position, and
    its warnings are those of the outline check. *)
Theorem compose_medal_preset
    (composition : MedalComposition.t) (medal : ComposedMedal.t) :
  preset composition ->
  compose_medal composition DEFAULT_CONSTRAINTS = inr medal ->
  let outline :=
    get_shape (MedalComposition.shape_type composition)
              (MedalComposition.shape_params composition) in
  let hole := calculate_ribbon_hole_position outline 8 in
  ComposedMedal.ribbon_hole_center medal = Some hole
  /\ ValidationResult.errors (ComposedMedal.validation_result medal)
     = ValidationResult.errors
         (validate_medal_shape outline DEFAULT_CONSTRAINTS)
       ++ ValidationResult.errors
            (validate_ribbon_hole outline hole DEFAULT_CONSTRAINTS)
  /\ ValidationResult.warnings (ComposedMedal.validation_result medal)
     = ValidationResult.warnings
         (validate_medal_shape outline DEFAULT_CONSTRAINTS).
Proof.
  intros Hp H outline hole.
  destruct (texts_pass (preset_texts Hp)) as [Te Tw].
  assert (Hh : MedalComposition.ribbon_hole composition = true)
    by (destruct Hp; reflexivity).
  assert (Hn : MedalComposition.ribbon_hole_position composition = None)
    by (destruct Hp; reflexivity).
  destruct (compose_medal_inr _ _ H) as (lines & _ & ->).
  cbn [ComposedMedal.ribbon_hole_center ComposedMedal.validation_result
       ValidationResult.errors ValidationResult.warnings].
  fold outline. rewrite Te, Tw.
  unfold resolve_ribbon_hole. rewrite Hh, Hn. fold hole.
  cbn [fst snd]. rewrite !app_nil_r.
  repeat split.
Qed.

End Presets.

Lemma get_motif_finish_line_zero (params : MotifParams.t) :
  MotifParams.width params = 0 ->
  get_motif FINISH_LINE params = inl Py.ZeroDivisionError.
Proof.
  intros Hw. unfold get_motif. rewrite Hw.
  rewrite create_finish_line_zero_width. reflexivity.
Qed.

Lemma position_motif_finish_line_zero (w h : R) (position : point) :
  w = 0 ->
  position_motif (motif_element FINISH_LINE w h position)
  = inl Py.ZeroDivisionError.
Proof.
  intros ->. unfold position_motif.
  cbn [motif_element MotifElement.motif_type MotifElement.params].
  rewrite get_motif_finish_line_zero by reflexivity. reflexivity.
Qed.

Lemma motif_element_well_formed (motif_type : MotifType) (w h : R)
    (position : point) :
  (motif_type = FINISH_LINE -> w <> 0) ->
  motif_well_formed (motif_element motif_type w h position).
Proof. intros H. exact H. Qed.

Lemma create_custom_medal_well_formed
    (shape : MedalShape) (primary_motif : MotifType)
    (secondary_motif : option MotifType)
    (text_main text_secondary text_year : string) (diameter : R)
    (concept_name wood_type : string) :
  diameter <> 0 ->
  Forall motif_well_formed
    (MedalComposition.motifs
       (create_custom_medal shape primary_motif secondary_motif
          text_main text_secondary text_year diameter concept_name
          wood_type)).
Proof.
  intros Hd. unfold create_custom_medal, composition_with_hole.
  cbn [MedalComposition.motifs].
  apply Forall_app. split.
  - apply Forall_cons; [| apply Forall_nil].
    apply motif_element_well_formed. intros _. nra.
  - destruct secondary_motif as [m |]; [| apply Forall_nil].
    apply Forall_cons; [| apply Forall_nil].
    apply motif_element_well_formed. intros _. nra.
Qed.

Section CustomMedal.

Context {GEOS : Shapely}.

(** X17.  The four event presets compose for every diameter.  The custom
    medal composes for every diameter but zero; at diameter zero it raises
    [ZeroDivisionError] exactly when one of its motifs is the finish
    line. *)
Theorem create_custom_medal_composes
    (shape : MedalShape) (primary_motif : MotifType)
    (secondary_motif : option MotifType)
    (text_main text_secondary text_year : string) (diameter : R)
    (concept_name wood_type : string) (constraints : TrotecConstraints.t) :
  let custom :=
    create_custom_medal shape primary_motif secondary_motif
      text_main text_secondary text_year diameter concept_name wood_type in
  (compose_medal custom constraints = inl Py.ZeroDivisionError
   <-> diameter = 0
       /\ (primary_motif = FINISH_LINE
           \/ secondary_motif = Some FINISH_LINE))
  /\ (forall event_name_upper name year distance company_name,
         exists trail running swimming corporate,
           compose_medal
             (create_trail_medal event_name_upper name year distance
                                 diameter) constraints = inr trail
           /\ compose_medal
                (create_running_medal event_name_upper name year diameter)
                constraints = inr running
           /\ compose_medal
                (create_swimming_medal event_name_upper name year diameter)
                constraints = inr swimming
           /\ compose_medal
                (create_corporate_medal company_name event_name_upper name
                                        year diameter)
                constraints = inr corporate).
Proof.
  intros custom. split.
  - split.
    + intros Hraise.
      destruct (Req_dec_T diameter 0) as [Hd | Hd].
      * split; [exact Hd |].
        destruct primary_motif; try (left; reflexivity);
          destruct secondary_motif as [[] |]; try (right; reflexivity);
          exfalso;
          (destruct (@compose_medal_returns _ custom constraints)
             as [medal E];
           [ subst custom; cbn;
             repeat (apply Forall_cons;
                     [intros H; discriminate H |]);
             apply Forall_nil
           | rewrite E in Hraise; discriminate Hraise ]).
      * exfalso.
        destruct (@compose_medal_returns _ custom constraints) as [medal E].
        { subst custom. apply create_custom_medal_well_formed. exact Hd. }
        rewrite E in Hraise. discriminate Hraise.
    + intros [Hd Hm]. subst custom.
      unfold compose_medal.
      destruct (resolve_ribbon_hole _ _ _) as [[center herrs] hwarns].
      unfold create_custom_medal, composition_with_hole.
      cbn [MedalComposition.motifs app].
      destruct Hm as [-> | ->].
      * cbn [Py.extend_each].
        rewrite position_motif_finish_line_zero by (rewrite Hd; lra).
        reflexivity.
      * cbn [Py.extend_each].
        rewrite (@position_motif_finish_line_zero (diameter * (4 / 10)))
          by (rewrite Hd; lra).
        destruct (position_motif _) as [[] | lines]; reflexivity.
  - intros event_name_upper name year distance company_name.
    destruct (@compose_medal_returns _
                (create_trail_medal event_name_upper name year distance
                                    diameter) constraints) as [trail Et].
    { cbn. repeat (apply Forall_cons; [intros H; discriminate H |]).
      apply Forall_nil. }
    destruct (@compose_medal_returns _
                (create_running_medal event_name_upper name year diameter)
                constraints) as [running Er].
    { cbn. repeat (apply Forall_cons; [intros H; discriminate H |]).
      apply Forall_nil. }
    destruct (@compose_medal_returns _
                (create_swimming_medal event_name_upper name year diameter)
                constraints) as [swimming Es].
    { cbn. repeat (apply Forall_cons; [intros H; discriminate H |]).
      apply Forall_nil. }
    destruct (@compose_medal_returns _
                (create_corporate_medal company_name event_name_upper name
                                        year diameter)
                constraints) as [corporate Ec].
    { cbn. repeat (apply Forall_cons; [intros H; discriminate H |]).
      apply Forall_nil. }
    exists trail, running, swimming, corporate. repeat split; assumption.
Qed.

(** X18.  For a positive diameter, the outline of a custom medal has the
    diameter as the larger side of its bounding box when the shape is the
    hexagon, the shield, the drop or the leaf, and a strictly smaller
    bounding box when it is the octagon, the star or (above 10 mm) the
    gear.  So an octagon or a star ordered at the minimum medal diameter,
    or under it, is reported as too small by the outline check as soon as
    GEOS finds the ring valid. *)
Theorem create_custom_medal_size
    (shape : MedalShape) (primary_motif : MotifType)
    (secondary_motif : option MotifType)
    (text_main text_secondary text_year : string) (diameter : R)
    (concept_name wood_type : string) :
  0 < diameter ->
  let custom :=
    create_custom_medal shape primary_motif secondary_motif
      text_main text_secondary text_year diameter concept_name wood_type in
  let outline :=
    get_shape (MedalComposition.shape_type custom)
              (MedalComposition.shape_params custom) in
  (shape = HEXAGON \/ shape = SHIELD \/ shape = DROP \/ shape = LEAF ->
   larger_dimension outline = diameter)
  /\ (shape = OCTAGON \/ shape = STAR \/ (shape = GEAR /\ 10 < diameter) ->
      larger_dimension outline < diameter)
  /\ (forall constraints,
         shape = OCTAGON \/ shape = STAR ->
         polygon_is_valid outline = true ->
         diameter <= TrotecConstraints.min_medal_diameter constraints ->
         In (MedalTooSmall (larger_dimension outline)
               (TrotecConstraints.min_medal_diameter constraints))
            (ValidationResult.errors
               (validate_medal_shape outline constraints))).
Proof.
  intros Hd custom outline.
  assert (Exact : shape = HEXAGON \/ shape = SHIELD \/ shape = DROP
                  \/ shape = LEAF ->
                  larger_dimension outline = diameter).
  { intros [-> | [-> | [-> | ->]]]; subst outline custom;
      cbn [create_custom_medal composition_with_hole
           MedalComposition.shape_type MedalComposition.shape_params];
      rewrite get_shape_unrotated by reflexivity;
      cbn [ShapeParams.init ShapeParams.width ShapeParams.height].
    - apply create_hexagon_larger_dimension. exact Hd.
    - rewrite create_shield_larger_dimension by lra.
      apply Rmax_right. lra.
    - apply create_drop_larger_dimension; lra.
    - apply create_leaf_larger_dimension; lra. }
  assert (Less : shape = OCTAGON \/ shape = STAR
                 \/ (shape = GEAR /\ 10 < diameter) ->
                 larger_dimension outline < diameter).
  { intros [-> | [-> | [-> Hg]]]; subst outline custom;
      cbn [create_custom_medal composition_with_hole
           MedalComposition.shape_type MedalComposition.shape_params];
      rewrite get_shape_unrotated by reflexivity;
      cbn [ShapeParams.init ShapeParams.width ShapeParams.height].
    - apply create_octagon_larger_dimension. exact Hd.
    - apply create_star_larger_dimension. exact Hd.
    - apply create_gear_larger_dimension. exact Hg. }
  split; [exact Exact |]. split; [exact Less |].
  intros constraints Hs Hv Hmin.
  assert (Hlt : larger_dimension outline < diameter)
    by (apply Less; tauto).
  unfold validate_medal_shape. rewrite Hv. cbn [negb].
  cbn [ValidationResult.errors].
  apply in_or_app. right. apply in_or_app. right.
  apply in_or_app. left. apply in_when. split; [| reflexivity].
  apply ltb_true. unfold larger_dimension in Hlt. lra.
Qed.

End CustomMedal.

(** ** Enumeration values and suggestions *)

(** X19.  Looking a member up by its value gives the member back, for the
    shapes and for the motifs; and a lookup that succeeds returns a member
    that has the value looked up: the values are pairwise distinct and the
    lookup is case-sensitive. *)
Theorem enum_value_round_trip :
  (forall shape, MedalShape_of_value (MedalShape_value shape) = Some shape)
  /\ (forall value shape,
         MedalShape_of_value value = Some shape ->
         MedalShape_value shape = value)
  /\ (forall motif, MotifType_of_value (MotifType_value motif) = Some motif)
  /\ (forall value motif,
         MotifType_of_value value = Some motif ->
         MotifType_value motif = value).
Proof.
  split; [intros []; reflexivity |].
  split.
  { intros value shape H. unfold MedalShape_of_value in H.
    apply find_some in H. destruct H as [_ H].
    apply String.eqb_eq. exact H. }
  split; [intros []; reflexivity |].
  intros value motif H. unfold MotifType_of_value in H.
  apply find_some in H. destruct H as [_ H].
  apply String.eqb_eq. exact H.
Qed.

Lemma MedalShape_of_value_none (value : string) :
  (forall shape, value <> MedalShape_value shape) ->
  MedalShape_of_value value = None.
Proof.
  intros H. destruct (MedalShape_of_value value) as [shape |] eqn:E;
    [| reflexivity].
  unfold MedalShape_of_value in E. apply find_some in E.
  destruct E as [_ E]. apply String.eqb_eq in E.
  exfalso. apply (H shape). symmetry. exact E.
Qed.

Lemma MotifType_of_value_none (value : string) :
  (forall motif, value <> MotifType_value motif) ->
  MotifType_of_value value = None.
Proof.
  intros H. destruct (MotifType_of_value value) as [motif |] eqn:E;
    [| reflexivity].
  unfold MotifType_of_value in E. apply find_some in E.
  destruct E as [_ E]. apply String.eqb_eq in E.
  exfalso. apply (H motif). symmetry. exact E.
Qed.

(** X20.  A suggestion is turned into parameters without ever failing: a
    shape or a primary motif named by its value is taken as named, any
    other name falls back to the circle and to the mountains; a secondary
    motif that is missing, empty or unknown is dropped.  With a diameter
    other than zero the custom medal built from these parameters composes,
    under every profile, into a medal that bears the name of the
    suggestion. *)
Theorem suggestion_to_composition_params_falls_back
    (suggestion : MedalSuggestion.t) :
  let params := suggestion_to_composition_params suggestion in
  (forall shape,
      MedalSuggestion.shape suggestion = MedalShape_value shape ->
      CustomParams.shape params = shape)
  /\ ((forall shape,
          MedalSuggestion.shape suggestion <> MedalShape_value shape) ->
      CustomParams.shape params = CIRCLE)
  /\ (forall motif,
         MedalSuggestion.primary_motif suggestion = MotifType_value motif ->
         CustomParams.primary_motif params = motif)
  /\ ((forall motif,
          MedalSuggestion.primary_motif suggestion
          <> MotifType_value motif) ->
      CustomParams.primary_motif params = MOUNTAINS)
  /\ (forall motif,
         MedalSuggestion.secondary_motif suggestion
         = Some (MotifType_value motif) ->
         CustomParams.secondary_motif params = Some motif)
  /\ (MedalSuggestion.secondary_motif suggestion = None
      \/ (exists value,
             MedalSuggestion.secondary_motif suggestion = Some value
             /\ forall motif, value <> MotifType_value motif) ->
      CustomParams.secondary_motif params = None)
  /\ (forall (GEOS : Shapely) (constraints : TrotecConstraints.t),
         MedalSuggestion.diameter suggestion <> 0%Z ->
         exists medal,
           compose_medal (create_custom_medal_from params) constraints
           = inr medal
           /\ ComposedMedal.name medal = MedalSuggestion.name suggestion).
Proof.
  intros params. subst params. unfold suggestion_to_composition_params.
  cbn [CustomParams.shape CustomParams.primary_motif
       CustomParams.secondary_motif].
  split.
  { intros shape ->. destruct shape; reflexivity. }
  split.
  { intros H. rewrite MedalShape_of_value_none by exact H. reflexivity. }
  split.
  { intros motif ->. destruct motif; reflexivity. }
  split.
  { intros H. rewrite MotifType_of_value_none by exact H. reflexivity. }
  split.
  { intros motif ->. destruct motif; reflexivity. }
  split.
  { intros [-> | (value & -> & H)]; [reflexivity |].
    rewrite MotifType_of_value_none by exact H.
    destruct (truthy value); reflexivity. }
  intros GEOS constraints Hd.
  destruct (@compose_medal_returns GEOS
              (create_custom_medal_from
                 (suggestion_to_composition_params suggestion))
              constraints) as [medal E].
  { unfold create_custom_medal_from.
    apply create_custom_medal_well_formed.
    cbn [suggestion_to_composition_params CustomParams.diameter].
    apply not_0_IZR. exact Hd. }
  exists medal. split; [exact E |].
  destruct (compose_medal_inr _ _ E) as (lines & _ & ->).
  reflexivity.
Qed.

(** ** The drawings *)

Lemma create_svg_medal_view (medal : ComposedMedal.t) (wood_type : string)
    (margin : R) (show_cut_lines : bool) :
  (Svg.size (create_svg_medal medal wood_type margin show_cut_lines),
   Svg.viewBox (create_svg_medal medal wood_type margin show_cut_lines))
  = view (ComposedMedal.bounds medal) margin.
Proof.
  unfold create_svg_medal, view.
  destruct (WOOD_COLORS wood_type) as [wood_bg engrave_color].
  destruct (fold_left _ _ _) as [defs texts]. reflexivity.
Qed.

Lemma in_view_of_in_box (b : BBox) (margin : R) (q : point) :
  0 <= margin ->
  in_box (Geo.minx b) (Geo.miny b) (Geo.maxx b) (Geo.maxy b) q ->
  in_view (snd (view b margin)) q.
Proof.
  intros Hm [[Hx0 Hx1] [Hy0 Hy1]]. unfold view, in_view; cbn [snd].
  repeat split; lra.
Qed.

Lemma Forall_exterior_coords (P : point -> Prop) (p : Polygon) :
  Forall P p -> Forall P (exterior_coords p).
Proof.
  intros H. unfold exterior_coords. destruct p as [| first rest];
    [constructor |].
  destruct (_ && _); [exact H |].
  apply Forall_app. split; [exact H |].
  apply Forall_cons; [| apply Forall_nil]. inversion H; assumption.
Qed.

(** ** From the composition to the drawings *)

Lemma place_text_curved (bounds : BBox) (t : TextElement.t) :
  TextDict.curved (place_text bounds t) = negb (straight t).
Proof.
  unfold place_text, straight.
  destruct (TextElement.position t); cbn [TextDict.curved];
    rewrite ?negb_involutive; reflexivity.
Qed.

Lemma place_text_content (bounds : BBox) (t : TextElement.t) :
  TextDict.content (place_text bounds t) = TextElement.content t.
Proof.
  unfold place_text. destruct (TextElement.position t); reflexivity.
Qed.

Lemma text_contents_app (a b : list Svg.element) :
  text_contents (a ++ b) = text_contents a ++ text_contents b.
Proof. apply flat_map_app. Qed.

Lemma polylines_map (lines : list Polyline) (a : Svg.attribs) :
  polylines (map (fun line => Svg.polyline line a) lines) = lines.
Proof.
  induction lines as [| l ls IH]; [reflexivity |].
  cbn. f_equal. exact IH.
Qed.

Lemma add_curved_text_adds (defs group : list Svg.element)
    (text_data : TextDict.t) (color : string) :
  exists p t,
    _add_curved_text defs group text_data color
    = (defs ++ [p], group ++ [t])
    /\ text_contents [t] = [TextDict.content text_data].
Proof.
  unfold _add_curved_text. eexists; eexists.
  split; reflexivity.
Qed.

(** The loop over the texts of [create_svg_medal]: every text adds one
    element to the group, and every curved one a path to the
    definitions. *)
Lemma preview_texts_loop (color : string) (texts : list TextDict.t)
    (defs group : list Svg.element) :
  let step :=
    fun '(defs, group) text_data =>
      if TextDict.curved text_data then
        _add_curved_text defs group text_data color
      else (defs, group ++ [straight_text text_data color]) in
  text_contents (snd (fold_left step texts (defs, group)))
  = text_contents group ++ map TextDict.content texts
  /\ List.length (fst (fold_left step texts (defs, group)))
     = (List.length defs
        + List.length (filter TextDict.curved texts))%nat.
Proof.
  intros step. revert defs group.
  induction texts as [| d texts IH]; intros defs group.
  - cbn. rewrite app_nil_r. split; [reflexivity | lia].
  - cbn [fold_left filter map].
    destruct (TextDict.curved d) eqn:C.
    + unfold step at 2 4. rewrite C.
      destruct (add_curved_text_adds defs group d color)
        as (p & t & -> & Tc).
      destruct (IH (defs ++ [p]) (group ++ [t])) as [IH1 IH2].
      rewrite IH1, IH2. rewrite text_contents_app, length_app, Tc.
      cbn. rewrite <- app_assoc. split; [reflexivity | lia].
    + unfold step at 2 4. rewrite C.
      destruct (IH defs (group ++ [straight_text d color])) as [IH1 IH2].
      rewrite IH1, IH2. rewrite text_contents_app.
      cbn. rewrite <- app_assoc. split; [reflexivity | lia].
Qed.

Lemma create_svg_medal_elements (medal : ComposedMedal.t)
    (wood_type : string) (margin : R) (show_cut_lines : bool) :
  exists main texts,
    Svg.elements (create_svg_medal medal wood_type margin show_cut_lines)
    = [main; Svg.g [] texts]
    /\ text_contents texts
       = map TextDict.content (ComposedMedal.texts medal)
    /\ List.length
         (Svg.defs (create_svg_medal medal wood_type margin show_cut_lines))
       = List.length (filter TextDict.curved (ComposedMedal.texts medal))
    /\ polylines (children (last_child main))
       = drawn_lines (ComposedMedal.motif_lines medal)
    /\ circles (children main)
       = match ComposedMedal.ribbon_hole_center medal with
         | Some center => [(center, ComposedMedal.ribbon_hole_radius medal)]
         | None => []
         end
    /\ polygons (children main)
       = [exterior_coords (ComposedMedal.outline medal)].
Proof.
  unfold create_svg_medal.
  destruct (WOOD_COLORS wood_type) as [wood_bg engrave_color].
  cbn [view].
  destruct (preview_texts_loop engrave_color (ComposedMedal.texts medal)
              [] []) as [T D].
  cbn zeta in T, D.
  destruct (fold_left _ (ComposedMedal.texts medal) ([], []))
    as [defs texts].
  cbn [fst snd] in T, D.
  eexists; eexists. split; [reflexivity |].
  split; [exact T |]. split; [exact D |].
  cbn [Svg.elements children].
  split.
  - unfold last_child. cbn [children].
    destruct (ComposedMedal.ribbon_hole_center medal);
      cbn [app last children]; apply polylines_map.
  - split; destruct (ComposedMedal.ribbon_hole_center medal); reflexivity.
Qed.

Lemma render_production_svg_elements (medal : ComposedMedal.t) :
  text_contents (Svg.elements (render_production_svg medal))
  = map TextDict.content
      (filter (fun d => negb (TextDict.curved d)) (ComposedMedal.texts medal))
  /\ polylines
       (children
          (nth_child 1 (first_element
                          (Svg.elements (render_production_svg medal)))))
     = drawn_lines (ComposedMedal.motif_lines medal)
  /\ circles
       (children
          (nth_child 0 (first_element
                          (Svg.elements (render_production_svg medal)))))
     = match ComposedMedal.ribbon_hole_center medal with
       | Some center => [(center, ComposedMedal.ribbon_hole_radius medal)]
       | None => []
       end
  /\ polygons
       (children
          (nth_child 0 (first_element
                          (Svg.elements (render_production_svg medal)))))
     = [exterior_coords (ComposedMedal.outline medal)].
Proof.
  unfold render_production_svg. cbn [view Svg.elements].
  split; [| split; [| split]].
  - cbn [app text_contents flat_map].
    induction (ComposedMedal.texts medal) as [| d ds IH];
      [reflexivity |].
    cbn [flat_map filter]. destruct (TextDict.curved d); cbn [negb app].
    + exact IH.
    + cbn [map]. rewrite <- IH. reflexivity.
  - cbn [app first_element hd nth_child children nth].
    apply polylines_map.
  - cbn [app first_element hd nth_child children nth].
    destruct (ComposedMedal.ribbon_hole_center medal); reflexivity.
  - cbn [app first_element hd nth_child children nth].
    destruct (ComposedMedal.ribbon_hole_center medal); reflexivity.
Qed.

Lemma filter_place_text (bounds : BBox) (texts : list TextElement.t) :
  map TextDict.content
    (filter (fun d => negb (TextDict.curved d))
            (map (place_text bounds) texts))
  = map TextElement.content (filter straight texts)
  /\ List.length (filter TextDict.curved (map (place_text bounds) texts))
     = List.length (filter (fun t => negb (straight t)) texts).
Proof.
  induction texts as [| t texts [IH1 IH2]]; [split; reflexivity |].
  cbn [map filter]. rewrite place_text_curved.
  destruct (straight t); cbn [negb map List.length].
  - rewrite place_text_content, IH1, IH2. split; reflexivity.
  - rewrite IH1, IH2. split; reflexivity.
Qed.

Section DrawnTexts.

Context {GEOS : Shapely}.

(** X21.  Both drawings draw one polygon, the closed ring of the outline.
    Their view box is the bounding box of the medal, mirrored as the main
    group mirrors the medal, and grown by the margin on every side: with a
    margin that is not negative, every vertex drawn for the outline of a
    composed medal is inside the view box of the preview, and inside that
    of the production drawing.  The drawing is as many millimetres wide and
    high as the view box, and the pixel size asked for the PNG is that of
    the preview at the default margin, times the scale. *)
Theorem drawings_hold_outline
    (composition : MedalComposition.t) (constraints : TrotecConstraints.t)
    (medal : ComposedMedal.t) (wood_type : string) (margin : R)
    (show_cut_lines : bool) (scale : R) :
  compose_medal composition constraints = inr medal ->
  0 <= margin ->
  let preview := create_svg_medal medal wood_type margin show_cut_lines in
  let production := render_production_svg medal in
  let ring := exterior_coords (ComposedMedal.outline medal) in
  polygons (children (first_element (Svg.elements preview))) = [ring]
  /\ polygons
       (children (nth_child 0 (first_element (Svg.elements production))))
     = [ring]
  /\ Forall (in_view (Svg.viewBox preview)) ring
  /\ Forall (in_view (Svg.viewBox production)) ring
  /\ (let '(_, _, vw, vh) := Svg.viewBox preview in
      Svg.size preview = (Svg.Mm vw, Svg.Mm vh))
  /\ (let '(_, _, vw, vh) :=
        Svg.viewBox (create_svg_medal medal wood_type 10 false) in
      render_medal_png_size medal scale
      = (Py.int (vw * scale), Py.int (vh * scale))).
Proof.
  intros H Hm preview production ring.
  destruct (compose_medal_inr _ _ H) as (lines & _ & E).
  assert (Hb : ComposedMedal.bounds medal
               = Geo.bounds (ComposedMedal.outline medal))
    by (rewrite E; reflexivity).
  pose proof (bounds_holds (ComposedMedal.outline medal)) as Hin.
  rewrite <- Hb in Hin. apply Forall_exterior_coords in Hin. fold ring in Hin.
  pose proof (create_svg_medal_view medal wood_type margin show_cut_lines)
    as V.
  pose proof (create_svg_medal_view medal wood_type 10 false) as V10.
  fold preview in V.
  apply pair_equal_spec in V. destruct V as [Vs Vb].
  apply pair_equal_spec in V10. destruct V10 as [_ Vb10].
  destruct (create_svg_medal_elements medal wood_type margin show_cut_lines)
    as (main & texts & El & _ & _ & _ & _ & Pg).
  fold preview in El.
  destruct (render_production_svg_elements medal) as (_ & _ & _ & Pq).
  split; [rewrite El; exact Pg |]. split; [exact Pq |].
  split; [| split; [| split]].
  - rewrite Vb. eapply Forall_impl; [| exact Hin].
    intros q Hq. apply (in_view_of_in_box _ Hm Hq).
  - assert (Vp : Svg.viewBox production
                 = snd (view (ComposedMedal.bounds medal) 5))
      by reflexivity.
    rewrite Vp. eapply Forall_impl; [| exact Hin].
    intros q Hq. apply in_view_of_in_box; [lra | exact Hq].
  - rewrite Vb, Vs. reflexivity.
  - rewrite Vb10. unfold view, render_medal_png_size. cbn [snd].
    f_equal; f_equal; f_equal; lra.
Qed.

(** X22.  The preview draws every text of the composition, in order, the
    curved ones along a path of its definitions.  The production drawing
    draws only the texts that are straight, that is on the top, center or
    bottom position and not flagged as curved: a text on one of the two arc
    positions is in the preview and not in the production drawing. *)
Theorem drawings_texts
    (composition : MedalComposition.t) (constraints : TrotecConstraints.t)
    (medal : ComposedMedal.t) (wood_type : string) (margin : R)
    (show_cut_lines : bool) :
  compose_medal composition constraints = inr medal ->
  let preview := create_svg_medal medal wood_type margin show_cut_lines in
  let production := render_production_svg medal in
  let texts := MedalComposition.texts composition in
  text_contents (children (nth 1 (Svg.elements preview) (Svg.g [] [])))
  = map TextElement.content texts
  /\ List.length (Svg.defs preview)
     = List.length (filter (fun t => negb (straight t)) texts)
  /\ text_contents (Svg.elements production)
     = map TextElement.content (filter straight texts)
  /\ Svg.defs production = [].
Proof.
  intros H preview production texts.
  destruct (compose_medal_inr _ _ H) as (lines & _ & E).
  assert (Ht : ComposedMedal.texts medal
               = map (place_text (ComposedMedal.bounds medal)) texts)
    by (rewrite E; reflexivity).
  destruct (create_svg_medal_elements medal wood_type margin show_cut_lines)
    as (main & drawn & El & Tc & Dl & _).
  fold preview in El, Dl.
  destruct (render_production_svg_elements medal) as (Pt & _).
  fold production in Pt.
  destruct (filter_place_text (ComposedMedal.bounds medal) texts)
    as [F1 F2].
  rewrite <- Ht in F1, F2.
  split; [| split; [| split]].
  - rewrite El. cbn [nth children]. rewrite Tc, Ht, map_map.
    apply map_ext. intros t. apply place_text_content.
  - rewrite Dl. exact F2.
  - rewrite Pt. exact F1.
  - reflexivity.
Qed.

End DrawnTexts.

(** ** Lines that reach the drawings *)

Lemma create_waves_long (width height : R) :
  0 <= width ->
  Forall (fun line : Polyline => List.length line = 31%nat)
    (create_waves width height).
Proof.
  intros Hw. unfold create_waves.
  change (3 * 10 + 1)%nat with 31%nat.
  change (seq 0 2) with [0; 1]%nat. cbn [map].
  assert (All : Forall
                  (fun i =>
                     Py.gtb (- width / 2 + INR i / 10 * (width / INR 3))
                            (width / 2) = false)
                  (seq 0 31)).
  { apply Forall_forall. intros i Hi. apply in_seq in Hi.
    apply gtb_false.
    assert (Hle : INR i <= 30).
    { replace 30 with (INR 30) by (simpl; lra). apply le_INR. lia. }
    assert (H0 : 0 <= INR i) by apply pos_INR.
    simpl. nra. }
  rewrite !(collect_until_all _ _ All).
  repeat (apply Forall_cons; [rewrite length_map; reflexivity |]).
  apply Forall_nil.
Qed.

Lemma create_finish_line_closed (width height : R) (lines : list Polyline) :
  create_finish_line width height = inr lines ->
  Forall (fun line => exists x y, line = square (width / 6) x y) lines.
Proof.
  assert (G : match create_finish_line width height with
              | inr out =>
                  Forall (fun line => exists x y, line = square (width / 6) x y)
                    out
              | inl _ => True
              end).
  { unfold create_finish_line, Py.div, Py.bind, Py.ret.
    destruct (Py.eqb (width / INR 6) 0); [exact I |].
    replace (INR 6) with 6 by (simpl; lra).
    apply Forall_forall. intros line Hin.
    apply in_flat_map in Hin. destruct Hin as (row & _ & Hin).
    apply in_flat_map in Hin. destruct Hin as (col & _ & Hin).
    destruct (Nat.eqb ((row + col) mod 2) 0); [| destruct Hin].
    destruct Hin as [<- | []].
    eexists; eexists. reflexivity. }
  intros H. rewrite H in G. exact G.
Qed.

Lemma Forall_translated (P : nat -> Prop) (ox oy : R)
    (lines : list Polyline) :
  Forall (fun line : Polyline => P (List.length line)) lines ->
  Forall (fun line : Polyline => P (List.length line))
    (map (map (Geo.translate ox oy)) lines).
Proof.
  intros H. apply Forall_map. eapply Forall_impl; [| exact H].
  intros line Hl. rewrite length_map. exact Hl.
Qed.

(** Every polyline of a motif has at least two points, but for the waves
    of negative width. *)
Lemma get_motif_lines_long
    (motif_type : MotifType) (params : MotifParams.t)
    (lines : list Polyline) :
  (motif_type = WAVES -> 0 <= MotifParams.width params) ->
  get_motif motif_type params = inr lines ->
  Forall (fun line : Polyline => (2 <= List.length line)%nat) lines.
Proof.
  intros Hw H. rewrite get_motif_without_offset in H.
  destruct (get_motif motif_type (without_offset params))
    as [e | plain] eqn:G; [discriminate H |].
  cbn [Py.bind Py.ret] in H. injection H as <-.
  apply (@Forall_translated (fun n => (2 <= n)%nat)).
  unfold get_motif in G.
  cbn [without_offset MotifParams.width MotifParams.height
       MotifParams.offset_x MotifParams.offset_y] in G.
  assert (Z : Py.eqb 0 0 = true) by (apply eqb_true; reflexivity).
  rewrite Z in G. cbn [negb orb] in G.
  destruct motif_type; cbn [Py.bind Py.ret] in G.
  - injection G as <-. cbn.
    repeat (apply Forall_cons; [cbn; lia |]). apply Forall_nil.
  - injection G as <-.
    eapply Forall_impl;
      [| exact (create_waves_long (MotifParams.height params)
                  (Hw eq_refl))].
    intros line ->. lia.
  - injection G as <-. unfold create_laurel.
    cbn [flat_map map seq app].
    repeat (apply Forall_cons; [rewrite ?length_map; cbn; lia |]).
    apply Forall_nil.
  - injection G as <-. cbn.
    repeat (apply Forall_cons; [cbn; lia |]). apply Forall_nil.
  - injection G as <-. cbn.
    repeat (apply Forall_cons; [cbn; lia |]). apply Forall_nil.
  - injection G as <-. cbn.
    repeat (apply Forall_cons; [cbn; lia |]). apply Forall_nil.
  - injection G as <-. cbn.
    repeat (apply Forall_cons; [cbn; lia |]). apply Forall_nil.
  - destruct (create_finish_line _ _) as [e | squares] eqn:F;
      [discriminate G |].
    cbn [Py.bind Py.ret] in G. injection G as <-.
    eapply Forall_impl; [| exact (create_finish_line_closed _ _ F)].
    intros line (x & y & ->). cbn. lia.
Qed.

Lemma drawn_lines_all (lines : list Polyline) :
  Forall (fun line : Polyline => (2 <= List.length line)%nat) lines ->
  drawn_lines lines = lines.
Proof.
  unfold drawn_lines. induction 1 as [| l ls Hl _ IH]; [reflexivity |].
  cbn [filter]. apply Nat.leb_le in Hl. rewrite Hl, IH. reflexivity.
Qed.

Lemma extend_each_Forall {A B} (P : B -> Prop) (Q : A -> Prop)
    (f : A -> Py.result (list B)) (xs : list A) (out : list B) :
  (forall x ys, Q x -> f x = inr ys -> Forall P ys) ->
  Forall Q xs ->
  Py.extend_each f xs = inr out ->
  Forall P out.
Proof.
  intros Hf HQ H.
  destruct (extend_each_inr _ _ H) as (parts & HF & ->). clear H.
  induction HF as [| x ys xs parts Hx _ IH]; [constructor |].
  inversion HQ; subst. cbn [List.concat]. apply Forall_app. split.
  - eapply Hf; eassumption.
  - apply IH. assumption.
Qed.

Section DrawnLines.

Context {GEOS : Shapely}.

(** X23.  When no waves motif has a negative width, every motif line of a
    composed medal has at least two points, and both drawings hold all of
    them, in order: the preview in the last group of its main group, the
    production drawing in the second group of its main group. *)
Theorem drawings_motif_lines
    (composition : MedalComposition.t) (constraints : TrotecConstraints.t)
    (medal : ComposedMedal.t) (wood_type : string) (margin : R)
    (show_cut_lines : bool) :
  compose_medal composition constraints = inr medal ->
  Forall waves_have_width (MedalComposition.motifs composition) ->
  let preview := create_svg_medal medal wood_type margin show_cut_lines in
  let production := render_production_svg medal in
  Forall (fun line : Polyline => (2 <= List.length line)%nat)
    (ComposedMedal.motif_lines medal)
  /\ polylines
       (children (last_child (first_element (Svg.elements preview))))
     = ComposedMedal.motif_lines medal
  /\ polylines
       (children (nth_child 1 (first_element (Svg.elements production))))
     = ComposedMedal.motif_lines medal.
Proof.
  intros H Hw preview production.
  destruct (compose_medal_inr _ _ H) as (lines & E & Em).
  assert (Hl : ComposedMedal.motif_lines medal = lines)
    by (rewrite Em; reflexivity).
  assert (Long : Forall (fun line : Polyline => (2 <= List.length line)%nat)
                   lines).
  { eapply extend_each_Forall with (Q := waves_have_width);
      [| exact Hw | exact E].
    intros m ys Hm Hp.
    destruct (position_motif_inr _ Hp) as (ls & Hls & ->).
    unfold placed.
    apply (@Forall_translated (fun n => (2 <= n)%nat)).
    exact (@get_motif_lines_long (MotifElement.motif_type m)
             (MotifElement.params m) ls Hm Hls). }
  rewrite Hl. split; [exact Long |].
  destruct (create_svg_medal_elements medal wood_type margin show_cut_lines)
    as (main & texts & El & _ & _ & Pl & _).
  fold preview in El.
  destruct (render_production_svg_elements medal) as (_ & Pp & _).
  fold production in Pp.
  rewrite Hl in Pl, Pp. rewrite (drawn_lines_all Long) in Pl, Pp.
  split; [| exact Pp].
  rewrite El. exact Pl.
Qed.

(** X24.  Both drawings cut the ribbon hole where the hole check was run,
    with half the diameter that the composition declares as its radius,
    whatever the diameter of the profile, with which the check was run;
    they cut no hole when the composition asks for none. *)
Theorem drawings_ribbon_hole
    (composition : MedalComposition.t) (constraints : TrotecConstraints.t)
    (medal : ComposedMedal.t) (wood_type : string) (margin : R)
    (show_cut_lines : bool) :
  compose_medal composition constraints = inr medal ->
  let preview := create_svg_medal medal wood_type margin show_cut_lines in
  let production := render_production_svg medal in
  let cut :=
    if MedalComposition.ribbon_hole composition then
      [(resolved_center composition (ComposedMedal.outline medal),
        MedalComposition.ribbon_hole_diameter composition / 2)]
    else [] in
  circles (children (first_element (Svg.elements preview))) = cut
  /\ circles
       (children (nth_child 0 (first_element (Svg.elements production))))
     = cut
  /\ (MedalComposition.ribbon_hole composition = true ->
      ValidationResult.errors (ComposedMedal.validation_result medal)
      = ValidationResult.errors
          (validate_medal_shape (ComposedMedal.outline medal) constraints)
        ++ ValidationResult.errors
             (validate_ribbon_hole (ComposedMedal.outline medal)
                (resolved_center composition (ComposedMedal.outline medal))
                constraints)
        ++ text_errors constraints (MedalComposition.texts composition)).
Proof.
  intros H preview production cut.
  destruct (compose_medal_inr _ _ H) as (lines & _ & Em).
  destruct (create_svg_medal_elements medal wood_type margin show_cut_lines)
    as (main & texts & El & _ & _ & _ & Cp & _).
  fold preview in El.
  destruct (render_production_svg_elements medal) as (_ & _ & Cq & _).
  fold production in Cq.
  assert (Hc : match ComposedMedal.ribbon_hole_center medal with
               | Some center =>
                   [(center, ComposedMedal.ribbon_hole_radius medal)]
               | None => []
               end = cut).
  { subst cut. rewrite Em.
    cbn [ComposedMedal.ribbon_hole_center ComposedMedal.ribbon_hole_radius
         ComposedMedal.outline].
    rewrite resolve_ribbon_hole_center.
    destruct (MedalComposition.ribbon_hole composition); reflexivity. }
  rewrite Hc in Cp, Cq.
  split; [rewrite El; exact Cp |]. split; [exact Cq |].
  intros Hh. rewrite Em.
  cbn [ComposedMedal.validation_result ValidationResult.errors
       ComposedMedal.outline].
  rewrite resolve_ribbon_hole_errors. unfold hole_errors. rewrite Hh.
  reflexivity.
Qed.

End DrawnLines.

(** ** The arcs of the curved texts *)

Lemma arcs_app (a b : list Svg.element) : arcs (a ++ b) = arcs a ++ arcs b.
Proof. apply flat_map_app. Qed.

Lemma add_curved_text_arc (defs group : list Svg.element)
    (text_data : TextDict.t) (color : string) :
  arcs (fst (_add_curved_text defs group text_data color))
  = arcs defs ++ [text_arc text_data].
Proof.
  unfold _add_curved_text, text_arc. cbn [fst].
  rewrite arcs_app. reflexivity.
Qed.

Lemma preview_arcs_loop (color : string) (texts : list TextDict.t)
    (defs group : list Svg.element) :
  let step :=
    fun '(defs, group) text_data =>
      if TextDict.curved text_data then
        _add_curved_text defs group text_data color
      else (defs, group ++ [straight_text text_data color]) in
  arcs (fst (fold_left step texts (defs, group)))
  = arcs defs
    ++ map text_arc (filter TextDict.curved texts).
Proof.
  intros step. revert defs group.
  induction texts as [| d texts IH]; intros defs group.
  - cbn. rewrite app_nil_r. reflexivity.
  - cbn [fold_left filter].
    destruct (TextDict.curved d) eqn:C.
    + unfold step at 2. rewrite C.
      pose proof (add_curved_text_arc defs group d color) as A.
      destruct (_add_curved_text defs group d color) as [defs' group'].
      cbn [fst] in A. rewrite IH, A. cbn [map].
      rewrite <- app_assoc. reflexivity.
    + unfold step at 2. rewrite C. apply IH.
Qed.

Lemma create_svg_medal_arcs (medal : ComposedMedal.t) (wood_type : string)
    (margin : R) (show_cut_lines : bool) :
  arcs (Svg.defs (create_svg_medal medal wood_type margin show_cut_lines))
  = map text_arc (filter TextDict.curved (ComposedMedal.texts medal)).
Proof.
  unfold create_svg_medal.
  destruct (WOOD_COLORS wood_type) as [wood_bg engrave_color].
  cbn [view].
  pose proof (preview_arcs_loop engrave_color (ComposedMedal.texts medal)
                [] []) as A.
  cbn zeta in A.
  destruct (fold_left _ (ComposedMedal.texts medal) ([], []))
    as [defs texts].
  exact A.
Qed.

Lemma arc_eq (s e s' e' : point) (r r' : R) :
  fst s = fst s' -> snd s = snd s' -> r = r' ->
  fst e = fst e' -> snd e = snd e' ->
  {| Svg.arc_start := s; Svg.arc_radius := r; Svg.arc_end := e |}
  = {| Svg.arc_start := s'; Svg.arc_radius := r'; Svg.arc_end := e' |}.
Proof.
  destruct s, s', e, e'; cbn [fst snd]. intros -> -> -> -> ->. reflexivity.
Qed.

Lemma curved_arcs_flat_map (bounds : BBox) (texts : list TextElement.t) :
  map text_arc (filter TextDict.curved (map (place_text bounds) texts))
  = flat_map
      (fun t =>
         if TextDict.curved (place_text bounds t)
         then [text_arc (place_text bounds t)]
         else [])
      texts.
Proof.
  induction texts as [| t texts IH]; [reflexivity |].
  cbn [map filter flat_map].
  destruct (TextDict.curved (place_text bounds t)); cbn [map app];
    rewrite IH; reflexivity.
Qed.

Lemma place_text_arc (b : BBox) (t : TextElement.t) :
  let cx := (Geo.minx b + Geo.maxx b) / 2 in
  let cy := (Geo.miny b + Geo.maxy b) / 2 in
  let inset :=
    match TextElement.curve_radius t with
    | Some r => if Req_dec_T r 0 then 8 else (Geo.maxx b - Geo.minx b) / 2 - r
    | None => 8
    end in
  let own y :=
    if TextElement.curved t
    then [arc_over (cx - 30) (cx + 30) (- (y + TextElement.offset_y t))]
    else [] in
  (if TextDict.curved (place_text b t)
   then [text_arc (place_text b t)]
   else [])
  = match TextElement.position t with
    | AROUND_TOP =>
        [arc_over (Geo.minx b + inset) (Geo.maxx b - inset) (- cy)]
    | AROUND_BOTTOM =>
        [arc_under (Geo.minx b + inset) (Geo.maxx b - inset) (- cy)]
    | TOP => own (Geo.maxy b - 15)
    | CENTER => own cy
    | BOTTOM => own (Geo.miny b + 10)
    end.
Proof.
  intros cx cy inset own. subst own inset.
  unfold place_text, text_arc, radius_or, Py.or_else, Py.eqb,
    arc_over, arc_under.
  fold cx. fold cy.
  destruct (TextElement.position t);
    cbn [TextDict.curved TextDict.x TextDict.y TextDict.curve_radius
         TextDict.start_angle Z.eqb Pos.eqb];
    try (destruct (TextElement.curved t); [| reflexivity]);
    try destruct (TextElement.curve_radius t) as [r |];
    try destruct (Req_dec_T r 0);
    subst cx; apply (f_equal (fun a => [a]));
    apply arc_eq; cbn [fst snd]; lra.
Qed.

Section TextArcs.

Context {GEOS : Shapely}.

(** X25.  The preview lays each text of an arc position on a half circle
    around the centre of the bounding box of the medal: from left to right
    over the centre for the top arc, from right to left under it for the
    bottom arc.  When the element gives no radius, or a radius of zero, the
    ends of the half circle are 8 mm inside the bounding box on the left
    and on the right.  A text of a straight position that is flagged as
    curved is laid on a half circle of radius 30 over its own anchor,
    whatever the size of the medal.  The preview has no other path. *)
Theorem drawings_text_arcs
    (composition : MedalComposition.t) (constraints : TrotecConstraints.t)
    (medal : ComposedMedal.t) (wood_type : string) (margin : R)
    (show_cut_lines : bool) :
  compose_medal composition constraints = inr medal ->
  let b := ComposedMedal.bounds medal in
  let cx := (Geo.minx b + Geo.maxx b) / 2 in
  let cy := (Geo.miny b + Geo.maxy b) / 2 in
  let inset t :=
    match TextElement.curve_radius t with
    | Some r => if Req_dec_T r 0 then 8 else (Geo.maxx b - Geo.minx b) / 2 - r
    | None => 8
    end in
  let own t y :=
    if TextElement.curved t
    then [arc_over (cx - 30) (cx + 30) (- (y + TextElement.offset_y t))]
    else [] in
  arcs (Svg.defs (create_svg_medal medal wood_type margin show_cut_lines))
  = flat_map
      (fun t =>
         match TextElement.position t with
         | AROUND_TOP =>
             [arc_over (Geo.minx b + inset t) (Geo.maxx b - inset t) (- cy)]
         | AROUND_BOTTOM =>
             [arc_under (Geo.minx b + inset t) (Geo.maxx b - inset t) (- cy)]
         | TOP => own t (Geo.maxy b - 15)
         | CENTER => own t cy
         | BOTTOM => own t (Geo.miny b + 10)
         end)
      (MedalComposition.texts composition).
Proof.
  intros H b cx cy inset own.
  destruct (compose_medal_inr _ _ H) as (lines & _ & E).
  assert (Ht : ComposedMedal.texts medal
               = map (place_text b) (MedalComposition.texts composition))
    by (subst b; rewrite E; reflexivity).
  rewrite create_svg_medal_arcs, Ht, curved_arcs_flat_map.
  apply flat_map_ext. intros t.
  rewrite place_text_arc. fold cx. fold cy.
  destruct (TextElement.position t); reflexivity.
Qed.

End TextArcs.

(** ** The composition of [generate_medal] *)

Section GenerateFacts.

Variables (upper lower : string -> string) (split : string -> list string).

(** X26.  [generate_medal] raises [IndexError] exactly for a corporate
    event whose name is not empty and splits into no word.  Otherwise the
    composition it composes has the shape parameters of the preset of its
    event type, whatever shape is forced: forcing a shape changes the shape
    and nothing else, so that a swimming medal forced to a circle is a disk
    of eight tenths of the diameter asked for.  That composition always
    composes. *)
Theorem generate_medal_composition_forced_shape
    (event_type event_name year : string) (distance shape : option string)
    (diameter : R) :
  let generated :=
    generate_medal_composition upper lower split
      event_type event_name year distance shape diameter in
  (generated = inl IndexError
   <-> event_type = "corporate"%string
       /\ event_name <> EmptyString
       /\ split event_name = [])
  /\ (forall composition,
         generated = inr composition ->
         MedalComposition.shape_params composition
         = preset_shape_params event_type diameter
         /\ (MedalComposition.shape_type composition
             = preset_shape event_type
             \/ exists s,
                  shape = Some s
                  /\ MedalShape_of_value (lower s)
                     = Some (MedalComposition.shape_type composition))
         /\ (forall (GEOS : Shapely) (constraints : TrotecConstraints.t),
                exists medal,
                  compose_medal composition constraints = inr medal)
         /\ (forall (GEOS : Shapely) (s : string),
                event_type = "swimming"%string ->
                shape = Some s ->
                s <> EmptyString ->
                MedalShape_of_value (lower s) = Some CIRCLE ->
                get_shape (MedalComposition.shape_type composition)
                          (MedalComposition.shape_params composition)
                = create_circle (diameter * (8 / 10)))).
Proof.
  intros generated. subst generated. unfold generate_medal_composition.
  pose (forced := fun composition : MedalComposition.t =>
          force_shape lower composition shape).
  assert (Fp : forall c, MedalComposition.shape_params (forced c)
                         = MedalComposition.shape_params c).
  { intros c. unfold forced, force_shape; cbn beta. destruct shape as [s |]; [| reflexivity].
    destruct (truthy s); [| reflexivity].
    destruct (MedalShape_of_value (lower s)); reflexivity. }
  assert (Fm : forall c, MedalComposition.motifs (forced c)
                         = MedalComposition.motifs c).
  { intros c. unfold forced, force_shape; cbn beta. destruct shape as [s |]; [| reflexivity].
    destruct (truthy s); [| reflexivity].
    destruct (MedalShape_of_value (lower s)); reflexivity. }
  assert (Fs : forall c,
             MedalComposition.shape_type (forced c)
             = MedalComposition.shape_type c
             \/ exists s,
                  shape = Some s
                  /\ MedalShape_of_value (lower s)
                     = Some (MedalComposition.shape_type (forced c))).
  { intros c. unfold forced, force_shape; cbn beta. destruct shape as [s |]; [| left; reflexivity].
    destruct (truthy s); [| left; reflexivity].
    destruct (MedalShape_of_value (lower s)) as [f |] eqn:E;
      [| left; reflexivity].
    right. exists s. split; [reflexivity | exact E]. }
  assert (Fc : forall c s,
             shape = Some s -> s <> EmptyString ->
             MedalShape_of_value (lower s) = Some CIRCLE ->
             MedalComposition.shape_type (forced c) = CIRCLE).
  { intros c s Hs Hne Hv. unfold forced, force_shape; cbn beta. rewrite Hs.
    assert (T : truthy s = true).
    { unfold truthy. apply negb_true_iff. apply String.eqb_neq. exact Hne. }
    rewrite T, Hv. reflexivity. }
  assert (Returns : forall c,
             Forall motif_well_formed (MedalComposition.motifs c) ->
             forall (GEOS : Shapely) (constraints : TrotecConstraints.t),
             exists medal, compose_medal (forced c) constraints = inr medal).
  { intros c Hc GEOS constraints. apply compose_medal_returns.
    rewrite Fm. exact Hc. }
  unfold forced in Fp, Fm, Fs, Fc, Returns. clear forced.
  unfold preset_shape_params, preset_shape.
  destruct (String.eqb event_type "trail") eqn:Et.
  { apply String.eqb_eq in Et. subst event_type. cbn [String.eqb Ascii.eqb Bool.eqb].
    split.
    - split; [discriminate |]. intros [H _]. discriminate H.
    - intros c H. injection H as <-. rewrite Fp.
      split; [reflexivity |]. split; [apply Fs |]. split.
      + apply Returns. cbn.
        repeat (apply Forall_cons; [intros H; discriminate H |]).
        apply Forall_nil.
      + intros GEOS s H. discriminate H. }
  destruct (String.eqb event_type "running") eqn:Er.
  { apply String.eqb_eq in Er. subst event_type. cbn [String.eqb Ascii.eqb Bool.eqb].
    split.
    - split; [discriminate |]. intros [H _]. discriminate H.
    - intros c H. injection H as <-. rewrite Fp.
      split; [reflexivity |]. split; [apply Fs |]. split.
      + apply Returns. cbn.
        repeat (apply Forall_cons; [intros H; discriminate H |]).
        apply Forall_nil.
      + intros GEOS s H. discriminate H. }
  destruct (String.eqb event_type "swimming") eqn:Es.
  { apply String.eqb_eq in Es. subst event_type.
    split.
    - split; [discriminate |]. intros [H _]. discriminate H.
    - intros c H. injection H as <-. rewrite Fp.
      split; [reflexivity |]. split; [apply Fs |]. split.
      + apply Returns. cbn.
        repeat (apply Forall_cons; [intros H; discriminate H |]).
        apply Forall_nil.
      + intros GEOS s _ Hs Hne Hv.
        rewrite (Fc _ s Hs Hne Hv).
        rewrite get_shape_unrotated by reflexivity. reflexivity. }
  destruct (String.eqb event_type "corporate") eqn:Ec.
  { apply String.eqb_eq in Ec. subst event_type.
    unfold truthy.
    destruct (String.eqb event_name EmptyString) eqn:En; cbn [negb].
    - apply String.eqb_eq in En. split.
      + split; [discriminate |]. intros (_ & H & _). contradiction.
      + intros c H. injection H as <-. rewrite Fp.
        split; [reflexivity |]. split; [apply Fs |]. split.
        * apply Returns. cbn.
          repeat (apply Forall_cons; [intros H; discriminate H |]).
          apply Forall_nil.
        * intros GEOS s H. discriminate H.
    - apply String.eqb_neq in En.
      destruct (split event_name) as [| first rest] eqn:Sp.
      + split.
        * split; [intros _; repeat split; assumption | reflexivity].
        * intros c H. discriminate H.
      + split.
        * split; [discriminate |]. intros (_ & _ & H). discriminate H.
        * intros c H. injection H as <-. rewrite Fp.
          split; [reflexivity |]. split; [apply Fs |]. split.
          -- apply Returns. cbn.
             repeat (apply Forall_cons; [intros H; discriminate H |]).
             apply Forall_nil.
          -- intros GEOS s H. discriminate H. }
  split.
  - split; [discriminate |]. intros [H _]. subst event_type.
    discriminate Ec.
  - intros c H. injection H as <-. rewrite Fp.
    split; [reflexivity |]. split; [apply Fs |]. split.
    + apply Returns. apply Forall_nil.
    + intros GEOS s H. subst event_type. discriminate Es.
Qed.

End GenerateFacts.

Lemma compose_medal_without_hole_witness :
  exists medal,
    @compose_medal RectKernel.kernel plain_disc DEFAULT_CONSTRAINTS
    = inr medal
    /\ ComposedMedal.ribbon_hole_center medal = None
    /\ ComposedMedal.ribbon_hole_radius medal = 4 / 2.
Proof.
  destruct (@compose_medal_returns RectKernel.kernel plain_disc
              DEFAULT_CONSTRAINTS (Forall_nil _)) as [medal H].
  exists medal. split; [exact H |].
  destruct (@compose_medal_without_hole RectKernel.kernel plain_disc
              DEFAULT_CONSTRAINTS medal eq_refl H) as (C & R & _).
  split; [exact C | exact R].
Defined.

Lemma compose_medal_texts_witness :
  exists medal,
    @compose_medal RectKernel.kernel trail_composition DEFAULT_CONSTRAINTS
    = inr medal
    /\ List.length (ComposedMedal.texts medal) = 3%nat.
Proof.
  destruct (@compose_medal_returns RectKernel.kernel trail_composition
              DEFAULT_CONSTRAINTS trail_motifs_well_formed) as [medal H].
  exists medal. split; [exact H |].
  rewrite <- (Forall2_length
                (@compose_medal_texts RectKernel.kernel trail_composition
                   DEFAULT_CONSTRAINTS medal H)).
  reflexivity.
Defined.

Lemma get_motif_polyline_sizes_witness :
  exists lines,
    get_motif MOUNTAINS MotifParams.default = inr lines
    /\ map (@List.length point) lines = [7%nat].
Proof.
  apply (@get_motif_polyline_sizes MOUNTAINS MotifParams.default);
    intros H; discriminate H.
Defined.

Lemma create_waves_rows_witness :
  (exists row0 row1,
      create_waves 30 15 = [row0; row1]
      /\ (30 <= List.length row0)%nat /\ (30 <= List.length row1)%nat
      /\ Forall (fun x => x < 30 / 2) (firstn 30 (map fst row0)))
  /\ create_waves (- 30) 15 = [[]; []].
Proof.
  split.
  - destruct (proj1 (create_waves_rows 30 15))
      as (row0 & row1 & E & L0 & L1 & _ & Short & _); [lra |].
    exists row0, row1. repeat split; try assumption.
    apply Short. lra.
  - apply (proj2 (create_waves_rows (- 30) 15)). lra.
Defined.

Lemma create_finish_line_squares_witness :
  create_finish_line 0 15 = inl Py.ZeroDivisionError
  /\ exists lines,
       create_finish_line 30 15 = inr lines
       /\ List.length lines = (3 * Z.to_nat (Py.int (15 / (30 / 6))))%nat.
Proof.
  split.
  - apply (proj1 (create_finish_line_squares 0 15)). reflexivity.
  - destruct (proj2 (create_finish_line_squares 30 15)) as (lines & E & L & _);
      [lra |].
    exists lines. split; assumption.
Defined.

Lemma get_shape_octagon_rotation_witness :
  Geo.bounds (@get_shape RectKernel.kernel OCTAGON
                (with_rotation ShapeParams.default (- (225 / 10))))
  = (- (70 / 2), - (70 / 2), 70 / 2, 70 / 2).
Proof.
  apply (proj2 (proj2 (proj2
           (@get_shape_octagon_rotation RectKernel.kernel
              ShapeParams.default)))).
  simpl. lra.
Defined.

Lemma compose_medal_preset_witness :
  exists medal,
    @compose_medal RectKernel.kernel trail_composition DEFAULT_CONSTRAINTS
    = inr medal
    /\ ValidationResult.warnings (ComposedMedal.validation_result medal)
       = ValidationResult.warnings
           (@validate_medal_shape RectKernel.kernel
              (@get_shape RectKernel.kernel CIRCLE
                 (ShapeParams.init 80 None 0 0))
              DEFAULT_CONSTRAINTS).
Proof.
  destruct (@compose_medal_returns RectKernel.kernel trail_composition
              DEFAULT_CONSTRAINTS trail_motifs_well_formed) as [medal H].
  exists medal. split; [exact H |].
  exact (proj2 (proj2
           (@compose_medal_preset RectKernel.kernel trail_composition medal
              (preset_trail _ _ _ _ _) H))).
Defined.

Lemma create_custom_medal_size_witness :
  larger_dimension
    (@get_shape RectKernel.kernel HEXAGON (ShapeParams.init 70 None 0 0))
  = 70.
Proof.
  assert (P : 0 < 70) by lra.
  exact (proj1
           (@create_custom_medal_size RectKernel.kernel HEXAGON MOUNTAINS None
              "TRAIL" "FINISHER" "2026" 70 "Summit" "hetre" P)
           (or_introl eq_refl)).
Defined.

Lemma enum_value_round_trip_witness :
  MedalShape_value HEXAGON = "hexagon"%string
  /\ MotifType_value FINISH_LINE = "finish_line"%string.
Proof.
  destruct enum_value_round_trip as (_ & S & _ & M).
  split; [apply S | apply M]; reflexivity.
Defined.

Lemma suggestion_to_composition_params_falls_back_witness :
  let params :=
    suggestion_to_composition_params (empty_suggestion "TRAIL" "2026") in
  CustomParams.shape params = CIRCLE
  /\ CustomParams.secondary_motif params = None
  /\ exists medal,
       @compose_medal RectKernel.kernel (create_custom_medal_from params)
         DEFAULT_CONSTRAINTS = inr medal
       /\ ComposedMedal.name medal = EmptyString.
Proof.
  intros params.
  destruct (suggestion_to_composition_params_falls_back
              (empty_suggestion "TRAIL" "2026"))
    as (S & _ & _ & _ & _ & N & C).
  split; [exact (S CIRCLE eq_refl) |].
  split; [exact (N (or_introl eq_refl)) |].
  apply (C RectKernel.kernel DEFAULT_CONSTRAINTS). discriminate.
Defined.

Lemma drawings_hold_outline_witness :
  exists medal,
    @compose_medal RectKernel.kernel trail_composition DEFAULT_CONSTRAINTS
    = inr medal
    /\ Forall
         (in_view
            (Svg.viewBox (create_svg_medal medal "hetre" 10 true)))
         (exterior_coords (ComposedMedal.outline medal)).
Proof.
  destruct (@compose_medal_returns RectKernel.kernel trail_composition
              DEFAULT_CONSTRAINTS trail_motifs_well_formed) as [medal H].
  exists medal. split; [exact H |].
  assert (M : 0 <= 10) by lra.
  exact (proj1 (proj2 (proj2
           (@drawings_hold_outline RectKernel.kernel trail_composition
              DEFAULT_CONSTRAINTS medal "hetre" 10 true 1 H M)))).
Defined.

Lemma drawings_texts_witness :
  exists medal,
    @compose_medal RectKernel.kernel trail_composition DEFAULT_CONSTRAINTS
    = inr medal
    /\ text_contents (Svg.elements (render_production_svg medal))
       = map TextElement.content
           (filter straight (MedalComposition.texts trail_composition)).
Proof.
  destruct (@compose_medal_returns RectKernel.kernel trail_composition
              DEFAULT_CONSTRAINTS trail_motifs_well_formed) as [medal H].
  exists medal. split; [exact H |].
  exact (proj1 (proj2 (proj2
           (@drawings_texts RectKernel.kernel trail_composition
              DEFAULT_CONSTRAINTS medal "hetre" 10 true H)))).
Defined.

Lemma drawings_motif_lines_witness :
  exists medal,
    @compose_medal RectKernel.kernel trail_composition DEFAULT_CONSTRAINTS
    = inr medal
    /\ polylines
         (children
            (nth_child 1
               (first_element (Svg.elements (render_production_svg medal)))))
       = ComposedMedal.motif_lines medal.
Proof.
  destruct (@compose_medal_returns RectKernel.kernel trail_composition
              DEFAULT_CONSTRAINTS trail_motifs_well_formed) as [medal H].
  exists medal. split; [exact H |].
  assert (W : Forall waves_have_width
                (MedalComposition.motifs trail_composition)).
  { repeat (apply Forall_cons; [intros E; discriminate E |]).
    apply Forall_nil. }
  exact (proj2 (proj2
           (@drawings_motif_lines RectKernel.kernel trail_composition
              DEFAULT_CONSTRAINTS medal "hetre" 10 true H W))).
Defined.

Lemma drawings_ribbon_hole_witness :
  exists medal,
    @compose_medal RectKernel.kernel trail_composition DEFAULT_CONSTRAINTS
    = inr medal
    /\ circles
         (children
            (first_element
               (Svg.elements (create_svg_medal medal "hetre" 10 true))))
       = [(resolved_center trail_composition
             (ComposedMedal.outline medal), 4 / 2)].
Proof.
  destruct (@compose_medal_returns RectKernel.kernel trail_composition
              DEFAULT_CONSTRAINTS trail_motifs_well_formed) as [medal H].
  exists medal. split; [exact H |].
  exact (proj1
           (@drawings_ribbon_hole RectKernel.kernel trail_composition
              DEFAULT_CONSTRAINTS medal "hetre" 10 true H)).
Defined.

Lemma drawings_text_arcs_witness :
  exists medal,
    @compose_medal RectKernel.kernel trail_composition DEFAULT_CONSTRAINTS
    = inr medal
    /\ List.length
         (arcs (Svg.defs (create_svg_medal medal "hetre" 10 true)))
       = 2%nat.
Proof.
  destruct (@compose_medal_returns RectKernel.kernel trail_composition
              DEFAULT_CONSTRAINTS trail_motifs_well_formed) as [medal H].
  exists medal. split; [exact H |].
  rewrite (@drawings_text_arcs RectKernel.kernel trail_composition
             DEFAULT_CONSTRAINTS medal "hetre" 10 true H).
  reflexivity.
Defined.

Lemma generate_medal_composition_forced_shape_witness :
  exists composition,
    generate_medal_composition (fun s => s) (fun s => s) one_word
      "swimming" "relay" "2026" None (Some "circle"%string) 80
    = inr composition
    /\ @get_shape RectKernel.kernel
         (MedalComposition.shape_type composition)
         (MedalComposition.shape_params composition)
       = @create_circle RectKernel.kernel (80 * (8 / 10)).
Proof.
  eexists. split; [reflexivity |].
  refine (proj2 (proj2 (proj2
            (proj2
               (@generate_medal_composition_forced_shape
                  (fun s => s) (fun s => s) one_word
                  "swimming" "relay" "2026" None (Some "circle"%string) 80)
               _ eq_refl)))
            RectKernel.kernel "circle"%string eq_refl eq_refl _ eq_refl).
  discriminate.
Defined.

Lemma create_hexagon_orientations_witness :
  larger_dimension (create_hexagon 70 false) = 70
  /\ create_hexagon 70 false = Geo.rotate (create_hexagon 70 true) 30.
Proof.
  assert (P : 0 < 70) by lra.
  destruct (@create_hexagon_orientations RectKernel.kernel 70 P)
    as (R & _ & L & _ & _).
  split; [exact L | exact R].
Defined.

(** * Properties of the rings GEOS builds *)

(** ** Edges of a ring given by pieces *)






(** ** A ring listed from another vertex *)








(** ** Fractions of a quarter turn *)





(** ** The disk *)





(** ** The rounded rectangle *)









(** ** The kernel that rounds *)






(** ** The circle and the rectangles of [get_shape] *)



Section Rings.

Context {GEOS : Shapely}.





End Rings.

(** ** The rings on concrete parameters *)



